(** * ERP_Farm: a shallow embedding of [app/main.py]

    The request handlers of the cattle ERP, embedded as functions over an
    explicit relational store.  The store is a record of tables (lists of rows
    in rowid order); the SQLModel [Session] is a unit of work over it (pending
    statements, a transaction view, the committed state); a handler is a
    computation in a small reader/state/exception monad.

    Embedded: the models, [form_bool], [get_current_user], every route
    that reads or writes animals, milk, breeding events, gestations and
    reminders ([/], [/home], [/animals...], [/milk], [/breeding],
    [/gestation], [/dashboard]), the routes [/login], [/logout], [/signup]
    and the seeding of [init_db].  Left out: the SQLite migration scripts.

    Conventions.
    - a [date] is its proleptic Gregorian ordinal ([date.toordinal()]), so
      [d + timedelta(days=n)] is [d + n], raising [OverflowError] outside
      [date.min .. date.max];
    - a Python [float] (liters, weight) is a binary64 [float]; [+] and [/]
      are the IEEE operations, [round(x, 2)] and [sum] are Python's.  Where
      the code yields the [int] [0] among floats (an empty [sum], the
      [else 0] of the dashboard) the embedding carries [0.0];
    - an [int] is a [Z]; the values the default engine accepts are those of
      the [sqlite3] driver: an integer outside 64 bits raises
      [OverflowError] when it is bound, a NaN is bound as [NULL], which the
      float columns (all [NOT NULL]) refuse with [IntegrityError], and
      [-0.0] is stored as [0.0].  These tests apply to what a request
      brings; a row of the store holds values the engine could store;
    - [datetime.utcnow()], [date.today()], [str.lower] and [strftime] are
      supplied by the environment [Env], and so are the property of the
      engine chosen by [DB_URL] that the handlers can observe (whether
      foreign keys are enforced) and that of the interpreter (whether [sum]
      compensates rounding errors, as Python 3.12 and later do).

    Layout: the embedding; closed forms and the rules of the specification
    as definitions; then the lemmas, one part per handler. *)

From Stdlib Require Import Floats.
From Stdlib Require Import ZArith QArith Qround List String Bool Lia DecimalString.
From Stdlib Require Import Permutation.
Import ListNotations.

Local Open Scope string_scope.
Local Open Scope Z_scope.
Local Open Scope list_scope.

(* Decimal float literals stand for the nearest binary64 value, as in Python. *)
Set Warnings "-inexact-float".

(* ------------------------------------------------------------------ *)
(** ** Dates *)

Definition date := Z.

(** [date.min.toordinal()] and [date.max.toordinal()]. *)
Definition DATE_MIN : Z := 1.
Definition DATE_MAX : Z := 3652059.

Definition date_in_range (d : Z) : bool := (DATE_MIN <=? d) && (d <=? DATE_MAX).

(** [d + timedelta(days=n)]; [None] is Python's [OverflowError]. *)
Definition date_add_days (d : date) (n : Z) : option date :=
  if date_in_range (d + n) then Some (d + n) else None.

Definition DEFAULT_GESTATION_DAYS : Z := 283.

(* ------------------------------------------------------------------ *)
(** ** Python truthiness and small helpers *)

(** [bool(x)] for an [Optional[int]]: [None] and [0] are falsy. *)
Definition truthy_int (x : option Z) : bool :=
  match x with
  | None => false
  | Some n => negb (n =? 0)
  end.

(** [bool(s)] for an [Optional[str]]: [None] and the empty string are falsy. *)
Definition truthy_str (x : option string) : bool :=
  match x with
  | None => false
  | Some s => negb (String.eqb s "")
  end.

(** [x or None] on an [Optional[str]]. *)
Definition str_or_none (x : option string) : option string :=
  if truthy_str x then x else None.

(** [s or default] on a [str]. *)
Definition str_or (s default : string) : string :=
  if String.eqb s "" then default else s.

(** [x or 0.0] on a float: zero of either sign is falsy, NaN is truthy. *)
Definition float_or_zero (x : float) : float :=
  if (x =? 0)%float then 0%float else x.

(** [==] on two [Optional[int]] values. *)
Definition opt_int_eqb (x y : option Z) : bool :=
  match x, y with
  | None, None => true
  | Some a, Some b => a =? b
  | _, _ => false
  end.

Definition is_none {A : Type} (x : option A) : bool :=
  match x with None => true | Some _ => false end.

(** [str(n)] for an [int], as used by the f-string URLs. *)
Definition str_of_int (n : Z) : string := NilZero.string_of_int (Z.to_int n).

(** [total = 0.0] followed by [total += x] for each [x]: float additions
    from left to right.  This is also the builtin [sum] of Python up to
    3.11, whose [int] start value [0] enters the first addition as [0.0]. *)
Definition sum_naive (l : list float) : float := fold_left PrimFloat.add l 0%float.

(** The builtin [sum] of Python 3.12 and later on floats: Neumaier's
    compensated summation; the compensation [c] is added at the end when it
    is non-zero and finite. *)
Fixpoint neumaier (s c : float) (l : list float) : float :=
  match l with
  | [] => if negb (c =? 0)%float && is_finite c then (s + c)%float else s
  | x :: l' =>
      let t := (s + x)%float in
      let c' := if (abs x <=? abs s)%float
                then (c + ((s - t) + x))%float
                else (c + ((x - t) + s))%float in
      neumaier t c' l'
  end.

Definition sum_neumaier (l : list float) : float :=
  match l with
  | [] => 0%float
  | x :: l' => neumaier (0 + x)%float 0%float l'
  end.

(** [sum(l)] on a list of floats. *)
Definition builtin_sum (compensated : bool) (l : list float) : float :=
  if compensated then sum_neumaier l else sum_naive l.

(** [round(x, 2)].  Python rounds the exact value of the float to the
    nearest hundredth, ties to the even hundredth, and returns the float
    nearest to that decimal; zeros, infinities and NaN round to themselves. *)
Definition round_half_even (x : Q) : Z :=
  let n := Qfloor x in
  let frac := (x - inject_Z n)%Q in
  match Qcompare frac (1 # 2) with
  | Lt => n
  | Gt => n + 1
  | Eq => if Z.even n then n else n + 1
  end.

(** The exact value of the finite float [m * 2^e]. *)
Definition exact_value (m : positive) (e : Z) : Q :=
  (inject_Z (Zpos m) * Qpower 2 e)%Q.

(** The float nearest to [n / 100]. *)
Definition hundredths (n : Z) : float :=
  match n with
  | Zpos p =>
      SF2Prim (SFdiv prec emax (S754_finite false p 0) (S754_finite false 100 0))
  | _ => 0%float
  end.

Definition round2 (x : float) : float :=
  match Prim2SF x with
  | S754_finite s m e =>
      let r := hundredths (round_half_even (exact_value m e * 100)) in
      if s then (- r)%float else r
  | _ => x
  end.

(** What the [sqlite3] driver accepts as an integer parameter. *)
Definition sqlite_int (k : Z) : bool := (- 2 ^ 63 <=? k) && (k <? 2 ^ 63).

(** What a [FLOAT NOT NULL] column of SQLite holds after [x] is written to
    it: NaN is bound as [NULL], which the column refuses ([None]); a zero is
    stored as the integer 0 and read back as [0.0]. *)
Definition sqlite_real (x : float) : option float :=
  if is_nan x then None
  else if (x =? 0)%float then Some 0%float
  else Some x.

(** [needle in haystack] on strings. *)
Fixpoint str_contains (needle haystack : string) : bool :=
  if String.prefix needle haystack then true
  else match haystack with
       | EmptyString => false
       | String _ rest => str_contains needle rest
       end.

(** [ORDER BY key DESC] and [ORDER BY key] on an integer key, as a stable
    insertion sort: rows of equal key stay in table order (the engine leaves
    their order open). *)
Section OrderBy.
Context {A : Type} (key : A -> Z).

Fixpoint insert_desc (x : A) (l : list A) : list A :=
    match l with
    | [] => [x]
    | y :: l' => if key x <? key y then y :: insert_desc x l' else x :: l
    end.

Definition order_by_desc (l : list A) : list A :=
    fold_right insert_desc [] l.

Fixpoint insert_asc (x : A) (l : list A) : list A :=
    match l with
    | [] => [x]
    | y :: l' => if key y <? key x then y :: insert_asc x l' else x :: l
    end.

Definition order_by_asc (l : list A) : list A :=
    fold_right insert_asc [] l.
End OrderBy.

(* ------------------------------------------------------------------ *)
(** ** Models *)

Module Breed.
Record t := mk { id : option Z; name : string }.
End Breed.

Module Farm.
Record t := mk { id : option Z; name : string; location : option string }.
End Farm.

Module User.
Record t := mk {
    id : option Z;
    username : string;
    hashed_password : string;
    full_name : option string;
    is_admin : bool;
    farm_id : option Z;
    created_at : Z
  }.
End User.

Module Animal.
Record t := mk {
    id : option Z;
    tag_no : string;
    sex : string;
    birthdate : date;
    breed_id : option Z;
    farm_id : option Z;
    cattle_type : string;
    mother_tag_no : option string;
    lactating : bool;
    pregnant : bool;
    vaccinated : bool;
    health : option string;
    weight : float;
    reproductions : Z;
    created_at : Z
  }.
End Animal.

Module MilkYieldDaily.
Record t := mk {
    id : option Z;
    animal_id : Z;
    entry_date : date;
    am_liters : float;
    pm_liters : float;
    total_liters : float
  }.
End MilkYieldDaily.

Inductive BreedingType := Heat | AI | NaturalService | PDPositive | PDNegative.

Module BreedingEvent.
Record t := mk {
    id : option Z;
    animal_id : Z;
    event_type : BreedingType;
    event_date : date;
    notes : option string
  }.
End BreedingEvent.

Module Gestation.
Record t := mk {
    id : option Z;
    animal_id : Z;
    service_date : date;
    predicted_calving_date : date;
    actual_calving_date : option date;
    notes : option string
  }.
End Gestation.

Module VaccinationReminder.
Record t := mk {
    id : option Z;
    animal_id : Z;
    reminder_date : date;
    notes : option string;
    created_at : Z
  }.
End VaccinationReminder.

(* ------------------------------------------------------------------ *)
(** ** The store *)

Record DB := mkDB {
  farms : list Farm.t;
  users : list User.t;
  breeds : list Breed.t;
  animals : list Animal.t;
  milk : list MilkYieldDaily.t;
  breeding_events : list BreedingEvent.t;
  gestations : list Gestation.t;
  reminders : list VaccinationReminder.t
}.

Definition empty_db : DB := mkDB [] [] [] [] [] [] [] [].

Definition set_breeds (db : DB) (l : list Breed.t) : DB :=
  mkDB (farms db) (users db) l (animals db) (milk db)
       (breeding_events db) (gestations db) (reminders db).

Definition set_animals (db : DB) (l : list Animal.t) : DB :=
  mkDB (farms db) (users db) (breeds db) l (milk db)
       (breeding_events db) (gestations db) (reminders db).

Definition set_milk (db : DB) (l : list MilkYieldDaily.t) : DB :=
  mkDB (farms db) (users db) (breeds db) (animals db) l
       (breeding_events db) (gestations db) (reminders db).

Definition set_breeding_events (db : DB) (l : list BreedingEvent.t) : DB :=
  mkDB (farms db) (users db) (breeds db) (animals db) (milk db)
       l (gestations db) (reminders db).

Definition set_gestations (db : DB) (l : list Gestation.t) : DB :=
  mkDB (farms db) (users db) (breeds db) (animals db) (milk db)
       (breeding_events db) l (reminders db).

Definition set_reminders (db : DB) (l : list VaccinationReminder.t) : DB :=
  mkDB (farms db) (users db) (breeds db) (animals db) (milk db)
       (breeding_events db) (gestations db) l.

(** Primary keys: an integer primary key without a sequence takes the
    largest key of the table plus one. *)
Definition max_id {A : Type} (id : A -> option Z) (l : list A) : Z :=
  fold_right (fun r m => match id r with Some i => Z.max i m | None => m end) 0 l.

Definition next_id {A : Type} (id : A -> option Z) (l : list A) : Z :=
  max_id id l + 1.

Definition has_id {A : Type} (id : A -> option Z) (k : Z) (r : A) : bool :=
  opt_int_eqb (id r) (Some k).

(** [SELECT ... WHERE id = k]. *)
Definition get_user (db : DB) (k : Z) : option User.t :=
  find (has_id User.id k) (users db).

Definition get_animal (db : DB) (k : Z) : option Animal.t :=
  find (has_id Animal.id k) (animals db).

Definition get_breed (db : DB) (k : Z) : option Breed.t :=
  find (has_id Breed.id k) (breeds db).

Definition get_farm (db : DB) (k : Z) : option Farm.t :=
  find (has_id Farm.id k) (farms db).

(** *** Statements

    Each statement returns [None] where the engine raises [IntegrityError].
    [fk] tells whether the engine enforces foreign keys: the default
    [sqlite:///erp.db] engine does not (no [PRAGMA foreign_keys] is issued),
    a server database named by [DATABASE_URL] does.  The unique index on
    [animal.tag_no] is enforced by both, and so is [NOT NULL] on the float
    columns, which a NaN violates. *)

(** A float as the column holds it once it is stored. *)
Definition stored (x : float) : float := if (x =? 0)%float then 0%float else x.

Definition fk_target_ok {A : Type} (get : Z -> option A) (ref : option Z) : bool :=
  match ref with
  | None => true
  | Some k => negb (is_none (get k))
  end.

Definition animal_fks_ok (db : DB) (a : Animal.t) : bool :=
  fk_target_ok (get_breed db) (Animal.breed_id a)
  && fk_target_ok (get_farm db) (Animal.farm_id a).

Definition animal_present (db : DB) (k : Z) : bool :=
  negb (is_none (get_animal db k)).

Definition referenced (db : DB) (k : Z) : bool :=
  existsb (fun m => MilkYieldDaily.animal_id m =? k) (milk db)
  || existsb (fun e => BreedingEvent.animal_id e =? k) (breeding_events db)
  || existsb (fun g => Gestation.animal_id g =? k) (gestations db)
  || existsb (fun v => VaccinationReminder.animal_id v =? k) (reminders db).

Definition insert_breed (db : DB) (b : Breed.t) : option DB :=
  Some (set_breeds db
          (breeds db ++ [Breed.mk (Some (next_id Breed.id (breeds db))) (Breed.name b)])).

Definition animal_with_id (a : Animal.t) (i : option Z) : Animal.t :=
  Animal.mk i (Animal.tag_no a) (Animal.sex a) (Animal.birthdate a)
    (Animal.breed_id a) (Animal.farm_id a) (Animal.cattle_type a)
    (Animal.mother_tag_no a) (Animal.lactating a) (Animal.pregnant a)
    (Animal.vaccinated a) (Animal.health a) (Animal.weight a)
    (Animal.reproductions a) (Animal.created_at a).

(** The row of [a] as the table holds it: the weight as it is stored. *)
Definition stored_animal (a : Animal.t) : Animal.t :=
  Animal.mk (Animal.id a) (Animal.tag_no a) (Animal.sex a) (Animal.birthdate a)
    (Animal.breed_id a) (Animal.farm_id a) (Animal.cattle_type a)
    (Animal.mother_tag_no a) (Animal.lactating a) (Animal.pregnant a)
    (Animal.vaccinated a) (Animal.health a) (stored (Animal.weight a))
    (Animal.reproductions a) (Animal.created_at a).

Definition insert_animal (fk : bool) (db : DB) (a : Animal.t) : option DB :=
  if existsb (fun r => String.eqb (Animal.tag_no r) (Animal.tag_no a)) (animals db)
  then None
  else if fk && negb (animal_fks_ok db a) then None
  else if is_nan (Animal.weight a) then None
  else Some (set_animals db
               (animals db
                ++ [animal_with_id (stored_animal a)
                      (Some (next_id Animal.id (animals db)))])).

(** The foreign keys an [UPDATE] of [old] into [a] writes are those whose
    value changes; the engine checks no other. *)
Definition written_fks_ok (db : DB) (old a : Animal.t) : bool :=
  (opt_int_eqb (Animal.breed_id old) (Animal.breed_id a)
   || fk_target_ok (get_breed db) (Animal.breed_id a))
  && (opt_int_eqb (Animal.farm_id old) (Animal.farm_id a)
      || fk_target_ok (get_farm db) (Animal.farm_id a)).

(** [UPDATE animal SET ... WHERE id = a.id]. *)
Definition update_animal (fk : bool) (db : DB) (a : Animal.t) : option DB :=
  if existsb (fun r => String.eqb (Animal.tag_no r) (Animal.tag_no a)
                       && negb (opt_int_eqb (Animal.id r) (Animal.id a)))
             (animals db)
  then None
  else if fk && negb (forallb (fun old =>
                                 negb (opt_int_eqb (Animal.id old) (Animal.id a))
                                 || written_fks_ok db old a)
                              (animals db))
  then None
  else if is_nan (Animal.weight a) then None
  else Some (set_animals db
               (map (fun r => if opt_int_eqb (Animal.id r) (Animal.id a)
                              then stored_animal a else r)
                    (animals db))).

(** [DELETE FROM animal WHERE id = a.id]. *)
Definition delete_animal (fk : bool) (db : DB) (a : Animal.t) : option DB :=
  if fk && match Animal.id a with
           | Some k => referenced db k
           | None => false
           end
  then None
  else Some (set_animals db
               (filter (fun r => negb (opt_int_eqb (Animal.id r) (Animal.id a)))
                       (animals db))).

(** Whether the three float columns of a milk row accept its values. *)
Definition liters_ok (m : MilkYieldDaily.t) : bool :=
  negb (is_nan (MilkYieldDaily.am_liters m)
        || is_nan (MilkYieldDaily.pm_liters m)
        || is_nan (MilkYieldDaily.total_liters m)).

(** The row of [m] as the table holds it, under primary key [i]. *)
Definition stored_milk (m : MilkYieldDaily.t) (i : option Z) : MilkYieldDaily.t :=
  MilkYieldDaily.mk i (MilkYieldDaily.animal_id m) (MilkYieldDaily.entry_date m)
    (stored (MilkYieldDaily.am_liters m)) (stored (MilkYieldDaily.pm_liters m))
    (stored (MilkYieldDaily.total_liters m)).

Definition insert_milk (fk : bool) (db : DB) (m : MilkYieldDaily.t) : option DB :=
  if fk && negb (animal_present db (MilkYieldDaily.animal_id m)) then None
  else if negb (liters_ok m) then None
  else Some (set_milk db
               (milk db
                ++ [stored_milk m (Some (next_id MilkYieldDaily.id (milk db)))])).

Definition update_milk (db : DB) (m : MilkYieldDaily.t) : option DB :=
  if negb (liters_ok m) then None
  else Some (set_milk db
               (map (fun r => if opt_int_eqb (MilkYieldDaily.id r) (MilkYieldDaily.id m)
                              then stored_milk m (MilkYieldDaily.id m) else r)
                    (milk db))).

Definition insert_breeding_event (fk : bool) (db : DB) (e : BreedingEvent.t)
  : option DB :=
  if fk && negb (animal_present db (BreedingEvent.animal_id e)) then None
  else Some (set_breeding_events db
               (breeding_events db
                ++ [BreedingEvent.mk
                      (Some (next_id BreedingEvent.id (breeding_events db)))
                      (BreedingEvent.animal_id e) (BreedingEvent.event_type e)
                      (BreedingEvent.event_date e) (BreedingEvent.notes e)])).

Definition insert_gestation (fk : bool) (db : DB) (g : Gestation.t) : option DB :=
  if fk && negb (animal_present db (Gestation.animal_id g)) then None
  else Some (set_gestations db
               (gestations db
                ++ [Gestation.mk (Some (next_id Gestation.id (gestations db)))
                      (Gestation.animal_id g) (Gestation.service_date g)
                      (Gestation.predicted_calving_date g)
                      (Gestation.actual_calving_date g) (Gestation.notes g)])).

Definition update_gestation (db : DB) (g : Gestation.t) : option DB :=
  Some (set_gestations db
          (map (fun r => if opt_int_eqb (Gestation.id r) (Gestation.id g)
                         then g else r)
               (gestations db))).

Definition insert_reminder (fk : bool) (db : DB) (v : VaccinationReminder.t)
  : option DB :=
  if fk && negb (animal_present db (VaccinationReminder.animal_id v)) then None
  else Some (set_reminders db
               (reminders db
                ++ [VaccinationReminder.mk
                      (Some (next_id VaccinationReminder.id (reminders db)))
                      (VaccinationReminder.animal_id v)
                      (VaccinationReminder.reminder_date v)
                      (VaccinationReminder.notes v)
                      (VaccinationReminder.created_at v)])).

(* ------------------------------------------------------------------ *)
(** ** The session: a unit of work over the store *)

(** What [session.add], attribute assignment on a loaded row and
    [session.delete] leave for the next flush. *)
Inductive Pending :=
| New_Breed (b : Breed.t)
| New_Animal (a : Animal.t)
| New_Milk (m : MilkYieldDaily.t)
| New_Event (e : BreedingEvent.t)
| New_Gestation (g : Gestation.t)
| New_Reminder (v : VaccinationReminder.t)
| Dirty_Animal (a : Animal.t)
| Dirty_Milk (m : MilkYieldDaily.t)
| Dirty_Gestation (g : Gestation.t)
| Deleted_Animal (a : Animal.t).

Definition emit (fk : bool) (db : DB) (p : Pending) : option DB :=
  match p with
  | New_Breed b => insert_breed db b
  | New_Animal a => insert_animal fk db a
  | New_Milk m => insert_milk fk db m
  | New_Event e => insert_breeding_event fk db e
  | New_Gestation g => insert_gestation fk db g
  | New_Reminder v => insert_reminder fk db v
  | Dirty_Animal a => update_animal fk db a
  | Dirty_Milk m => update_milk db m
  | Dirty_Gestation g => update_gestation db g
  | Deleted_Animal a => delete_animal fk db a
  end.

(** What a request reads from outside the store. *)
Record Env := mkEnv {
  fk_enforced : bool;
  today : date;
  utcnow : Z;
  lower : string -> string;
  strftime_b_d : date -> string;
  compensated_sum : bool
}.

Inductive Exc :=
| HTTPException (status_code : Z) (detail : string)
| IntegrityError
| OverflowError.

(** Whether the driver binds the integers a statement carries from the
    request: the [reproductions] of an animal form.  (Keys and foreign keys
    of pending rows were read from the store or looked up in it before.) *)
Definition binds (p : Pending) : bool :=
  match p with
  | New_Animal a | Dirty_Animal a => sqlite_int (Animal.reproductions a)
  | _ => true
  end.

(** A flush sends the pending statements in order; each is bound, which
    raises [OverflowError] on an integer out of range, and then executed,
    which raises [IntegrityError] on a violated constraint. *)
Fixpoint flush_statements (fk : bool) (db : DB) (ps : list Pending) : Exc + DB :=
  match ps with
  | [] => inr db
  | p :: ps' =>
      if binds p then
        match emit fk db p with
        | Some db' => flush_statements fk db' ps'
        | None => inl IntegrityError
        end
      else inl OverflowError
  end.

(** [committed] is what other requests see; [txn] is the open transaction;
    [session_user_id] is [request.session["user_id"]], the only key of the
    signed cookie the handlers below read. *)
Record St := mkSt {
  committed : DB;
  txn : DB;
  pending : list Pending;
  session_user_id : option Z
}.

Definition M (A : Type) : Type := Env -> St -> (Exc + A) * St.

Definition ret {A : Type} (a : A) : M A := fun _ st => (inr a, st).

Definition bind {A B : Type} (m : M A) (k : A -> M B) : M B :=
  fun env st =>
    match m env st with
    | (inl e, st') => (inl e, st')
    | (inr a, st') => k a env st'
    end.

Definition raise {A : Type} (e : Exc) : M A := fun _ st => (inl e, st).

Declare Scope session_scope.
Delimit Scope session_scope with session.
Notation "x <- m ;; k" := (bind m (fun x => k))
  (at level 61, m at next level, right associativity) : session_scope.
Notation "m ;; k" := (bind m (fun _ => k))
  (at level 61, right associativity) : session_scope.
Local Open Scope session_scope.

Definition ask {A : Type} (f : Env -> A) : M A := fun env st => (inr (f env), st).

(** [request.session.get("user_id")] and [request.session.clear()]. *)
Definition request_session_user_id : M (option Z) :=
  fun _ st => (inr (session_user_id st), st).

Definition request_session_clear : M unit :=
  fun _ st => (inr tt, mkSt (committed st) (txn st) (pending st) None).

(** [session.get(Model, k)] for a key [k] that comes with the request (the
    path, the cookie).  The driver refuses to bind an integer outside 64
    bits; a key under which a row is found is the value of an [INTEGER]
    column, so the refusal only shows when no row is found. *)
Definition session_get {A : Type} (get : DB -> Z -> option A) (k : Z) : M (option A) :=
  fun _ st =>
    (match get (txn st) k with
     | Some r => inr (Some r)
     | None => if sqlite_int k then inr None else inl OverflowError
     end, st).

(** [session.get(Model, row.key)] for a key that was read from a column of
    a loaded row, which the driver always binds. *)
Definition session_get_fk {A : Type} (get : DB -> Z -> option A) (k : Z)
  : M (option A) :=
  fun _ st => (inr (get (txn st) k), st).

Definition session_flush : M unit :=
  fun env st =>
    match flush_statements (fk_enforced env) (txn st) (pending st) with
    | inr db' => (inr tt, mkSt (committed st) db' [] (session_user_id st))
    | inl e => (inl e, st)
    end.

(** [session.exec(select(...))]: pending changes are flushed first. *)
Definition session_exec {A : Type} (query : DB -> A) : M A :=
  session_flush ;;
  fun _ st => (inr (query (txn st)), st).

(** [session.exec(select(...).where(column == k, ...)).first()] for an
    integer [k] of the path: as for [session_get], the driver's refusal of
    an integer outside 64 bits shows when no row is found. *)
Definition session_exec_first {A : Type} (k : Z) (query : DB -> option A)
  : M (option A) :=
  r <- session_exec query ;;
  match r with
  | Some x => ret (Some x)
  | None => if sqlite_int k then ret None else raise OverflowError
  end.

Definition session_add (p : Pending) : M unit :=
  fun _ st => (inr tt, mkSt (committed st) (txn st) (pending st ++ [p])
                            (session_user_id st)).

Definition session_delete (a : Animal.t) : M unit :=
  session_add (Deleted_Animal a).

Definition session_commit : M unit :=
  session_flush ;;
  fun _ st => (inr tt, mkSt (txn st) (txn st) [] (session_user_id st)).

Definition session_rollback : M unit :=
  fun _ st => (inr tt, mkSt (committed st) (committed st) [] (session_user_id st)).

(** [session.refresh(breed)] right after the commit that inserted it. *)
Definition session_refresh_breed (b : Breed.t) : M Breed.t :=
  fun _ st => (inr (last (breeds (txn st)) b), st).

(** [try: body  except IntegrityError: handler]. *)
Definition try_except_IntegrityError {A : Type} (body handler : M A) : M A :=
  fun env st =>
    match body env st with
    | (inl IntegrityError, st') => handler env st'
    | r => r
    end.

(** [[x for x in l if p(x)]] with a test that reads the session. *)
Fixpoint filterM {A : Type} (p : A -> M bool) (l : list A) : M (list A) :=
  match l with
  | [] => ret []
  | x :: l' =>
      b <- p x ;;
      rest <- filterM p l' ;;
      ret (if b then x :: rest else rest)
  end.

Fixpoint mapM {A B : Type} (f : A -> M B) (l : list A) : M (list B) :=
  match l with
  | [] => ret []
  | x :: l' =>
      y <- f x ;;
      rest <- mapM f l' ;;
      ret (y :: rest)
  end.

(** [d + timedelta(days=n)] inside a handler. *)
Definition date_plus (d : date) (n : Z) : M date :=
  match date_add_days d n with
  | Some d' => ret d'
  | None => raise OverflowError
  end.

(* ------------------------------------------------------------------ *)
(** ** Responses *)

Module HomeCtx.
Record t := mk {
  user : option User.t;
  animals_count : option Z;
  milk_entries_count : option Z;
  gestations_count : option Z
}.
End HomeCtx.

Module AnimalsCtx.
Record t := mk { animals : list Animal.t; user : User.t; q : string }.
End AnimalsCtx.

Module AnimalDetailCtx.
Record t := mk {
  animal : Animal.t;
  breeding_events : list BreedingEvent.t;
  gestation : option Gestation.t;
  milk_entries : list MilkYieldDaily.t;
  vac_reminders : list VaccinationReminder.t;
  DEFAULT_GESTATION_DAYS : Z;
  today : date;
  user : User.t
}.
End AnimalDetailCtx.

Module AnimalEditCtx.
Record t := mk { animal : Animal.t; user : User.t }.
End AnimalEditCtx.

Module DashboardCtx.
Record t := mk {
  user : User.t;
  total_animals : Z;
  today_milk : float;
  avg_7 : float;
  pregnant : Z;
  chart_labels : list string;
  chart_values : list float;
  recent_events : list BreedingEvent.t
}.
End DashboardCtx.

Inductive TemplateContext :=
| Home (c : HomeCtx.t)
| Animals (c : AnimalsCtx.t)
| AnimalDetail (c : AnimalDetailCtx.t)
| AnimalEdit (c : AnimalEditCtx.t)
| Dashboard (c : DashboardCtx.t).

(** What the client receives: a redirect, a rendered template, the JSON
    error FastAPI makes of a raised [HTTPException], or the 500 of an
    exception nobody caught. *)
Inductive Response :=
| RedirectResponse (url : string) (status_code : Z)
| TemplateResponse (name : string) (context : TemplateContext)
| ErrorResponse (status_code : Z) (detail : string)
| InternalServerError.

(** One request: [get_session] opens a session on the committed store and
    closes it when the handler is done, which drops whatever was not
    committed. *)
Definition run_handler (h : M Response) (env : Env) (db : DB) (uid : option Z)
  : Response * DB * option Z :=
  match h env (mkSt db db [] uid) with
  | (inr r, st) => (r, committed st, session_user_id st)
  | (inl (HTTPException s d), st) => (ErrorResponse s d, committed st, session_user_id st)
  | (inl _, st) => (InternalServerError, committed st, session_user_id st)
  end.

Definition len {A : Type} (l : list A) : Z := Z.of_nat (List.length l).

(* ------------------------------------------------------------------ *)
(** ** Small helpers of [main.py] *)

Definition form_bool (lower : string -> string) (value : option string) : bool :=
  match value with
  | None => false
  | Some s => existsb (String.eqb (lower s)) ["on"; "yes"; "true"; "1"]
  end.

Definition get_current_user : M (option User.t) :=
  user_id <- request_session_user_id ;;
  match user_id with
  | None => ret None
  | Some k =>
      if k =? 0 then ret None
      else
        user <- session_get get_user k ;;
        match user with
        | None => request_session_clear ;; ret None
        | Some u => ret (Some u)
        end
  end.

(** [a = session.get(Animal, animal_id)] followed by the test
    [a and a.farm_id == user.farm_id]. *)
Definition animal_of_farm (farm_id : option Z) (animal_id : Z) : M bool :=
  a <- session_get_fk get_animal animal_id ;;
  ret (match a with
       | Some a => opt_int_eqb (Animal.farm_id a) farm_id
       | None => false
       end).

(** The [where] clauses of the handlers. *)
Definition milk_on (d : date) (m : MilkYieldDaily.t) : bool :=
  MilkYieldDaily.entry_date m =? d.

Definition milk_between (lo hi : date) (m : MilkYieldDaily.t) : bool :=
  (lo <=? MilkYieldDaily.entry_date m) && (MilkYieldDaily.entry_date m <=? hi).

Definition milk_of (animal_id : Z) (m : MilkYieldDaily.t) : bool :=
  MilkYieldDaily.animal_id m =? animal_id.

Definition gestation_pending (today : date) (g : Gestation.t) : bool :=
  (today <=? Gestation.predicted_calving_date g)
  && is_none (Gestation.actual_calving_date g).

Definition gestation_of (animal_id : Z) (g : Gestation.t) : bool :=
  Gestation.animal_id g =? animal_id.

Definition event_of (animal_id : Z) (e : BreedingEvent.t) : bool :=
  BreedingEvent.animal_id e =? animal_id.

Definition reminder_of (animal_id : Z) (v : VaccinationReminder.t) : bool :=
  VaccinationReminder.animal_id v =? animal_id.

Definition animal_in_farm (farm_id : option Z) (a : Animal.t) : bool :=
  opt_int_eqb (Animal.farm_id a) farm_id.

(** [select(Gestation).where(animal_id == k).order_by(service_date.desc())]
    followed by [.first()]. *)
Definition latest_gestation (animal_id : Z) (db : DB) : option Gestation.t :=
  hd_error (order_by_desc Gestation.service_date
              (filter (gestation_of animal_id) (gestations db))).

(* ------------------------------------------------------------------ *)
(** ** Public landing page *)

Definition home : M Response :=
  user <- get_current_user ;;
  match user with
  | None =>
      ret (TemplateResponse "home.html" (Home (HomeCtx.mk None None None None)))
  | Some u =>
      day <- ask today ;;
      rows <- session_exec (fun db =>
                if truthy_int (User.farm_id u)
                then filter (animal_in_farm (User.farm_id u)) (animals db)
                else animals db) ;;
      let animals_count := len rows in
      milk_rows <- session_exec (fun db => filter (milk_on day) (milk db)) ;;
      milk_entries_count <-
        (if truthy_int (User.farm_id u)
         then kept <- filterM (fun m => animal_of_farm (User.farm_id u)
                                          (MilkYieldDaily.animal_id m)) milk_rows ;;
              ret (len kept)
         else ret (len milk_rows)) ;;
      gest_list <- session_exec (fun db =>
                     filter (gestation_pending day) (gestations db)) ;;
      gestations_count <-
        (if truthy_int (User.farm_id u)
         then kept <- filterM (fun g => animal_of_farm (User.farm_id u)
                                          (Gestation.animal_id g)) gest_list ;;
              ret (len kept)
         else ret (len gest_list)) ;;
      ret (TemplateResponse "home.html"
             (Home (HomeCtx.mk (Some u) (Some animals_count)
                      (Some milk_entries_count) (Some gestations_count))))
  end.

(** [GET /] runs the same statements as [GET /home]. *)
Definition root_redirect : M Response := home.

(* ------------------------------------------------------------------ *)
(** ** Animals *)

Definition id_key (a : Animal.t) : Z :=
  match Animal.id a with Some i => i | None => 0 end.

Definition animals_list (q : option string) : M Response :=
  user <- get_current_user ;;
  match user with
  | None => ret (RedirectResponse "/login" 302)
  | Some u =>
      animals_all <- session_exec (fun db =>
        order_by_asc id_key
          (if truthy_int (User.farm_id u) && negb (User.is_admin u)
           then filter (animal_in_farm (User.farm_id u)) (animals db)
           else animals db)) ;;
      lo <- ask lower ;;
      rows <-
        (if truthy_str q then
           let ql := lo (match q with Some s => s | None => "" end) in
           filterM (fun a =>
             breed <- (match Animal.breed_id a with
                       | Some b => if b =? 0 then ret None
                                   else session_get_fk get_breed b
                       | None => ret None
                       end) ;;
             ret (str_contains ql (lo (Animal.tag_no a))
                  || str_contains ql
                       (lo (match Animal.mother_tag_no a with
                            | Some s => s
                            | None => ""
                            end))
                  || match breed with
                     | Some b => str_contains ql (lo (Breed.name b))
                     | None => false
                     end)) animals_all
         else ret animals_all) ;;
      ret (TemplateResponse "animals.html"
             (Animals (AnimalsCtx.mk rows u
                         (match q with
                          | Some s => s
                          | None => ""
                          end))))
  end.

Module AnimalForm.
Record t := mk {
  tag_no : string;
  sex : string;
  birthdate : date;
  breed_name : option string;
  cattle_type : string;
  mother_tag_no : option string;
  lactating : option string;
  pregnant : option string;
  vaccinated : option string;
  health : option string;
  weight : float;
  reproductions : Z
}.
End AnimalForm.

(** Lines 545-553 of [animals_create] and 683-691 of [animal_edit]: look the
    breed up by name, create and commit it when it is missing. *)
Definition breed_id_for (breed_name : option string) : M (option Z) :=
  if truthy_str breed_name then
    let name := match breed_name with Some s => s | None => "" end in
    breed <- session_exec (fun db =>
               find (fun b => String.eqb (Breed.name b) name) (breeds db)) ;;
    match breed with
    | Some b => ret (Breed.id b)
    | None =>
        let b := Breed.mk None name in
        session_add (New_Breed b) ;;
        session_commit ;;
        b' <- session_refresh_breed b ;;
        ret (Breed.id b')
    end
  else ret None.

Definition animals_create (f : AnimalForm.t) : M Response :=
  user <- get_current_user ;;
  match user with
  | None => ret (RedirectResponse "/login" 302)
  | Some u =>
      breed_id <- breed_id_for (AnimalForm.breed_name f) ;;
      lo <- ask lower ;;
      now <- ask utcnow ;;
      let animal :=
        Animal.mk None
          (AnimalForm.tag_no f)
          (AnimalForm.sex f)
          (AnimalForm.birthdate f)
          breed_id
          (User.farm_id u)
          (str_or (AnimalForm.cattle_type f) "Cow")
          (str_or_none (AnimalForm.mother_tag_no f))
          (form_bool lo (AnimalForm.lactating f))
          (form_bool lo (AnimalForm.pregnant f))
          (form_bool lo (AnimalForm.vaccinated f))
          (str_or_none (AnimalForm.health f))
          (float_or_zero (AnimalForm.weight f))
          (AnimalForm.reproductions f)
          now in
      session_add (New_Animal animal) ;;
      try_except_IntegrityError
        session_commit
        (session_rollback ;;
         raise (HTTPException 400 "Tag already exists")) ;;
      ret (RedirectResponse "/animals" 302)
  end.

Definition animal_detail (animal_id : Z) : M Response :=
  user <- get_current_user ;;
  match user with
  | None => ret (RedirectResponse "/login" 302)
  | Some u =>
      animal <- session_get get_animal animal_id ;;
      match animal with
      | None => raise (HTTPException 404 "Animal not found")
      | Some a =>
          if truthy_int (User.farm_id u) && negb (User.is_admin u)
             && negb (opt_int_eqb (Animal.farm_id a) (User.farm_id u))
          then raise (HTTPException 403 "Not allowed")
          else
            breeding_events <- session_exec (fun db =>
              order_by_desc BreedingEvent.event_date
                (filter (event_of animal_id) (breeding_events db))) ;;
            gestation <- session_exec (latest_gestation animal_id) ;;
            milk_entries <- session_exec (fun db =>
              order_by_desc MilkYieldDaily.entry_date
                (filter (milk_of animal_id) (milk db))) ;;
            vac_reminders <- session_exec (fun db =>
              order_by_desc VaccinationReminder.reminder_date
                (filter (reminder_of animal_id) (reminders db))) ;;
            day <- ask today ;;
            ret (TemplateResponse "animal_detail.html"
                   (AnimalDetail
                      (AnimalDetailCtx.mk a breeding_events gestation
                         milk_entries vac_reminders DEFAULT_GESTATION_DAYS
                         day u)))
      end
  end.

Definition animal_edit_form (animal_id : Z) : M Response :=
  user <- get_current_user ;;
  match user with
  | None => ret (RedirectResponse "/login" 302)
  | Some u =>
      animal <- session_get get_animal animal_id ;;
      match animal with
      | None => raise (HTTPException 404 "Animal not found")
      | Some a =>
          ret (TemplateResponse "animal_edit.html"
                 (AnimalEdit (AnimalEditCtx.mk a u)))
      end
  end.

Definition animal_edit (animal_id : Z) (f : AnimalForm.t) : M Response :=
  user <- get_current_user ;;
  match user with
  | None => ret (RedirectResponse "/login" 302)
  | Some u =>
      animal <- session_get get_animal animal_id ;;
      match animal with
      | None => raise (HTTPException 404 "Animal not found")
      | Some a =>
          breed_id <- breed_id_for (AnimalForm.breed_name f) ;;
          lo <- ask lower ;;
          let a' :=
            Animal.mk (Animal.id a)
              (AnimalForm.tag_no f)
              (AnimalForm.sex f)
              (AnimalForm.birthdate f)
              breed_id
              (Animal.farm_id a)
              (str_or (AnimalForm.cattle_type f) "Cow")
              (str_or_none (AnimalForm.mother_tag_no f))
              (form_bool lo (AnimalForm.lactating f))
              (form_bool lo (AnimalForm.pregnant f))
              (form_bool lo (AnimalForm.vaccinated f))
              (str_or_none (AnimalForm.health f))
              (float_or_zero (AnimalForm.weight f))
              (AnimalForm.reproductions f)
              (Animal.created_at a) in
          try_except_IntegrityError
            (session_add (Dirty_Animal a') ;;
             session_commit)
            (session_rollback ;;
             raise (HTTPException 400 "Tag already exists")) ;;
          ret (RedirectResponse ("/animals/" ++ str_of_int animal_id) 302)
      end
  end.

Definition animal_delete (animal_id : Z) : M Response :=
  user <- get_current_user ;;
  match user with
  | None => ret (RedirectResponse "/login" 302)
  | Some u =>
      animal <- session_get get_animal animal_id ;;
      match animal with
      | None => raise (HTTPException 404 "Not found")
      | Some a =>
          (* remove related rows (simple approach) *)
          session_exec (fun db => filter (milk_of animal_id) (milk db)) ;;
          session_exec (fun db => filter (event_of animal_id) (breeding_events db)) ;;
          session_exec (fun db => filter (gestation_of animal_id) (gestations db)) ;;
          session_exec (fun db => filter (reminder_of animal_id) (reminders db)) ;;
          session_delete a ;;
          session_commit ;;
          ret (RedirectResponse "/animals" 302)
      end
  end.

(* ------------------------------------------------------------------ *)
(** ** Milk, breeding, reminders, calving *)

Definition add_milk (animal_id : Z) (entry_date : date)
  (am_liters pm_liters : float) : M Response :=
  user <- get_current_user ;;
  match user with
  | None => ret (RedirectResponse "/login" 302)
  | Some u =>
      let total := (am_liters + pm_liters)%float in
      existing <- session_exec_first animal_id (fun db =>
        hd_error (filter (fun m => milk_of animal_id m && milk_on entry_date m)
                         (milk db))) ;;
      match existing with
      | Some m =>
          session_add (Dirty_Milk
            (MilkYieldDaily.mk (MilkYieldDaily.id m) (MilkYieldDaily.animal_id m)
               (MilkYieldDaily.entry_date m) am_liters pm_liters total))
      | None =>
          session_add (New_Milk
            (MilkYieldDaily.mk None animal_id entry_date am_liters pm_liters total))
      end ;;
      session_commit ;;
      ret (RedirectResponse ("/animals/" ++ str_of_int animal_id) 302)
  end.

(** [event_type in {BreedingType.AI, BreedingType.NaturalService}]. *)
Definition is_service (t : BreedingType) : bool :=
  match t with
  | AI | NaturalService => true
  | _ => false
  end.

Definition add_breeding_event (animal_id : Z) (event_type : BreedingType)
  (event_date : date) (notes : option string) : M Response :=
  user <- get_current_user ;;
  match user with
  | None => ret (RedirectResponse "/login" 302)
  | Some u =>
      animal <- session_get get_animal animal_id ;;
      match animal with
      | None => raise (HTTPException 404 "Animal not found")
      | Some a =>
          session_add (New_Event
            (BreedingEvent.mk None animal_id event_type event_date notes)) ;;
          (if is_service event_type then
             predicted <- date_plus event_date DEFAULT_GESTATION_DAYS ;;
             gest <- session_exec (latest_gestation animal_id) ;;
             match gest with
             | Some g =>
                 session_add (Dirty_Gestation
                   (Gestation.mk (Gestation.id g) (Gestation.animal_id g)
                      event_date predicted
                      (Gestation.actual_calving_date g) (Gestation.notes g)))
             | None =>
                 session_add (New_Gestation
                   (Gestation.mk None animal_id event_date predicted None None))
             end
           else ret tt) ;;
          session_commit ;;
          ret (RedirectResponse ("/animals/" ++ str_of_int animal_id) 302)
      end
  end.

Definition add_vaccination_reminder (animal_id : Z) (reminder_date : date)
  (notes : option string) : M Response :=
  user <- get_current_user ;;
  match user with
  | None => ret (RedirectResponse "/login" 302)
  | Some u =>
      animal <- session_get get_animal animal_id ;;
      match animal with
      | None => raise (HTTPException 404 "Animal not found")
      | Some a =>
          now <- ask utcnow ;;
          session_add (New_Reminder
            (VaccinationReminder.mk None animal_id reminder_date notes now)) ;;
          session_commit ;;
          ret (RedirectResponse ("/animals/" ++ str_of_int animal_id) 302)
      end
  end.

Definition mark_calved (animal_id : Z) (calving_date : date) : M Response :=
  user <- get_current_user ;;
  match user with
  | None => ret (RedirectResponse "/login" 302)
  | Some u =>
      gest <- session_exec_first animal_id (latest_gestation animal_id) ;;
      match gest with
      | None => raise (HTTPException 404 "No gestation record")
      | Some g =>
          session_add (Dirty_Gestation
            (Gestation.mk (Gestation.id g) (Gestation.animal_id g)
               (Gestation.service_date g) (Gestation.predicted_calving_date g)
               (Some calving_date) (Gestation.notes g))) ;;
          session_commit ;;
          ret (RedirectResponse ("/animals/" ++ str_of_int animal_id) 302)
      end
  end.

(* ------------------------------------------------------------------ *)
(** ** Dashboard *)

(** [sum(m.total_liters for m in rows)]. *)
Definition total_of (compensated : bool) (rows : list MilkYieldDaily.t) : float :=
  builtin_sum compensated (map MilkYieldDaily.total_liters rows).

(** [day_total = 0.0] and [day_total += m.total_liters] for each kept row. *)
Definition running_total (rows : list MilkYieldDaily.t) : float :=
  sum_naive (map MilkYieldDaily.total_liters rows).

(** One turn of the chart loop: the label and the total of day
    [start_chart + offset]. *)
Definition chart_day (u : User.t) (start_chart : date) (offset : Z)
  : M (string * float) :=
  d <- date_plus start_chart offset ;;
  fmt <- ask strftime_b_d ;;
  let label := fmt d in
  day_rows <- session_exec (fun db => filter (milk_on d) (milk db)) ;;
  day_total <-
    (if truthy_int (User.farm_id u) && negb (User.is_admin u)
     then kept <- filterM (fun m => animal_of_farm (User.farm_id u)
                                      (MilkYieldDaily.animal_id m)) day_rows ;;
          ret (running_total kept)
     else compensated <- ask compensated_sum ;;
          ret (total_of compensated day_rows)) ;;
  ret (label, day_total).

(** [range(14)]. *)
Definition range14 : list Z := [0; 1; 2; 3; 4; 5; 6; 7; 8; 9; 10; 11; 12; 13].

Definition dashboard : M Response :=
  user <- get_current_user ;;
  match user with
  | None => ret (RedirectResponse "/login" 302)
  | Some u =>
      rows <- session_exec (fun db =>
                if truthy_int (User.farm_id u) && negb (User.is_admin u)
                then filter (animal_in_farm (User.farm_id u)) (animals db)
                else animals db) ;;
      let total_animals := len rows in
      day <- ask today ;;
      milk_rows <-
        (if truthy_int (User.farm_id u) && negb (User.is_admin u)
         then all_rows <- session_exec (fun db => filter (milk_on day) (milk db)) ;;
              filterM (fun row => animal_of_farm (User.farm_id u)
                                    (MilkYieldDaily.animal_id row)) all_rows
         else session_exec (fun db => filter (milk_on day) (milk db))) ;;
      compensated <- ask compensated_sum ;;
      let milk_today :=
        match milk_rows with
        | [] => 0%float
        | _ => total_of compensated milk_rows
        end in
      last7_start <- date_plus day (-6) ;;
      milk7 <- session_exec (fun db =>
                 filter (milk_between last7_start day) (milk db)) ;;
      let avg_7 :=
        match milk7 with
        | [] => 0%float
        | _ => round2 (total_of compensated milk7 / 7)
        end in
      gest_list <- session_exec (fun db =>
                     filter (gestation_pending day) (gestations db)) ;;
      pregnant_count <-
        (if truthy_int (User.farm_id u) && negb (User.is_admin u)
         then kept <- filterM (fun g => animal_of_farm (User.farm_id u)
                                          (Gestation.animal_id g)) gest_list ;;
              ret (len kept)
         else ret (len gest_list)) ;;
      start_chart <- date_plus day (-13) ;;
      chart <- mapM (chart_day u start_chart) range14 ;;
      let chart_labels := map fst chart in
      let chart_values := map snd chart in
      recent_events <- session_exec (fun db =>
        firstn 5 (order_by_desc BreedingEvent.event_date (breeding_events db))) ;;
      ret (TemplateResponse "dashboard.html"
             (Dashboard
                (DashboardCtx.mk u total_animals milk_today avg_7 pregnant_count
                   chart_labels chart_values recent_events)))
  end.

(* ------------------------------------------------------------------ *)
(** ** An environment and rows for the examples *)

Definition env0 : Env := mkEnv false 739000 0 (fun s => s) (fun _ => "") false.

Definition farmer (k farm : Z) (admin : bool) : User.t :=
  User.mk (Some k) ("user" ++ str_of_int k) "x" None admin (Some farm) 0.

Definition cow (k : Z) (tag : string) (farm : Z) : Animal.t :=
  Animal.mk (Some k) tag "F" 730000 None (Some farm) "Cow" None
            false false false None 0 0 0.

(* ------------------------------------------------------------------ *)
(** ** Closed forms, the scoping rules in words, and example stores

    What the handlers compute, written as plain functions of the store; the
    rules of the specification as predicates; the stores and requests the
    examples run on. *)

(** The user a request is made by: what [get_current_user] finds. *)
Definition current_user (db : DB) (uid : option Z) : option User.t :=
  match uid with
  | Some k => if k =? 0 then None else get_user db k
  | None => None
  end.

(** Whether the driver binds the key the cookie carries; a cookie without
    [user_id], or with [0], leads to no lookup. *)
Definition cookie_bound (uid : option Z) : bool :=
  match uid with
  | Some k => sqlite_int k
  | None => true
  end.

(** [a and a.farm_id == farm_id], read off a store. *)
Definition owned (db : DB) (farm_id : option Z) (animal_id : Z) : bool :=
  match get_animal db animal_id with
  | Some a => opt_int_eqb (Animal.farm_id a) farm_id
  | None => false
  end.

Definition new_event (db : DB) (animal_id : Z) (t : BreedingType) (d : date)
  (notes : option string) : BreedingEvent.t :=
  BreedingEvent.mk (Some (next_id BreedingEvent.id (breeding_events db)))
    animal_id t d notes.

(** [UPDATE ... WHERE id = new.id] on a table. *)
Definition replace_by_id {A : Type} (id : A -> option Z) (new : A) (l : list A)
  : list A :=
  map (fun r => if opt_int_eqb (id r) (id new) then new else r) l.

(** The gestation row a service dated [d] leaves in place of [g]. *)
Definition reopened (g : Gestation.t) (d predicted : date) : Gestation.t :=
  Gestation.mk (Gestation.id g) (Gestation.animal_id g) d predicted
    (Gestation.actual_calving_date g) (Gestation.notes g).

Definition new_gestation (db : DB) (animal_id : Z) (d predicted : date)
  : Gestation.t :=
  Gestation.mk (Some (next_id Gestation.id (gestations db))) animal_id d predicted
    None None.

(** The gestation table after a service dated [d] on [animal_id]. *)
Definition gestations_after_service (db : DB) (animal_id : Z) (d : date)
  : list Gestation.t :=
  match latest_gestation animal_id db with
  | Some g =>
      map (fun r => if opt_int_eqb (Gestation.id r) (Gestation.id g)
                    then reopened g d (d + DEFAULT_GESTATION_DAYS) else r)
          (gestations db)
  | None =>
      gestations db ++ [new_gestation db animal_id d (d + DEFAULT_GESTATION_DAYS)]
  end.

(** A small store used by the examples: two farms, a non-admin user of farm 1
    and an admin of farm 2, one cow on each farm, some milk, and a closed
    gestation of cow 1. *)
Definition demo_db : DB :=
  mkDB [Farm.mk (Some 1) "North" None; Farm.mk (Some 2) "South" None]
       [farmer 1 1 false; farmer 2 2 true]
       []
       [cow 1 "T1" 1; cow 2 "T2" 2]
       [MilkYieldDaily.mk (Some 1) 1 739000 4 3 7;
        MilkYieldDaily.mk (Some 2) 2 739000 3 4 7]
       [BreedingEvent.mk (Some 1) 1 AI 738000 None]
       [Gestation.mk (Some 1) 1 738000 738283 (Some 738290) None]
       [VaccinationReminder.mk (Some 1) 1 739100 None 0].

(** [demo_db] with seven breeding events in no particular order. *)
Definition events_db : DB :=
  set_breeding_events demo_db
    [BreedingEvent.mk (Some 1) 1 AI 738000 None;
     BreedingEvent.mk (Some 2) 2 Heat 738500 None;
     BreedingEvent.mk (Some 3) 1 PDPositive 738040 None;
     BreedingEvent.mk (Some 4) 2 AI 738510 None;
     BreedingEvent.mk (Some 5) 1 Heat 737000 None;
     BreedingEvent.mk (Some 6) 1 NaturalService 738900 None;
     BreedingEvent.mk (Some 7) 2 PDNegative 738550 None].

(** [demo_db] with four cows on farm 1 and the milk of three of them on
    one day. *)
Definition large_yield_db : DB :=
  set_milk
    (set_animals demo_db
       [cow 1 "T1" 1; cow 2 "T2" 1; cow 3 "T3" 1; cow 4 "T4" 1])
    [MilkYieldDaily.mk (Some 1) 1 739000 1e16 0 1e16;
     MilkYieldDaily.mk (Some 2) 2 739000 1 0 1;
     MilkYieldDaily.mk (Some 3) 3 739000 1 0 1].

(** The [where] clause of [add_milk]. *)
Definition same_entry (animal_id : Z) (d : date) (m : MilkYieldDaily.t) : bool :=
  milk_of animal_id m && milk_on d m.

(** Whether the milk columns accept [am], [pm] and their sum. *)
Definition liters_storable (am pm : float) : bool :=
  negb (is_nan am || is_nan pm || is_nan (am + pm)%float).

Definition rewritten_milk (m : MilkYieldDaily.t) (am pm : float)
  : MilkYieldDaily.t :=
  MilkYieldDaily.mk (MilkYieldDaily.id m) (MilkYieldDaily.animal_id m)
    (MilkYieldDaily.entry_date m) (stored am) (stored pm) (stored (am + pm)%float).

Definition new_milk (db : DB) (animal_id : Z) (d : date) (am pm : float)
  : MilkYieldDaily.t :=
  MilkYieldDaily.mk (Some (next_id MilkYieldDaily.id (milk db))) animal_id d
    (stored am) (stored pm) (stored (am + pm)%float).

(** The milk table after an effective write. *)
Definition milk_after (db : DB) (animal_id : Z) (d : date) (am pm : float)
  : list MilkYieldDaily.t :=
  match hd_error (filter (same_entry animal_id d) (milk db)) with
  | Some m =>
      map (fun r => if opt_int_eqb (MilkYieldDaily.id r) (MilkYieldDaily.id m)
                    then rewritten_milk m am pm else r)
          (milk db)
  | None => milk db ++ [new_milk db animal_id d am pm]
  end.

(** A sequence of [POST /milk/{animal_id}] requests for one entry date; each
    request comes with its own session cookie and its own [am], [pm]. *)
Definition milk_write (env : Env) (animal_id : Z) (d : date) (db : DB)
  (w : option Z * float * float) : DB :=
  let '(uid, am, pm) := w in
  snd (fst (run_handler (add_milk animal_id d am pm) env db uid)).

Definition milk_writes (env : Env) (animal_id : Z) (d : date)
  (ws : list (option Z * float * float)) (db : DB) : DB :=
  fold_left (milk_write env animal_id d) ws db.

(** The test [user.farm_id and not user.is_admin]. *)
Definition scoped (u : User.t) : bool :=
  truthy_int (User.farm_id u) && negb (User.is_admin u).

(** The rows a loop of the dashboard keeps: those of animals of the user's
    farm when the user is scoped, all of them otherwise. *)
Definition scope_rows {A : Type} (key : A -> Z) (u : User.t) (db : DB)
  (l : list A) : list A :=
  if scoped u then filter (fun x => owned db (User.farm_id u) (key x)) l else l.

(** How the chart loop adds the rows it keeps for one day: with an
    accumulator for a scoped user, with [sum] otherwise. *)
Definition day_sum (env : Env) (u : User.t) (rows : list MilkYieldDaily.t) : float :=
  if scoped u then running_total rows else total_of (compensated_sum env) rows.

Definition chart_total (env : Env) (u : User.t) (db : DB)
  (day_rows : list MilkYieldDaily.t) : float :=
  day_sum env u (scope_rows MilkYieldDaily.animal_id u db day_rows).

Definition dashboard_ctx (env : Env) (db : DB) (u : User.t) : DashboardCtx.t :=
  let day := today env in
  let milk_rows :=
    scope_rows MilkYieldDaily.animal_id u db (filter (milk_on day) (milk db)) in
  let milk7 := filter (milk_between (day + -6) day) (milk db) in
  DashboardCtx.mk u
    (len (if scoped u
          then filter (animal_in_farm (User.farm_id u)) (animals db)
          else animals db))
    (match milk_rows with
     | [] => 0%float
     | _ => total_of (compensated_sum env) milk_rows
     end)
    (match milk7 with
     | [] => 0%float
     | _ => round2 (total_of (compensated_sum env) milk7 / 7)
     end)
    (len (scope_rows Gestation.animal_id u db
            (filter (gestation_pending day) (gestations db))))
    (map (fun offset => strftime_b_d env (day + -13 + offset)) range14)
    (map (fun offset =>
            chart_total env u db (filter (milk_on (day + -13 + offset)) (milk db)))
         range14)
    (firstn 5 (order_by_desc BreedingEvent.event_date (breeding_events db))).

(** A user sees every farm when admin or when no farm is assigned (the
    handlers test the farm id for truth, so does this definition), and only
    the user's own farm otherwise. *)
Definition sees_all (u : User.t) : bool :=
  User.is_admin u || negb (truthy_int (User.farm_id u)).

Definition animal_visible (u : User.t) (a : Animal.t) : bool :=
  if sees_all u then true else opt_int_eqb (Animal.farm_id a) (User.farm_id u).

(** A row that belongs to animal [animal_id] is in scope when that animal
    is visible. *)
Definition row_in_scope (u : User.t) (db : DB) (animal_id : Z) : bool :=
  if sees_all u then true
  else match get_animal db animal_id with
       | Some a => animal_visible u a
       | None => false
       end.

(** What a template response carries for the dashboard. *)
Definition dashboard_of (r : Response) : option DashboardCtx.t :=
  match r with
  | TemplateResponse _ (Dashboard c) => Some c
  | _ => None
  end.

(** [demo_db] with an overdue open gestation of cow 1 (predicted the day
    before [today env0]) and an upcoming one of cow 2. *)
Definition gestation_db : DB :=
  set_gestations demo_db
    [Gestation.mk (Some 1) 1 738716 738999 None None;
     Gestation.mk (Some 2) 1 738800 739083 None None;
     Gestation.mk (Some 3) 2 738800 739083 None None].

(** The 7-day average in the words of the specification: the totals of the
    window [today - 6 .. today] over the animals in scope, divided by 7. *)
Definition avg7_in_scope (env : Env) (db : DB) (u : User.t) : float :=
  PrimFloat.div
    (total_of (compensated_sum env)
       (filter (fun m => milk_between (today env + -6) (today env) m
                         && row_in_scope u db (MilkYieldDaily.animal_id m))
               (milk db)))
    7.

(** The scenario of the specification: one farm, [am=5, pm=3] on one day and
    [am=4, pm=4] on another day of the week, nothing on the other five days:
    the dashboard shows 2.29. *)
Definition week_db : DB :=
  set_milk demo_db
    [MilkYieldDaily.mk (Some 1) 1 738998 5 3 (5 + 3);
     MilkYieldDaily.mk (Some 2) 1 738999 4 4 (4 + 4)].



(** The search test of [animals_list] on one animal. *)
Definition matches_search (lo : string -> string) (ql : string) (db : DB)
  (a : Animal.t) : bool :=
  let breed :=
    match Animal.breed_id a with
    | Some b => if b =? 0 then None else get_breed db b
    | None => None
    end in
  str_contains ql (lo (Animal.tag_no a))
  || str_contains ql (lo (match Animal.mother_tag_no a with
                          | Some s => s
                          | None => ""
                          end))
  || match breed with
     | Some b => str_contains ql (lo (Breed.name b))
     | None => false
     end.

Definition animals_ctx (env : Env) (db : DB) (u : User.t) (q : option string)
  : AnimalsCtx.t :=
  let animals_all :=
    order_by_asc id_key
      (if scoped u then filter (animal_in_farm (User.farm_id u)) (animals db)
       else animals db) in
  AnimalsCtx.mk
    (if truthy_str q
     then filter (matches_search (lower env)
                    (lower env (match q with Some s => s | None => "" end)) db)
            animals_all
     else animals_all)
    u
    (match q with Some s => s | None => "" end).




Definition breed_named (name : string) (b : Breed.t) : bool :=
  String.eqb (Breed.name b) name.

(** The breed table after lines 545-553 of [animals_create]. *)
Definition breeds_after (db : DB) (breed_name : option string) : list Breed.t :=
  match breed_name with
  | Some name =>
      if negb (String.eqb name "") && is_none (find (breed_named name) (breeds db))
      then breeds db ++ [Breed.mk (Some (next_id Breed.id (breeds db))) name]
      else breeds db
  | None => breeds db
  end.

Definition is_template (r : Response) : bool :=
  match r with
  | TemplateResponse _ _ => true
  | _ => false
  end.

(** [env0] on an engine that enforces foreign keys. *)
Definition env_fk : Env := mkEnv true 739000 0 (fun s => s) (fun _ => "") false.

(** [env0] under a Python whose [sum] is compensated. *)
Definition env_compensated : Env :=
  mkEnv false 739000 0 (fun s => s) (fun _ => "") true.

Definition edit_form : AnimalForm.t :=
  AnimalForm.mk "STOLEN" "F" 738000 None "Cow" None None None None None 0 0.

(** The routes of the application that reach the store ([login], [logout]
    and [signup] hash passwords and touch only farms, users and the cookie). *)
Inductive Request :=
| GET_root
| GET_home
| GET_animals (q : option string)
| POST_animals (f : AnimalForm.t)
| GET_animal (animal_id : Z)
| GET_animal_edit (animal_id : Z)
| POST_animal_edit (animal_id : Z) (f : AnimalForm.t)
| POST_animal_delete (animal_id : Z)
| POST_milk (animal_id : Z) (entry_date : date) (am_liters pm_liters : float)
| POST_breeding_event (animal_id : Z) (event_type : BreedingType)
    (event_date : date) (notes : option string)
| POST_vaccination_reminder (animal_id : Z) (reminder_date : date)
    (notes : option string)
| POST_calved (animal_id : Z) (calving_date : date)
| GET_dashboard.

Definition route (r : Request) : M Response :=
  match r with
  | GET_root => root_redirect
  | GET_home => home
  | GET_animals q => animals_list q
  | POST_animals f => animals_create f
  | GET_animal k => animal_detail k
  | GET_animal_edit k => animal_edit_form k
  | POST_animal_edit k f => animal_edit k f
  | POST_animal_delete k => animal_delete k
  | POST_milk k d am pm => add_milk k d am pm
  | POST_breeding_event k t d notes => add_breeding_event k t d notes
  | POST_vaccination_reminder k d notes => add_vaccination_reminder k d notes
  | POST_calved k d => mark_calved k d
  | GET_dashboard => dashboard
  end.

(** The store after a request. *)
Definition serve (env : Env) (db : DB) (uid : option Z) (r : Request) : DB :=
  snd (fst (run_handler (route r) env db uid)).

(** Pending statements that touch neither the milk nor the gestation table. *)
Definition harmless (p : Pending) : bool :=
  match p with
  | New_Milk _ | Dirty_Milk _ | New_Gestation _ | Dirty_Gestation _ => false
  | _ => true
  end.

Definition same_yield (db db' : DB) : Prop :=
  milk db' = milk db /\ gestations db' = gestations db.

Definition framed (db0 : DB) (st : St) : Prop :=
  same_yield db0 (committed st) /\ same_yield db0 (txn st)
  /\ forallb harmless (pending st) = true.

(** A computation that leaves the milk and gestation tables alone. *)
Definition frames {A : Type} (m : M A) : Prop :=
  forall db0 env st, framed db0 st -> framed db0 (snd (m env st)).

(** The keys the handlers rely on: primary keys of the milk and gestation
    tables are distinct, and no (animal, date) pair has two milk rows. *)
Definition keys_ok (db : DB) : Prop :=
  NoDup (map MilkYieldDaily.id (milk db))
  /\ (forall a d,
        (List.length (filter (same_entry a d) (milk db)) <= 1)%nat)
  /\ NoDup (map Gestation.id (gestations db)).

(* ------------------------------------------------------------------ *)
(** ** Properties of the store that requests keep *)

(** A session in which the committed store and the open transaction satisfy
    [P] and every pending statement is allowed by [ok]. *)
Definition kept (P : DB -> Prop) (ok : Pending -> bool) (st : St) : Prop :=
  P (committed st) /\ P (txn st) /\ forallb ok (pending st) = true.

(** A computation that keeps such sessions so. *)
Definition keeps (P : DB -> Prop) (ok : Pending -> bool) {A : Type} (m : M A)
  : Prop :=
  forall env st, kept P ok st -> kept P ok (snd (m env st)).

Definition any_statement (p : Pending) : bool := true.

Definition no_statement (p : Pending) : bool := false.

(** The routes registered with [@app.get]. *)
Definition is_get (r : Request) : bool :=
  match r with
  | GET_root | GET_home | GET_animals _ | GET_animal _ | GET_animal_edit _
  | GET_dashboard => true
  | _ => false
  end.

(** The response and the cookie after a request. *)
Definition respond (env : Env) (db : DB) (uid : option Z) (r : Request) : Response :=
  fst (fst (run_handler (route r) env db uid)).

Definition cookie_after (env : Env) (db : DB) (uid : option Z) (r : Request)
  : option Z :=
  snd (run_handler (route r) env db uid).

(** [l] grew into [l'] by appending. *)
Definition grew {A : Type} (l l' : list A) : Prop := exists more, l' = l ++ more.

(** The three logs of the store only grow. *)
Definition logs_grew (db db' : DB) : Prop :=
  grew (breeding_events db) (breeding_events db')
  /\ grew (reminders db) (reminders db')
  /\ grew (breeds db) (breeds db').

(** Primary keys and tag numbers of the animal table are distinct. *)
Definition animal_keys_ok (db : DB) : Prop :=
  NoDup (map Animal.id (animals db)) /\ NoDup (map Animal.tag_no (animals db)).

(** What [run_handler] makes of the outcome of a handler. *)
Definition finish (x : (Exc + Response) * St) : Response * DB * option Z :=
  match x with
  | (inr r, st) => (r, committed st, session_user_id st)
  | (inl (HTTPException s d), st) => (ErrorResponse s d, committed st, session_user_id st)
  | (inl _, st) => (InternalServerError, committed st, session_user_id st)
  end.

(** A computation that leaves the cookie alone. *)
Definition steady {A : Type} (m : M A) : Prop :=
  forall env st, session_user_id (snd (m env st)) = session_user_id st.

(** What a request without a valid session is answered: the landing page
    renders without counts, every other route sends to the login form. *)
Definition anonymous_response (r : Request) : Response :=
  match r with
  | GET_root | GET_home =>
      TemplateResponse "home.html" (Home (HomeCtx.mk None None None None))
  | _ => RedirectResponse "/login" 302
  end.

(** What a handler answers when it finds no row under a key [k] of the
    path: its own 404 when the driver binds [k], and the server error of
    the driver's [OverflowError] when [k] is outside 64 bits. *)
Definition not_found (k : Z) (detail : string) : Response :=
  if sqlite_int k then ErrorResponse 404 detail else InternalServerError.

(** The cookie [get_current_user] leaves when it finds no user: a cookie
    that names a user is cleared, an empty or falsy one is left as it is. *)
Definition anonymous_cookie (uid : option Z) : option Z :=
  match uid with
  | Some k => if k =? 0 then Some k else None
  | None => None
  end.

(** The gestation row [mark_calved] leaves in place of [g]. *)
Definition calved (g : Gestation.t) (calving_date : date) : Gestation.t :=
  Gestation.mk (Gestation.id g) (Gestation.animal_id g)
    (Gestation.service_date g) (Gestation.predicted_calving_date g)
    (Some calving_date) (Gestation.notes g).

(** The test of [animal_detail] that answers 403. *)
Definition detail_forbidden (u : User.t) (a : Animal.t) : bool :=
  scoped u && negb (opt_int_eqb (Animal.farm_id a) (User.farm_id u)).

Definition animal_detail_ctx (env : Env) (db : DB) (u : User.t) (a : Animal.t)
  (animal_id : Z) : AnimalDetailCtx.t :=
  AnimalDetailCtx.mk a
    (order_by_desc BreedingEvent.event_date
       (filter (event_of animal_id) (breeding_events db)))
    (latest_gestation animal_id db)
    (order_by_desc MilkYieldDaily.entry_date
       (filter (milk_of animal_id) (milk db)))
    (order_by_desc VaccinationReminder.reminder_date
       (filter (reminder_of animal_id) (reminders db)))
    DEFAULT_GESTATION_DAYS
    (today env)
    u.

(** The animal row [animals_create] adds, before the engine gives it an id. *)
Definition created_animal (env : Env) (u : User.t) (f : AnimalForm.t)
  (breed_id : option Z) : Animal.t :=
  Animal.mk None
    (AnimalForm.tag_no f) (AnimalForm.sex f) (AnimalForm.birthdate f)
    breed_id (User.farm_id u)
    (str_or (AnimalForm.cattle_type f) "Cow")
    (str_or_none (AnimalForm.mother_tag_no f))
    (form_bool (lower env) (AnimalForm.lactating f))
    (form_bool (lower env) (AnimalForm.pregnant f))
    (form_bool (lower env) (AnimalForm.vaccinated f))
    (str_or_none (AnimalForm.health f))
    (float_or_zero (AnimalForm.weight f))
    (AnimalForm.reproductions f)
    (utcnow env).



(** Gestation rows have distinct primary keys and no animal has two. *)
Definition gestation_keys_ok (db : DB) : Prop :=
  NoDup (map Gestation.id (gestations db))
  /\ forall a, (List.length (filter (gestation_of a) (gestations db)) <= 1)%nat.

(** A gestation row with an actual calving date. *)
Definition closed (g : Gestation.t) : Prop :=
  Gestation.actual_calving_date g <> None.

(* ------------------------------------------------------------------ *)
(** ** Login, logout, signup and the seeding of [init_db]

    Password hashing is passlib's: [hash_password] and [verify_password] are
    parameters.  Of the keys these routes write into the cookie
    ([user_id], [is_admin], [farm_id], and [username] at signup) only
    [user_id] is ever read back, by [get_current_user]; the cookie of this
    development carries that key alone. *)

Definition set_farms (db : DB) (l : list Farm.t) : DB :=
  mkDB l (users db) (breeds db) (animals db) (milk db)
       (breeding_events db) (gestations db) (reminders db).

Definition set_users (db : DB) (l : list User.t) : DB :=
  mkDB (farms db) l (breeds db) (animals db) (milk db)
       (breeding_events db) (gestations db) (reminders db).

Definition insert_farm (db : DB) (f : Farm.t) : option DB :=
  Some (set_farms db
          (farms db
           ++ [Farm.mk (Some (next_id Farm.id (farms db))) (Farm.name f)
                 (Farm.location f)])).

Definition user_with_id (u : User.t) (i : option Z) : User.t :=
  User.mk i (User.username u) (User.hashed_password u) (User.full_name u)
    (User.is_admin u) (User.farm_id u) (User.created_at u).

Definition user_named (username : string) (u : User.t) : bool :=
  String.eqb (User.username u) username.

(** [INSERT INTO user]: the unique index on [username], and the foreign key
    to [farm] where the engine enforces it. *)
Definition insert_user (fk : bool) (db : DB) (u : User.t) : option DB :=
  if existsb (user_named (User.username u)) (users db) then None
  else if fk && negb (fk_target_ok (get_farm db) (User.farm_id u)) then None
  else Some (set_users db
               (users db ++ [user_with_id u (Some (next_id User.id (users db)))])).

(** [session.add(row); session.commit()] for a farm or a user.  [Pending]
    lists the statements of the other tables; for these two the statement
    is emitted where the commit flushes, after whatever was pending. *)
Definition session_add_commit (stmt : bool -> DB -> option DB) : M unit :=
  session_flush ;;
  fun env st =>
    match stmt (fk_enforced env) (txn st) with
    | Some db' => (inr tt, mkSt db' db' [] (session_user_id st))
    | None => (inl IntegrityError, st)
    end.

(** [session.refresh(row)] right after the commit that inserted it. *)
Definition session_refresh_farm (f : Farm.t) : M Farm.t :=
  fun _ st => (inr (last (farms (txn st)) f), st).

Definition session_refresh_user (u : User.t) : M User.t :=
  fun _ st => (inr (last (users (txn st)) u), st).

(** [request.session["user_id"] = user.id]. *)
Definition request_session_set_user_id (k : option Z) : M unit :=
  fun _ st => (inr tt, mkSt (committed st) (txn st) (pending st) k).

Module SignupForm.
Record t := mk {
  farm_name : string;
  farm_location : string;
  full_name : string;
  username : string
}.
End SignupForm.

Inductive AuthContext :=
| LoginCtx (error : option string)
| SignupCtx (error : option string) (form : option SignupForm.t).

Inductive AuthResponse :=
| AuthRedirect (url : string) (status_code : Z)
| AuthTemplate (name : string) (context : AuthContext) (status_code : Z)
| AuthServerError.

Definition run_auth (h : M AuthResponse) (env : Env) (db : DB) (uid : option Z)
  : AuthResponse * DB * option Z :=
  match h env (mkSt db db [] uid) with
  | (inr r, st) => (r, committed st, session_user_id st)
  | (inl _, st) => (AuthServerError, committed st, session_user_id st)
  end.

Definition login_form : M AuthResponse :=
  ret (AuthTemplate "login.html" (LoginCtx None) 200).

Definition do_login (verify_password : string -> string -> bool)
  (username password : string) : M AuthResponse :=
  user <- session_exec (fun db => find (user_named username) (users db)) ;;
  match user with
  | None =>
      ret (AuthTemplate "login.html"
             (LoginCtx (Some "Invalid username or password.")) 400)
  | Some u =>
      if negb (verify_password password (User.hashed_password u))
      then ret (AuthTemplate "login.html"
                  (LoginCtx (Some "Invalid username or password.")) 400)
      else
        request_session_set_user_id (User.id u) ;;
        ret (AuthRedirect "/dashboard" 302)
  end.

Definition logout : M AuthResponse :=
  request_session_clear ;;
  ret (AuthRedirect "/home" 302).

Definition signup_form : M AuthResponse :=
  ret (AuthTemplate "signup.html" (SignupCtx None None) 200).

Definition signup (hash_password : string -> string)
  (farm_name farm_location full_name username password : string)
  : M AuthResponse :=
  existing <- session_exec (fun db => find (user_named username) (users db)) ;;
  match existing with
  | Some _ =>
      ret (AuthTemplate "signup.html"
             (SignupCtx (Some "Username already taken, please choose another.")
                (Some (SignupForm.mk farm_name farm_location full_name username)))
             400)
  | None =>
      let farm :=
        Farm.mk None farm_name
          (if String.eqb farm_location "" then None else Some farm_location) in
      session_add_commit (fun _ db => insert_farm db farm) ;;
      farm' <- session_refresh_farm farm ;;
      now <- ask utcnow ;;
      let user :=
        User.mk None username (hash_password password)
          (Some (str_or full_name username)) true (Farm.id farm') now in
      session_add_commit (fun fk db => insert_user fk db user) ;;
      user' <- session_refresh_user user ;;
      request_session_set_user_id (User.id user') ;;
      ret (AuthRedirect "/dashboard" 303)
  end.

(** Lines 252-272 of [init_db]: the default farm and the default admin. *)
Definition init_db_seed (hash_password : string -> string) : M unit :=
  first_farm <- session_exec (fun db => hd_error (farms db)) ;;
  farm <- match first_farm with
          | Some f => ret f
          | None =>
              let f := Farm.mk None "Default Farm" (Some "Unknown") in
              session_add_commit (fun _ db => insert_farm db f) ;;
              session_refresh_farm f
          end ;;
  admin <- session_exec (fun db => find (user_named "admin") (users db)) ;;
  match admin with
  | Some _ => ret tt
  | None =>
      now <- ask utcnow ;;
      session_add_commit (fun fk db =>
        insert_user fk db
          (User.mk None "admin" (hash_password "adminpass") (Some "Super Admin")
             true (Farm.id farm) now))
  end.

(** The store after the seeding, which runs in a session of its own. *)
Definition init_db (hash_password : string -> string) (env : Env) (db : DB) : DB :=
  committed (snd (init_db_seed hash_password env (mkSt db db [] None))).

(** The farm and the user a signup adds. *)
Definition signup_farm (db : DB) (farm_name farm_location : string) : Farm.t :=
  Farm.mk (Some (next_id Farm.id (farms db))) farm_name
    (if String.eqb farm_location "" then None else Some farm_location).

Definition signup_user (hash_password : string -> string) (env : Env) (db : DB)
  (full_name username password : string) : User.t :=
  User.mk (Some (next_id User.id (users db))) username (hash_password password)
    (Some (str_or full_name username)) true
    (Some (next_id Farm.id (farms db))) (utcnow env).



(* ------------------------------------------------------------------ *)
(** ** The helpers on small inputs *)

Example date_add_days_gestation :
  date_add_days 739000 DEFAULT_GESTATION_DAYS = Some 739283.
Proof. reflexivity. Qed.

Example date_add_days_overflow :
  date_add_days DATE_MAX DEFAULT_GESTATION_DAYS = None.
Proof. reflexivity. Qed.

Example float_addition_rounds : (0.1 + 0.2)%float = 0.30000000000000004%float.
Proof. reflexivity. Qed.

Example round2_sixteen_sevenths : round2 (16 / 7) = 2.29%float.
Proof. reflexivity. Qed.

Example round2_ties_to_even :
  round2 0.125 = 0.12%float /\ round2 0.375 = 0.38%float.
Proof. split; reflexivity. Qed.

(** The float nearest to 0.225 lies above it, so it rounds up; negative
    values keep their sign, also when they round to zero. *)
Example round2_rounds_the_float :
  round2 (1.575 / 7) = 0.23%float /\ round2 (-0.001) = (-0)%float
  /\ round2 2.675 = 2.67%float.
Proof. repeat split; reflexivity. Qed.

Example builtin_sum_examples :
  builtin_sum false [0.1; 0.2; 0.3]%float = 0.6000000000000001%float
  /\ builtin_sum true [0.1; 0.2; 0.3]%float = 0.6%float
  /\ builtin_sum false [] = 0%float /\ builtin_sum true [] = 0%float.
Proof. repeat split; reflexivity. Qed.

Example sqlite_real_examples :
  sqlite_real nan = None /\ sqlite_real (-0) = Some 0%float
  /\ sqlite_real infinity = Some infinity /\ sqlite_real 0.5 = Some 0.5%float.
Proof. repeat split; reflexivity. Qed.

Example sqlite_int_examples :
  sqlite_int (2 ^ 63 - 1) = true /\ sqlite_int (2 ^ 63) = false
  /\ sqlite_int (- 2 ^ 63) = true /\ sqlite_int (- 2 ^ 63 - 1) = false.
Proof. repeat split; reflexivity. Qed.

Example order_by_desc_is_stable :
  order_by_desc fst [(1, "a"); (3, "b"); (3, "c"); (2, "d")]
  = [(3, "b"); (3, "c"); (2, "d"); (1, "a")].
Proof. reflexivity. Qed.

Example str_contains_examples :
  str_contains "t1" "cow-t1" = true /\ str_contains "t2" "cow-t1" = false
  /\ str_contains "" "" = true.
Proof. repeat split; reflexivity. Qed.

Example form_bool_examples :
  form_bool (fun s => s) (Some "on") = true
  /\ form_bool (fun s => s) (Some "off") = false
  /\ form_bool (fun s => s) None = false.
Proof. repeat split; reflexivity. Qed.

(* ------------------------------------------------------------------ *)
(** ** Running the session operations *)

Arguments get_user : simpl never.
Arguments get_animal : simpl never.
Arguments get_breed : simpl never.
Arguments latest_gestation : simpl never.
Arguments str_of_int : simpl never.
Arguments next_id : simpl never.
Arguments animal_present : simpl never.
Arguments date_in_range : simpl never.

Lemma bind_run {A B : Type} (m : M A) (k : A -> M B) env st :
  bind m k env st =
  match m env st with
  | (inl e, st') => (inl e, st')
  | (inr a, st') => k a env st'
  end.
Proof. reflexivity. Qed.

Lemma session_get_found {A : Type} (get : DB -> Z -> option A) k r env st :
  get (txn st) k = Some r -> session_get get k env st = (inr (Some r), st).
Proof. unfold session_get. intros ->. reflexivity. Qed.

Lemma session_get_missing {A : Type} (get : DB -> Z -> option A) k env st :
  get (txn st) k = None ->
  session_get get k env st
  = if sqlite_int k then (inr None, st) else (inl OverflowError, st).
Proof. unfold session_get. intros ->. destruct (sqlite_int k); reflexivity. Qed.

Lemma get_current_user_logged_in env c t p uid u :
  current_user t uid = Some u ->
  get_current_user env (mkSt c t p uid) = (inr (Some u), mkSt c t p uid).
Proof.
  unfold current_user, get_current_user. intros H.
  destruct uid as [k|]; [|discriminate].
  cbn. destruct (k =? 0); [discriminate|].
  rewrite bind_run, (session_get_found _ _ u) by exact H. reflexivity.
Qed.

Lemma get_current_user_anonymous env c t p uid :
  current_user t uid = None ->
  cookie_bound uid = true ->
  exists uid', get_current_user env (mkSt c t p uid) = (inr None, mkSt c t p uid').
Proof.
  unfold current_user, get_current_user, cookie_bound. intros H Hk.
  destruct uid as [k|]; [|eexists; reflexivity].
  cbn. destruct (k =? 0); [eexists; reflexivity|].
  rewrite bind_run, session_get_missing by exact H.
  rewrite Hk. eexists; reflexivity.
Qed.

Lemma get_current_user_overflow env c t p uid :
  current_user t uid = None ->
  cookie_bound uid = false ->
  get_current_user env (mkSt c t p uid) = (inl OverflowError, mkSt c t p uid).
Proof.
  unfold current_user, get_current_user, cookie_bound. intros H Hk.
  destruct uid as [k|]; [|discriminate].
  cbn. destruct (k =? 0) eqn:E.
  - apply Z.eqb_eq in E. subst k. discriminate.
  - rewrite bind_run, session_get_missing by exact H.
    rewrite Hk. reflexivity.
Qed.

(** Without a user the head of every handler yields no user or the
    driver's refusal of the cookie's key; only the cookie can change. *)
Lemma get_current_user_no_user env c t p uid :
  current_user t uid = None ->
  exists r uid',
    get_current_user env (mkSt c t p uid) = (r, mkSt c t p uid')
    /\ (r = inr None \/ r = inl OverflowError).
Proof.
  intros Hu. destruct (cookie_bound uid) eqn:Hc.
  - destruct (get_current_user_anonymous env c t p uid Hu Hc) as [uid' E].
    exists (inr None), uid'. split; [exact E|left; reflexivity].
  - exists (inl OverflowError), uid.
    split; [exact (get_current_user_overflow env c t p uid Hu Hc)|right; reflexivity].
Qed.

Lemma session_exec_clean {A : Type} (query : DB -> A) env c t uid :
  session_exec query env (mkSt c t [] uid) = (inr (query t), mkSt c t [] uid).
Proof. reflexivity. Qed.

Lemma session_exec_run {A : Type} (query : DB -> A) env c t t' ps uid :
  flush_statements (fk_enforced env) t ps = inr t' ->
  session_exec query env (mkSt c t ps uid) = (inr (query t'), mkSt c t' [] uid).
Proof. intros H. unfold session_exec, session_flush, bind. cbn. rewrite H. reflexivity. Qed.

Lemma session_exec_first_clean {A : Type} k (query : DB -> option A) env c t uid :
  session_exec_first k query env (mkSt c t [] uid)
  = match query t with
    | Some x => (inr (Some x), mkSt c t [] uid)
    | None => if sqlite_int k then (inr None, mkSt c t [] uid)
              else (inl OverflowError, mkSt c t [] uid)
    end.
Proof.
  unfold session_exec_first. rewrite bind_run, session_exec_clean.
  destruct (query t); [reflexivity|]. destruct (sqlite_int k); reflexivity.
Qed.

Lemma session_commit_run env c t t' ps uid :
  flush_statements (fk_enforced env) t ps = inr t' ->
  session_commit env (mkSt c t ps uid) = (inr tt, mkSt t' t' [] uid).
Proof. intros H. unfold session_commit, session_flush, bind. cbn. rewrite H. reflexivity. Qed.

Lemma session_commit_fail env c t ps uid e :
  flush_statements (fk_enforced env) t ps = inl e ->
  session_commit env (mkSt c t ps uid) = (inl e, mkSt c t ps uid).
Proof. intros H. unfold session_commit, session_flush, bind. cbn. rewrite H. reflexivity. Qed.

Lemma animal_present_get db k a :
  get_animal db k = Some a -> animal_present db k = true.
Proof. unfold animal_present. intros ->. reflexivity. Qed.

Arguments sqlite_int : simpl never.
Arguments stored : simpl never.

(** *** Floats: zeros and NaN *)

Lemma eqb_zero_not_nan x : (x =? 0)%float = true -> is_nan x = false.
Proof.
  unfold is_nan. rewrite !FloatAxioms.eqb_spec.
  change (Prim2SF 0) with (S754_zero false).
  destruct (Prim2SF x) as [s| s| |s m e]; cbn; try discriminate;
    try reflexivity; destruct s; discriminate.
Qed.

Lemma float_or_zero_nan x : is_nan (float_or_zero x) = is_nan x.
Proof.
  unfold float_or_zero. destruct (x =? 0)%float eqn:E; [|reflexivity].
  rewrite (eqb_zero_not_nan x E). reflexivity.
Qed.

Lemma stored_float_or_zero x : stored (float_or_zero x) = float_or_zero x.
Proof.
  unfold stored, float_or_zero. destruct (x =? 0)%float eqn:E.
  - reflexivity.
  - rewrite E. reflexivity.
Qed.

Lemma animal_of_farm_run farm_id animal_id env st :
  animal_of_farm farm_id animal_id env st = (inr (owned (txn st) farm_id animal_id), st).
Proof. reflexivity. Qed.

Lemma filterM_pure {A : Type} (p : A -> M bool) (q : A -> bool) env st :
  (forall x, p x env st = (inr (q x), st)) ->
  forall l, filterM p l env st = (inr (filter q l), st).
Proof.
  intros Hp l. induction l as [|x l IH]; [reflexivity|].
  cbn [filterM filter]. rewrite bind_run, Hp, bind_run, IH.
  destruct (q x); reflexivity.
Qed.

Lemma filterM_owned {A : Type} (key : A -> Z) farm_id env st (l : list A) :
  filterM (fun x => animal_of_farm farm_id (key x)) l env st
  = (inr (filter (fun x => owned (txn st) farm_id (key x)) l), st).
Proof. apply filterM_pure. intros x. apply animal_of_farm_run. Qed.

Lemma mapM_pure {A B : Type} (f : A -> M B) (g : A -> B) env st (l : list A) :
  (forall x, In x l -> f x env st = (inr (g x), st)) ->
  mapM f l env st = (inr (map g l), st).
Proof.
  induction l as [|x l IH]; intros Hf; [reflexivity|].
  cbn [mapM map]. rewrite bind_run, (Hf x (or_introl eq_refl)), bind_run, IH.
  - reflexivity.
  - intros y Hy. apply Hf. right. exact Hy.
Qed.

Lemma filter_all {A : Type} (l : list A) : filter (fun _ => true) l = l.
Proof. induction l as [|x l IH]; cbn; [|rewrite IH]; reflexivity. Qed.

(* ------------------------------------------------------------------ *)
(** ** Breeding events *)

(** An event that is not a service appends one row to the event log and
    touches nothing else. *)
Lemma add_breeding_event_other env db uid u a animal_id t d notes :
  current_user db uid = Some u ->
  get_animal db animal_id = Some a ->
  is_service t = false ->
  run_handler (add_breeding_event animal_id t d notes) env db uid
  = (RedirectResponse ("/animals/" ++ str_of_int animal_id) 302,
     set_breeding_events db
       (breeding_events db ++ [new_event db animal_id t d notes]),
     uid).
Proof.
  intros Hu Ha Ht.
  unfold run_handler, add_breeding_event.
  rewrite bind_run, (get_current_user_logged_in _ _ _ _ _ _ Hu).
  cbn. rewrite Ha, Ht. cbn.
  rewrite bind_run, (session_commit_run _ _ _
    (set_breeding_events db
       (breeding_events db ++ [new_event db animal_id t d notes]))).
  - reflexivity.
  - cbn. unfold insert_breeding_event. cbn.
    rewrite (animal_present_get _ _ _ Ha), andb_false_r. reflexivity.
Qed.

(** *** Facts about [ORDER BY ... DESC] and about updates by primary key *)

Lemma opt_int_eqb_eq x y : opt_int_eqb x y = true <-> x = y.
Proof.
  destruct x as [a|], y as [b|]; cbn; split; intros H;
    try discriminate; try reflexivity.
  - apply Z.eqb_eq in H. congruence.
  - injection H as ->. apply Z.eqb_refl.
Qed.

Lemma opt_int_eqb_refl x : opt_int_eqb x x = true.
Proof. apply opt_int_eqb_eq. reflexivity. Qed.

Lemma opt_int_eqb_neq x y : x <> y -> opt_int_eqb x y = false.
Proof.
  intros H. destruct (opt_int_eqb x y) eqn:E; [|reflexivity].
  apply opt_int_eqb_eq in E. contradiction.
Qed.

Section OrderByFacts.
Context {A : Type} (key : A -> Z).

Lemma hd_insert_desc x l :
  hd_error (insert_desc key x l)
  = match hd_error l with
    | None => Some x
    | Some y => if key x <? key y then Some y else Some x
    end.
Proof. destruct l as [|y l]; cbn; [reflexivity|]. destruct (key x <? key y); reflexivity. Qed.

Lemma hd_order_by_desc_none l :
  hd_error (order_by_desc key l) = None -> l = [].
Proof.
  destruct l as [|x l]; [reflexivity|]. cbn. rewrite hd_insert_desc.
  destruct (hd_error (fold_right (insert_desc key) [] l)) as [w|];
    [destruct (key x <? key w)|]; discriminate.
Qed.
Lemma hd_order_by_desc_max l g :
  hd_error (order_by_desc key l) = Some g ->
  In g l /\ forall h, In h l -> key h <= key g.
Proof.
  revert g. induction l as [|x l IH]; intros g; [discriminate|].
  change (order_by_desc key (x :: l)) with (insert_desc key x (order_by_desc key l)).
  rewrite hd_insert_desc.
  destruct (hd_error (order_by_desc key l)) as [y|] eqn:E.
  - destruct (IH y eq_refl) as [Hy Hmax].
    destruct (key x <? key y) eqn:C; intros [= <-].
    + apply Z.ltb_lt in C. split; [right; exact Hy|].
      intros h [<-|Hh]; [lia|]. apply Hmax, Hh.
    + apply Z.ltb_ge in C. split; [left; reflexivity|].
      intros h [<-|Hh]; [lia|]. specialize (Hmax h Hh). lia.
  - intros [= <-]. split; [left; reflexivity|].
    intros h [<-|Hh]; [lia|].
    apply hd_order_by_desc_none in E. subst l. destruct Hh.
Qed.

End OrderByFacts.

Section UpdateByKey.
Context {A : Type} (id : A -> option Z).

Lemma replace_by_id_absent new l :
  ~ In (id new) (map id l) -> replace_by_id id new l = l.
Proof.
  unfold replace_by_id. induction l as [|x l IH]; cbn; intros H; [reflexivity|].
  rewrite IH by tauto.
  rewrite opt_int_eqb_neq; [reflexivity|]. intros E. apply H. left. exact E.
Qed.

Lemma replace_by_id_unique old new l :
  id new = id old -> In old l -> NoDup (map id l) ->
  exists l1 l2, l = l1 ++ old :: l2 /\ replace_by_id id new l = l1 ++ new :: l2.
Proof.
  intros Hid Hin Hnd.
  destruct (in_split _ _ Hin) as (l1 & l2 & ->).
  exists l1, l2. split; [reflexivity|].
  rewrite map_app in Hnd. cbn in Hnd.
  pose proof (NoDup_remove_2 _ _ _ Hnd) as Hout.
  unfold replace_by_id. rewrite map_app. cbn.
  rewrite Hid, opt_int_eqb_refl. f_equal; [|f_equal].
  - rewrite <- Hid. apply replace_by_id_absent. rewrite Hid.
    intros H. apply Hout. apply in_or_app. left. exact H.
  - rewrite <- Hid. apply replace_by_id_absent. rewrite Hid.
    intros H. apply Hout. apply in_or_app. right. exact H.
Qed.
End UpdateByKey.

Lemma latest_gestation_spec animal_id db g :
  latest_gestation animal_id db = Some g ->
  In g (gestations db) /\ Gestation.animal_id g = animal_id
  /\ forall h, In h (gestations db) -> Gestation.animal_id h = animal_id ->
               Gestation.service_date h <= Gestation.service_date g.
Proof.
  unfold latest_gestation. intros H.
  apply hd_order_by_desc_max in H. destruct H as [Hin Hmax].
  apply filter_In in Hin. destruct Hin as [Hin Hof].
  unfold gestation_of in Hof. apply Z.eqb_eq in Hof.
  repeat split; try assumption.
  intros h Hh Ha. apply Hmax. apply filter_In. split; [exact Hh|].
  unfold gestation_of. apply Z.eqb_eq. exact Ha.
Qed.

Lemma latest_gestation_none animal_id db :
  latest_gestation animal_id db = None ->
  forall h, In h (gestations db) -> Gestation.animal_id h <> animal_id.
Proof.
  unfold latest_gestation. intros H h Hh Ha.
  apply hd_order_by_desc_none in H.
  assert (Hin : In h (filter (gestation_of animal_id) (gestations db))).
  { apply filter_In. split; [exact Hh|]. unfold gestation_of. apply Z.eqb_eq. exact Ha. }
  rewrite H in Hin. destruct Hin.
Qed.

Lemma add_breeding_event_service env db uid u a animal_id t d notes :
  current_user db uid = Some u ->
  get_animal db animal_id = Some a ->
  is_service t = true ->
  date_in_range (d + DEFAULT_GESTATION_DAYS) = true ->
  run_handler (add_breeding_event animal_id t d notes) env db uid
  = (RedirectResponse ("/animals/" ++ str_of_int animal_id) 302,
     set_gestations
       (set_breeding_events db
          (breeding_events db ++ [new_event db animal_id t d notes]))
       (gestations_after_service db animal_id d),
     uid).
Proof.
  intros Hu Ha Ht Hd.
  unfold run_handler, add_breeding_event.
  rewrite bind_run, (get_current_user_logged_in _ _ _ _ _ _ Hu).
  cbn. rewrite Ha, Ht. cbn.
  unfold date_plus, date_add_days. rewrite Hd.
  set (db1 := set_breeding_events db
                (breeding_events db ++ [new_event db animal_id t d notes])).
  assert (Hflush : forall ps,
    flush_statements (fk_enforced env) db
      (New_Event (BreedingEvent.mk None animal_id t d notes) :: ps)
    = flush_statements (fk_enforced env) db1 ps).
  { intros ps. cbn. unfold insert_breeding_event. cbn.
    rewrite (animal_present_get _ _ _ Ha), andb_false_r. reflexivity. }
  rewrite bind_run, bind_run. cbn.
  rewrite bind_run, (session_exec_run _ _ _ _ db1) by (rewrite Hflush; reflexivity).
  change (latest_gestation animal_id db1) with (latest_gestation animal_id db).
  unfold gestations_after_service.
  destruct (latest_gestation animal_id db) as [g|] eqn:Hg; cbn.
  - reflexivity.
  - rewrite bind_run, (session_commit_run _ _ _
      (set_gestations db1
        (gestations db
         ++ [new_gestation db animal_id d (d + DEFAULT_GESTATION_DAYS)]))).
    + reflexivity.
    + cbn. unfold insert_gestation. cbn.
      replace (animal_present db1 animal_id) with true; [rewrite andb_false_r; reflexivity|].
      symmetry. exact (animal_present_get _ _ _ Ha).
Qed.

(** C9: an event of type Heat, PDPositive or PDNegative recorded for an
    existing animal by a logged-in user appends one BreedingEvent row; the
    gestation table and every other table are left as they were. *)
Theorem non_service_event_leaves_gestations
  env db uid u a animal_id t d notes :
  current_user db uid = Some u ->
  get_animal db animal_id = Some a ->
  t = Heat \/ t = PDPositive \/ t = PDNegative ->
  exists db',
    run_handler (add_breeding_event animal_id t d notes) env db uid
    = (RedirectResponse ("/animals/" ++ str_of_int animal_id) 302, db', uid)
    /\ gestations db' = gestations db
    /\ breeding_events db'
       = breeding_events db
         ++ [BreedingEvent.mk (Some (next_id BreedingEvent.id (breeding_events db)))
               animal_id t d notes]
    /\ farms db' = farms db /\ users db' = users db /\ breeds db' = breeds db
    /\ animals db' = animals db /\ milk db' = milk db
    /\ reminders db' = reminders db.
Proof.
  intros Hu Ha Ht.
  assert (Hs : is_service t = false) by (destruct Ht as [->|[->| ->]]; reflexivity).
  eexists. split; [exact (add_breeding_event_other env _ _ _ _ _ _ d notes Hu Ha Hs)|].
  cbn. repeat split; reflexivity.
Qed.

Lemma non_service_event_leaves_gestations_witness :
  exists db',
    run_handler (add_breeding_event 1 Heat 739000 None) env0 demo_db (Some 1)
    = (RedirectResponse ("/animals/" ++ str_of_int 1) 302, db', Some 1)
    /\ gestations db' = gestations demo_db
    /\ breeding_events db'
       = breeding_events demo_db
         ++ [BreedingEvent.mk
               (Some (next_id BreedingEvent.id (breeding_events demo_db)))
               1 Heat 739000 None]
    /\ farms db' = farms demo_db /\ users db' = users demo_db
    /\ breeds db' = breeds demo_db
    /\ animals db' = animals demo_db /\ milk db' = milk demo_db
    /\ reminders db' = reminders demo_db.
Proof.
  apply (non_service_event_leaves_gestations env0 demo_db (Some 1)
           (farmer 1 1 false) (cow 1 "T1" 1) 1 Heat 739000 None).
  - reflexivity.
  - reflexivity.
  - left. reflexivity.
Defined.

(** C4: a breeding event of type AI or NaturalService dated [d], recorded for
    an existing animal, predicts calving at [d + 283]; when the animal has a
    gestation record, one such record gets service date [d] and predicted
    date [d + 283] in place, and when it has none a new record with these two
    dates is inserted. *)
Theorem service_event_sets_gestation
  env db uid u a animal_id t d notes :
  current_user db uid = Some u ->
  get_animal db animal_id = Some a ->
  t = AI \/ t = NaturalService ->
  date_in_range (d + 283) = true ->
  NoDup (map Gestation.id (gestations db)) ->
  exists db',
    run_handler (add_breeding_event animal_id t d notes) env db uid
    = (RedirectResponse ("/animals/" ++ str_of_int animal_id) 302, db', uid)
    /\ ((exists g, In g (gestations db) /\ Gestation.animal_id g = animal_id) ->
        exists g l1 l2,
          gestations db = l1 ++ g :: l2
          /\ Gestation.animal_id g = animal_id
          /\ gestations db'
             = l1 ++ Gestation.mk (Gestation.id g) (Gestation.animal_id g)
                       d (d + 283)
                       (Gestation.actual_calving_date g) (Gestation.notes g)
                  :: l2)
    /\ ((forall g, In g (gestations db) -> Gestation.animal_id g <> animal_id) ->
        gestations db'
        = gestations db
          ++ [Gestation.mk (Some (next_id Gestation.id (gestations db)))
                animal_id d (d + 283) None None]).
Proof.
  intros Hu Ha Ht Hd Hnd.
  assert (Hs : is_service t = true) by (destruct Ht as [->| ->]; reflexivity).
  eexists. split; [exact (add_breeding_event_service env _ _ _ _ _ _ d notes Hu Ha Hs Hd)|].
  cbn [gestations set_gestations]. unfold gestations_after_service.
  change DEFAULT_GESTATION_DAYS with 283.
  destruct (latest_gestation animal_id db) as [g|] eqn:Hg; split.
  - intros _. destruct (latest_gestation_spec _ _ _ Hg) as (Hin & Hof & _).
    destruct (replace_by_id_unique Gestation.id g (reopened g d (d + 283))
                (gestations db) eq_refl Hin Hnd) as (l1 & l2 & E1 & E2).
    exists g, l1, l2. repeat split; assumption.
  - intros Hnone. destruct (latest_gestation_spec _ _ _ Hg) as (Hin & Hof & _).
    destruct (Hnone g Hin Hof).
  - intros (g & Hin & Hof). destruct (latest_gestation_none _ _ Hg g Hin Hof).
  - intros _. reflexivity.
Qed.

Lemma service_event_sets_gestation_witness :
  exists db',
    run_handler (add_breeding_event 1 AI 739000 None) env0 demo_db (Some 1)
    = (RedirectResponse ("/animals/" ++ str_of_int 1) 302, db', Some 1)
    /\ ((exists g, In g (gestations demo_db) /\ Gestation.animal_id g = 1) ->
        exists g l1 l2,
          gestations demo_db = l1 ++ g :: l2
          /\ Gestation.animal_id g = 1
          /\ gestations db'
             = l1 ++ Gestation.mk (Gestation.id g) (Gestation.animal_id g)
                       739000 (739000 + 283)
                       (Gestation.actual_calving_date g) (Gestation.notes g)
                  :: l2)
    /\ ((forall g, In g (gestations demo_db) -> Gestation.animal_id g <> 1) ->
        gestations db'
        = gestations demo_db
          ++ [Gestation.mk (Some (next_id Gestation.id (gestations demo_db)))
                1 739000 (739000 + 283) None None]).
Proof.
  apply (service_event_sets_gestation env0 demo_db (Some 1)
           (farmer 1 1 false) (cow 1 "T1" 1) 1 AI 739000 None).
  - reflexivity.
  - reflexivity.
  - left. reflexivity.
  - reflexivity.
  - cbn. constructor; [intros []|constructor].
Defined.

(** C10: when an AI or NaturalService event is recorded for an animal that
    has gestation records, the record rewritten is one of latest service
    date, whether or not its actual calving date is set, and the rewritten
    record keeps its actual calving date (and notes) next to the new service
    and predicted dates. *)
Theorem service_reopens_latest_gestation
  env db uid u a animal_id t d notes h0 :
  current_user db uid = Some u ->
  get_animal db animal_id = Some a ->
  t = AI \/ t = NaturalService ->
  date_in_range (d + 283) = true ->
  NoDup (map Gestation.id (gestations db)) ->
  In h0 (gestations db) -> Gestation.animal_id h0 = animal_id ->
  exists db' g g' l1 l2,
    run_handler (add_breeding_event animal_id t d notes) env db uid
    = (RedirectResponse ("/animals/" ++ str_of_int animal_id) 302, db', uid)
    /\ gestations db = l1 ++ g :: l2
    /\ Gestation.animal_id g = animal_id
    /\ (forall h, In h (gestations db) -> Gestation.animal_id h = animal_id ->
                  Gestation.service_date h <= Gestation.service_date g)
    /\ gestations db' = l1 ++ g' :: l2
    /\ Gestation.actual_calving_date g' = Gestation.actual_calving_date g
    /\ Gestation.notes g' = Gestation.notes g
    /\ Gestation.id g' = Gestation.id g
    /\ Gestation.animal_id g' = Gestation.animal_id g
    /\ Gestation.service_date g' = d
    /\ Gestation.predicted_calving_date g' = d + 283.
Proof.
  intros Hu Ha Ht Hd Hnd Hin0 Hof0.
  assert (Hs : is_service t = true) by (destruct Ht as [->| ->]; reflexivity).
  destruct (latest_gestation animal_id db) as [g|] eqn:Hg.
  2: { destruct (latest_gestation_none _ _ Hg h0 Hin0 Hof0). }
  destruct (latest_gestation_spec _ _ _ Hg) as (Hin & Hof & Hmax).
  destruct (replace_by_id_unique Gestation.id g (reopened g d (d + 283))
              (gestations db) eq_refl Hin Hnd) as (l1 & l2 & E1 & E2).
  eexists. exists g, (reopened g d (d + 283)), l1, l2.
  split; [exact (add_breeding_event_service env _ _ _ _ _ _ d notes Hu Ha Hs Hd)|].
  cbn [gestations set_gestations]. unfold gestations_after_service.
  rewrite Hg. change DEFAULT_GESTATION_DAYS with 283.
  repeat split; try assumption.
Qed.

Lemma service_reopens_latest_gestation_witness :
  exists db' g g' l1 l2,
    run_handler (add_breeding_event 1 AI 739000 None) env0 demo_db (Some 1)
    = (RedirectResponse ("/animals/" ++ str_of_int 1) 302, db', Some 1)
    /\ gestations demo_db = l1 ++ g :: l2
    /\ Gestation.animal_id g = 1
    /\ (forall h, In h (gestations demo_db) -> Gestation.animal_id h = 1 ->
                  Gestation.service_date h <= Gestation.service_date g)
    /\ gestations db' = l1 ++ g' :: l2
    /\ Gestation.actual_calving_date g' = Gestation.actual_calving_date g
    /\ Gestation.notes g' = Gestation.notes g
    /\ Gestation.id g' = Gestation.id g
    /\ Gestation.animal_id g' = Gestation.animal_id g
    /\ Gestation.service_date g' = 739000
    /\ Gestation.predicted_calving_date g' = 739000 + 283.
Proof.
  apply (service_reopens_latest_gestation env0 demo_db (Some 1)
           (farmer 1 1 false) (cow 1 "T1" 1) 1 AI 739000 None
           (Gestation.mk (Some 1) 1 738000 738283 (Some 738290) None)).
  - reflexivity.
  - reflexivity.
  - left. reflexivity.
  - reflexivity.
  - cbn. constructor; [intros []|constructor].
  - left. reflexivity.
  - reflexivity.
Defined.

(** The closed gestation of [demo_db] after a new AI: new service and
    predicted dates, the old actual calving date still in place. *)
Example reopened_gestation_keeps_calving_date :
  gestations (snd (fst (run_handler (add_breeding_event 1 AI 739000 None)
                          env0 demo_db (Some 1))))
  = [Gestation.mk (Some 1) 1 739000 739283 (Some 738290) None].
Proof. reflexivity. Qed.

(* ------------------------------------------------------------------ *)
(** ** Milk entries *)

Lemma max_id_bound {A : Type} (id : A -> option Z) (l : list A) k :
  In (Some k) (map id l) -> k <= max_id id l.
Proof.
  induction l as [|x l IH]; [intros []|].
  change (max_id id (x :: l))
    with (match id x with Some i => Z.max i (max_id id l) | None => max_id id l end).
  intros [E|H].
  - rewrite E. lia.
  - specialize (IH H). destruct (id x); lia.
Qed.

Lemma next_id_fresh {A : Type} (id : A -> option Z) (l : list A) :
  ~ In (Some (next_id id l)) (map id l).
Proof.
  intros H. apply max_id_bound in H. unfold next_id in H. lia.
Qed.

Lemma liters_ok_storable i k d am pm :
  liters_ok (MilkYieldDaily.mk i k d am pm (am + pm)%float) = liters_storable am pm.
Proof. reflexivity. Qed.

Lemma add_milk_run env db uid u animal_id d am pm :
  current_user db uid = Some u ->
  (fk_enforced env = true -> animal_present db animal_id = true) ->
  liters_storable am pm = true ->
  sqlite_int animal_id = true ->
  run_handler (add_milk animal_id d am pm) env db uid
  = (RedirectResponse ("/animals/" ++ str_of_int animal_id) 302,
     set_milk db (milk_after db animal_id d am pm),
     uid).
Proof.
  intros Hu Hfk Hok Hk.
  unfold run_handler, add_milk.
  rewrite bind_run, (get_current_user_logged_in _ _ _ _ _ _ Hu).
  cbv beta iota zeta.
  rewrite bind_run, session_exec_first_clean. unfold milk_after.
  change (fun m => milk_of animal_id m && milk_on d m) with (same_entry animal_id d).
  destruct (hd_error (filter (same_entry animal_id d) (milk db))) as [m|].
  - rewrite bind_run. cbn [session_add pending committed txn session_user_id app].
    rewrite bind_run, (session_commit_run _ _ _
      (set_milk db
         (map (fun r => if opt_int_eqb (MilkYieldDaily.id r) (MilkYieldDaily.id m)
                        then rewritten_milk m am pm else r) (milk db)))).
    + reflexivity.
    + cbn [flush_statements binds emit]. unfold update_milk.
      rewrite liters_ok_storable, Hok. reflexivity.
  - rewrite Hk, bind_run. cbn [session_add pending committed txn session_user_id app].
    rewrite bind_run, (session_commit_run _ _ _
      (set_milk db (milk db ++ [new_milk db animal_id d am pm]))).
    + reflexivity.
    + cbn [flush_statements binds emit]. unfold insert_milk.
      rewrite liters_ok_storable, Hok.
      cbn [MilkYieldDaily.animal_id negb].
      revert Hfk. destruct (fk_enforced env); intros Hfk;
        [rewrite Hfk by reflexivity|]; reflexivity.
Qed.

(** Whoever sends it and whatever the engine answers, a milk write either
    leaves the store as it was or has the effect of [milk_after]. *)
Lemma add_milk_cases env db uid animal_id d am pm :
  let db' := snd (fst (run_handler (add_milk animal_id d am pm) env db uid)) in
  db' = db \/ db' = set_milk db (milk_after db animal_id d am pm).
Proof.
  destruct (current_user db uid) as [u|] eqn:Hu.
  - destruct (liters_storable am pm) eqn:Hok.
    + unfold run_handler, add_milk.
      rewrite bind_run, (get_current_user_logged_in _ _ _ _ _ _ Hu).
      cbv beta iota zeta.
      rewrite bind_run, session_exec_first_clean. unfold milk_after.
      change (fun m => milk_of animal_id m && milk_on d m)
        with (same_entry animal_id d).
      destruct (hd_error (filter (same_entry animal_id d) (milk db))) as [m|].
      * right. rewrite bind_run.
        cbn [session_add pending committed txn session_user_id app].
        rewrite bind_run, (session_commit_run _ _ _
          (set_milk db
             (map (fun r => if opt_int_eqb (MilkYieldDaily.id r)
                                 (MilkYieldDaily.id m)
                            then rewritten_milk m am pm else r) (milk db))));
          [reflexivity|].
        cbn [flush_statements binds emit]. unfold update_milk.
        rewrite liters_ok_storable, Hok. reflexivity.
      * destruct (sqlite_int animal_id); [|left; reflexivity].
        rewrite bind_run.
        cbn [session_add pending committed txn session_user_id app].
        destruct (fk_enforced env && negb (animal_present db animal_id)) eqn:Hfk.
        -- left. rewrite bind_run, (session_commit_fail _ _ _ _ _ IntegrityError);
             [reflexivity|].
           cbn [flush_statements binds emit]. unfold insert_milk.
           cbn [MilkYieldDaily.animal_id]. rewrite Hfk. reflexivity.
        -- right. rewrite bind_run, (session_commit_run _ _ _
             (set_milk db (milk db ++ [new_milk db animal_id d am pm])));
             [reflexivity|].
           cbn [flush_statements binds emit]. unfold insert_milk.
           cbn [MilkYieldDaily.animal_id]. rewrite Hfk.
           rewrite liters_ok_storable, Hok. reflexivity.
    + left. unfold run_handler, add_milk.
      rewrite bind_run, (get_current_user_logged_in _ _ _ _ _ _ Hu).
      cbv beta iota zeta.
      rewrite bind_run, session_exec_first_clean.
      destruct (hd_error _) as [m|].
      * rewrite bind_run.
        cbn [session_add pending committed txn session_user_id app].
        rewrite bind_run, (session_commit_fail _ _ _ _ _ IntegrityError);
          [reflexivity|].
        cbn [flush_statements binds emit]. unfold update_milk.
        rewrite liters_ok_storable, Hok. reflexivity.
      * destruct (sqlite_int animal_id); [|reflexivity].
        rewrite bind_run.
        cbn [session_add pending committed txn session_user_id app].
        rewrite bind_run, (session_commit_fail _ _ _ _ _ IntegrityError);
          [reflexivity|].
        cbn [flush_statements binds emit]. unfold insert_milk.
        rewrite liters_ok_storable, Hok.
        destruct (fk_enforced env && _); reflexivity.
  - left. unfold run_handler, add_milk.
    destruct (cookie_bound uid) eqn:Hc.
    + destruct (get_current_user_anonymous env db db [] uid Hu Hc) as [uid' E].
      rewrite bind_run, E. reflexivity.
    + rewrite bind_run, (get_current_user_overflow env db db [] uid Hu Hc).
      reflexivity.
Qed.

Lemma milk_after_entry db animal_id d am pm :
  NoDup (map MilkYieldDaily.id (milk db)) ->
  (List.length (filter (same_entry animal_id d) (milk db)) <= 1)%nat ->
  NoDup (map MilkYieldDaily.id (milk_after db animal_id d am pm))
  /\ exists r,
       filter (same_entry animal_id d) (milk_after db animal_id d am pm) = [r]
       /\ MilkYieldDaily.am_liters r = stored am
       /\ MilkYieldDaily.pm_liters r = stored pm
       /\ MilkYieldDaily.total_liters r = stored (am + pm)%float.
Proof.
  intros Hnd Hone. unfold milk_after.
  destruct (hd_error (filter (same_entry animal_id d) (milk db))) as [m|] eqn:Hm.
  - assert (Hin : In m (filter (same_entry animal_id d) (milk db))).
    { destruct (filter (same_entry animal_id d) (milk db)); [discriminate|].
      injection Hm as ->. left. reflexivity. }
    apply filter_In in Hin. destruct Hin as [Hin Hsame].
    destruct (replace_by_id_unique MilkYieldDaily.id m (rewritten_milk m am pm)
                (milk db) eq_refl Hin Hnd) as (l1 & l2 & E1 & E2).
    unfold replace_by_id in E2. cbn [rewritten_milk MilkYieldDaily.id] in E2.
    rewrite E2. rewrite E1 in Hone, Hnd.
    rewrite filter_app in Hone. cbn [filter] in Hone. rewrite Hsame in Hone.
    rewrite length_app in Hone. cbn [List.length] in Hone.
    assert (H1 : filter (same_entry animal_id d) l1 = [])
      by (destruct (filter (same_entry animal_id d) l1); [reflexivity|cbn in Hone; lia]).
    assert (H2 : filter (same_entry animal_id d) l2 = [])
      by (destruct (filter (same_entry animal_id d) l2); [reflexivity|cbn in Hone; lia]).
    split.
    + rewrite map_app in *. exact Hnd.
    + exists (rewritten_milk m am pm).
      rewrite filter_app. cbn [filter].
      change (same_entry animal_id d (rewritten_milk m am pm))
        with (same_entry animal_id d m).
      rewrite Hsame, H1, H2. repeat split; reflexivity.
  - assert (Hnil : filter (same_entry animal_id d) (milk db) = [])
      by (destruct (filter (same_entry animal_id d) (milk db)); [reflexivity|discriminate]).
    split.
    + rewrite map_app. cbn [map new_milk MilkYieldDaily.id].
      apply NoDup_app; [exact Hnd|repeat constructor; intros []|].
      intros x Hx [<-|[]]. exact (next_id_fresh _ _ Hx).
    + exists (new_milk db animal_id d am pm).
      rewrite filter_app, Hnil. cbn.
      unfold same_entry, milk_of, milk_on. cbn.
      rewrite !Z.eqb_refl. repeat split; reflexivity.
Qed.

Lemma milk_writes_inv env animal_id d ws : forall db,
  NoDup (map MilkYieldDaily.id (milk db)) ->
  (List.length (filter (same_entry animal_id d) (milk db)) <= 1)%nat ->
  let db' := milk_writes env animal_id d ws db in
  NoDup (map MilkYieldDaily.id (milk db'))
  /\ (List.length (filter (same_entry animal_id d) (milk db')) <= 1)%nat
  /\ users db' = users db /\ animals db' = animals db.
Proof.
  induction ws as [|[[uid am] pm] ws IH]; intros db Hnd Hone.
  - cbn. auto.
  - cbn [milk_writes fold_left].
    change (fold_left (milk_write env animal_id d) ws ?x)
      with (milk_writes env animal_id d ws x).
    assert (Hc : milk_write env animal_id d db (uid, am, pm) = db
                 \/ milk_write env animal_id d db (uid, am, pm)
                    = set_milk db (milk_after db animal_id d am pm))
      by exact (add_milk_cases env db uid animal_id d am pm).
    destruct Hc as [E|E]; rewrite E.
    + apply IH; assumption.
    + destruct (milk_after_entry db animal_id d am pm Hnd Hone) as (Hnd' & r & Hr & _).
      specialize (IH (set_milk db (milk_after db animal_id d am pm))).
      cbn [milk set_milk users animals] in IH. rewrite Hr in IH.
      apply IH; [exact Hnd'|cbn; lia].
Qed.

Lemma current_user_users db db' uid :
  users db' = users db -> current_user db' uid = current_user db uid.
Proof. unfold current_user, get_user. intros ->. reflexivity. Qed.

Lemma animal_present_animals db db' k :
  animals db' = animals db -> animal_present db' k = animal_present db k.
Proof. unfold animal_present, get_animal. intros ->. reflexivity. Qed.

(** C5: starting from a store with at most one milk row for the pair
    (animal, date) and distinct primary keys, any sequence of milk writes
    for that pair leaves at most one row for it; and when the last write of
    a sequence comes from a logged-in user, for an animal id within the
    driver's 64 bits (one of an animal of the store, where the engine
    enforces foreign keys), with liters the columns accept (neither of them
    nor their sum is NaN), that one row carries the [am] and [pm] of the
    last write and their float sum [am + pm] as total, each as the column
    stores it ([-0.0] as [0.0]). *)
Theorem milk_entry_upsert env db animal_id d ws uid am pm u :
  NoDup (map MilkYieldDaily.id (milk db)) ->
  (List.length (filter (same_entry animal_id d) (milk db)) <= 1)%nat ->
  current_user db uid = Some u ->
  fk_enforced env = false \/ (exists a, get_animal db animal_id = Some a) ->
  sqlite_int animal_id = true ->
  liters_storable am pm = true ->
  (List.length (filter (same_entry animal_id d)
                 (milk (milk_writes env animal_id d ws db))) <= 1)%nat
  /\ exists r,
       filter (same_entry animal_id d)
         (milk (milk_writes env animal_id d (ws ++ [(uid, am, pm)]) db)) = [r]
       /\ MilkYieldDaily.animal_id r = animal_id
       /\ MilkYieldDaily.entry_date r = d
       /\ MilkYieldDaily.am_liters r = stored am
       /\ MilkYieldDaily.pm_liters r = stored pm
       /\ MilkYieldDaily.total_liters r = stored (am + pm)%float.
Proof.
  intros Hnd Hone Hu Ha Hk Hok.
  destruct (milk_writes_inv env animal_id d ws db Hnd Hone) as (Hnd' & Hone' & Hus & Han).
  split; [exact Hone'|].
  unfold milk_writes. rewrite fold_left_app. cbn [fold_left].
  change (fold_left (milk_write env animal_id d) ws db)
    with (milk_writes env animal_id d ws db).
  set (db1 := milk_writes env animal_id d ws db) in *.
  unfold milk_write.
  rewrite (add_milk_run env db1 uid u).
  - cbn [fst snd milk set_milk].
    destruct (milk_after_entry db1 animal_id d am pm Hnd' Hone')
      as (_ & r & Hr & Ham & Hpm & Htot).
    exists r. split; [exact Hr|].
    assert (Hin : In r (filter (same_entry animal_id d)
                          (milk_after db1 animal_id d am pm)))
      by (rewrite Hr; left; reflexivity).
    apply filter_In in Hin. destruct Hin as [_ Hs].
    unfold same_entry, milk_of, milk_on in Hs.
    apply andb_prop in Hs. destruct Hs as [H1 H2].
    apply Z.eqb_eq in H1. apply Z.eqb_eq in H2. auto.
  - rewrite (current_user_users _ _ _ Hus). exact Hu.
  - intros Hfk. rewrite (animal_present_animals _ _ _ Han).
    destruct Ha as [Hf|[a Ha]]; [congruence|].
    exact (animal_present_get _ _ _ Ha).
  - exact Hok.
  - exact Hk.
Qed.

Lemma milk_entry_upsert_witness :
  (List.length (filter (same_entry 1%Z 739000%Z)
                 (milk (milk_writes env0 1%Z 739000%Z
                          [(Some 1%Z, 5%float, 3%float)] demo_db)))
   <= 1)%nat
  /\ exists r,
       filter (same_entry 1 739000)
         (milk (milk_writes env0 1 739000
                  ([(Some 1, 5%float, 3%float)] ++ [(Some 2, 0.1%float, 0.2%float)])
                  demo_db)) = [r]
       /\ MilkYieldDaily.animal_id r = 1
       /\ MilkYieldDaily.entry_date r = 739000
       /\ MilkYieldDaily.am_liters r = stored 0.1
       /\ MilkYieldDaily.pm_liters r = stored 0.2
       /\ MilkYieldDaily.total_liters r = stored (0.1 + 0.2)%float.
Proof.
  apply (milk_entry_upsert env0 demo_db 1 739000 [(Some 1, 5%float, 3%float)]
           (Some 2) 0.1%float 0.2%float (farmer 2 2 true)).
  - cbn. repeat constructor; cbn; intuition discriminate.
  - cbn. lia.
  - reflexivity.
  - left. reflexivity.
  - reflexivity.
  - reflexivity.
Defined.

(* ------------------------------------------------------------------ *)
(** ** The dashboard, in closed form *)

Lemma chart_day_run u start offset env c t uid :
  date_in_range (start + offset) = true ->
  chart_day u start offset env (mkSt c t [] uid)
  = (inr (strftime_b_d env (start + offset),
          chart_total env u t (filter (milk_on (start + offset)) (milk t))),
     mkSt c t [] uid).
Proof.
  intros Hd.
  unfold chart_day, date_plus, date_add_days, chart_total, day_sum, scope_rows, scoped.
  rewrite Hd.
  destruct (truthy_int (User.farm_id u) && negb (User.is_admin u)).
  - cbn. rewrite !bind_run, (filterM_owned MilkYieldDaily.animal_id). reflexivity.
  - reflexivity.
Qed.

Lemma range14_bounds x : In x range14 -> 0 <= x <= 13.
Proof. unfold range14. cbn. intros H. repeat (destruct H as [<-|H]; [lia|]). destruct H. Qed.

Lemma dashboard_run env db uid u :
  current_user db uid = Some u ->
  14 <= today env <= DATE_MAX ->
  run_handler dashboard env db uid
  = (TemplateResponse "dashboard.html" (Dashboard (dashboard_ctx env db u)),
     db, uid).
Proof.
  intros Hu Hday.
  assert (H6 : date_in_range (today env + -6) = true).
  { unfold date_in_range, DATE_MIN, DATE_MAX in *. apply andb_true_intro.
    split; apply Z.leb_le; lia. }
  assert (H13 : date_in_range (today env + -13) = true).
  { unfold date_in_range, DATE_MIN, DATE_MAX in *. apply andb_true_intro.
    split; apply Z.leb_le; lia. }
  unfold run_handler, dashboard.
  rewrite bind_run, (get_current_user_logged_in _ _ _ _ _ _ Hu).
  cbv beta iota.
  rewrite bind_run, session_exec_clean. cbv beta iota.
  rewrite bind_run. unfold ask at 1. cbv beta iota.
  assert (Hmilk :
    (if truthy_int (User.farm_id u) && negb (User.is_admin u)
     then all_rows <- session_exec (fun db0 => filter (milk_on (today env)) (milk db0)) ;;
          filterM (fun row => animal_of_farm (User.farm_id u)
                                (MilkYieldDaily.animal_id row)) all_rows
     else session_exec (fun db0 => filter (milk_on (today env)) (milk db0)))
      env (mkSt db db [] uid)
    = (inr (scope_rows MilkYieldDaily.animal_id u db
              (filter (milk_on (today env)) (milk db))),
       mkSt db db [] uid)).
  { unfold scope_rows, scoped.
    destruct (truthy_int (User.farm_id u) && negb (User.is_admin u)).
    - rewrite bind_run, session_exec_clean. cbv beta iota.
      rewrite (filterM_owned MilkYieldDaily.animal_id). reflexivity.
    - reflexivity. }
  rewrite bind_run, Hmilk. cbv beta iota.
  rewrite bind_run. unfold ask at 1. cbv beta iota.
  rewrite bind_run. unfold date_plus at 1, date_add_days at 1. rewrite H6.
  unfold ret at 1. cbv beta iota.
  rewrite bind_run, session_exec_clean. cbv beta iota.
  rewrite bind_run, session_exec_clean. cbv beta iota.
  assert (Hgest :
    (if truthy_int (User.farm_id u) && negb (User.is_admin u)
     then kept <- filterM (fun g => animal_of_farm (User.farm_id u)
                                      (Gestation.animal_id g))
                    (filter (gestation_pending (today env)) (gestations db)) ;;
          ret (len kept)
     else ret (len (filter (gestation_pending (today env)) (gestations db))))
      env (mkSt db db [] uid)
    = (inr (len (scope_rows Gestation.animal_id u db
                   (filter (gestation_pending (today env)) (gestations db)))),
       mkSt db db [] uid)).
  { unfold scope_rows, scoped.
    destruct (truthy_int (User.farm_id u) && negb (User.is_admin u)).
    - rewrite bind_run, (filterM_owned Gestation.animal_id). reflexivity.
    - reflexivity. }
  rewrite bind_run, Hgest. cbv beta iota.
  rewrite bind_run. unfold date_plus at 1, date_add_days at 1. rewrite H13.
  unfold ret at 1. cbv beta iota.
  rewrite bind_run.
  rewrite (mapM_pure _
    (fun offset =>
       (strftime_b_d env (today env + -13 + offset),
        chart_total env u db
          (filter (milk_on (today env + -13 + offset)) (milk db))))).
  2: { intros x Hx. apply range14_bounds in Hx. apply chart_day_run.
       unfold date_in_range, DATE_MIN, DATE_MAX in *. apply andb_true_intro.
       split; apply Z.leb_le; lia. }
  cbv beta iota.
  rewrite bind_run, session_exec_clean. cbv beta iota.
  unfold ret, dashboard_ctx. cbv beta iota zeta.
  rewrite !map_map. cbn [fst snd]. reflexivity.
Qed.

(* ------------------------------------------------------------------ *)
(** ** Tenant scoping, as the specification words it *)

Lemma scoped_sees_all u : scoped u = negb (sees_all u).
Proof.
  unfold scoped, sees_all.
  destruct (User.is_admin u), (truthy_int (User.farm_id u)); reflexivity.
Qed.


Lemma filter_and {A : Type} (p q : A -> bool) (l : list A) :
  filter q (filter p l) = filter (fun x => p x && q x) l.
Proof.
  induction l as [|x l IH]; [reflexivity|]. cbn.
  destruct (p x); cbn; [destruct (q x)|]; rewrite IH; reflexivity.
Qed.

Lemma scope_rows_spec {A : Type} (key : A -> Z) u db (l : list A) :
  scope_rows key u db l = filter (fun x => row_in_scope u db (key x)) l.
Proof.
  unfold scope_rows, row_in_scope, animal_visible, owned.
  rewrite scoped_sees_all. destruct (sees_all u); cbn.
  - symmetry. apply filter_all.
  - reflexivity.
Qed.


(** C6: the dashboard's pending-gestation count is the number of gestation
    rows with predicted calving date on or after today and no actual calving
    date, among the rows in scope for the requesting user; a gestation whose
    predicted date is before today is not among the counted rows, even with
    no actual calving date. *)
Theorem dashboard_pending_gestations env db uid u :
  current_user db uid = Some u ->
  14 <= today env <= DATE_MAX ->
  let counted :=
    filter (fun g => (today env <=? Gestation.predicted_calving_date g)
                     && is_none (Gestation.actual_calving_date g)
                     && row_in_scope u db (Gestation.animal_id g))
           (gestations db) in
  exists c,
    run_handler dashboard env db uid
    = (TemplateResponse "dashboard.html" (Dashboard c), db, uid)
    /\ DashboardCtx.pregnant c = len counted
    /\ forall g, Gestation.predicted_calving_date g < today env ->
                 Gestation.actual_calving_date g = None ->
                 ~ In g counted.
Proof.
  intros Hu Hday counted.
  exists (dashboard_ctx env db u).
  split; [exact (dashboard_run env db uid u Hu Hday)|]. split.
  - unfold dashboard_ctx. cbn [DashboardCtx.pregnant].
    rewrite scope_rows_spec, filter_and. reflexivity.
  - intros g Hlate _ Hin. unfold counted in Hin.
    apply filter_In in Hin. destruct Hin as [_ Hp].
    apply andb_prop in Hp. destruct Hp as [Hp _].
    apply andb_prop in Hp. destruct Hp as [Hp _].
    apply Z.leb_le in Hp. lia.
Qed.

Lemma dashboard_pending_gestations_witness :
  let counted :=
    filter (fun g => (today env0 <=? Gestation.predicted_calving_date g)
                     && is_none (Gestation.actual_calving_date g)
                     && row_in_scope (farmer 1 1 false) gestation_db
                          (Gestation.animal_id g))
           (gestations gestation_db) in
  exists c,
    run_handler dashboard env0 gestation_db (Some 1)
    = (TemplateResponse "dashboard.html" (Dashboard c), gestation_db, Some 1)
    /\ DashboardCtx.pregnant c = len counted
    /\ forall g, Gestation.predicted_calving_date g < today env0 ->
                 Gestation.actual_calving_date g = None ->
                 ~ In g counted.
Proof.
  apply (dashboard_pending_gestations env0 gestation_db (Some 1) (farmer 1 1 false)).
  - reflexivity.
  - cbn. unfold DATE_MAX. lia.
Defined.

(** On [gestation_db] the count of the farm-1 user is 1: the overdue row of
    cow 1 and the row of the other farm's cow are left out. *)
Example dashboard_pending_gestations_demo :
  option_map DashboardCtx.pregnant
    (dashboard_of (fst (fst (run_handler dashboard env0 gestation_db (Some 1)))))
  = Some 1.
Proof. reflexivity. Qed.

(* ------------------------------------------------------------------ *)
(** ** The 7-day average *)

(** C7: on [demo_db] cow 1 of farm 1 and cow 2 of farm 2 each gave 7 liters
    today.  The non-admin user of farm 1 is shown a 7-day average of 2.00,
    the sum over both farms divided by 7, where the average over the user's
    own farm is 1. *)
Theorem dashboard_avg7_counts_other_farms :
  option_map DashboardCtx.avg_7
    (dashboard_of (fst (fst (run_handler dashboard env0 demo_db (Some 1)))))
  = Some 2%float
  /\ avg7_in_scope env0 demo_db (farmer 1 1 false) = 1%float
  /\ 2%float <> avg7_in_scope env0 demo_db (farmer 1 1 false)
  /\ option_map DashboardCtx.today_milk
       (dashboard_of (fst (fst (run_handler dashboard env0 demo_db (Some 1)))))
     = Some 7%float.
Proof.
  split; [vm_compute; reflexivity|]. split; [vm_compute; reflexivity|].
  split; [|vm_compute; reflexivity].
  vm_compute. discriminate.
Qed.

(** The average is taken over every milk row of the window, whoever asks. *)
Lemma dashboard_avg7_all_rows env db uid u :
  current_user db uid = Some u ->
  14 <= today env <= DATE_MAX ->
  option_map DashboardCtx.avg_7
    (dashboard_of (fst (fst (run_handler dashboard env db uid))))
  = Some (match filter (milk_between (today env + -6) (today env)) (milk db) with
          | [] => 0%float
          | rows => round2 (total_of (compensated_sum env) rows / 7)
          end).
Proof.
  intros Hu Hday. rewrite (dashboard_run env db uid u Hu Hday).
  unfold dashboard_ctx. cbn.
  destruct (filter (milk_between (today env + -6) (today env)) (milk db));
    reflexivity.
Qed.

Example dashboard_avg7_scenario :
  option_map DashboardCtx.avg_7
    (dashboard_of (fst (fst (run_handler dashboard env0 week_db (Some 1)))))
  = Some 2.29%float.
Proof. vm_compute. reflexivity. Qed.

(* ------------------------------------------------------------------ *)
(** ** The landing page and the animal list, in closed form *)


Lemma animals_list_run env db uid u q :
  current_user db uid = Some u ->
  run_handler (animals_list q) env db uid
  = (TemplateResponse "animals.html" (Animals (animals_ctx env db u q)), db, uid).
Proof.
  intros Hu. unfold run_handler, animals_list.
  rewrite bind_run, (get_current_user_logged_in _ _ _ _ _ _ Hu).
  cbv beta iota.
  rewrite bind_run, session_exec_clean. cbv beta iota.
  rewrite bind_run. unfold ask at 1. cbv beta iota.
  unfold animals_ctx. fold (scoped u). cbv zeta.
  destruct (truthy_str q).
  - rewrite bind_run.
    rewrite (filterM_pure _
      (matches_search (lower env)
         (lower env (match q with Some s => s | None => "" end)) db)).
    + reflexivity.
    + intros a. unfold matches_search.
      destruct (Animal.breed_id a) as [b|]; [destruct (b =? 0)|]; reflexivity.
  - reflexivity.
Qed.

(* ------------------------------------------------------------------ *)
(** ** Tenant scoping at the list and aggregate endpoints *)


Lemma in_insert_asc {A : Type} (key : A -> Z) (x y : A) (l : list A) :
  In y (insert_asc key x l) <-> y = x \/ In y l.
Proof.
  induction l as [|z l IH]; cbn.
  - intuition congruence.
  - destruct (key z <? key x); cbn; [|intuition congruence].
    rewrite IH. intuition congruence.
Qed.

Lemma in_order_by_asc {A : Type} (key : A -> Z) (y : A) (l : list A) :
  In y (order_by_asc key l) <-> In y l.
Proof.
  induction l as [|x l IH]; [reflexivity|].
  change (order_by_asc key (x :: l)) with (insert_asc key x (order_by_asc key l)).
  rewrite in_insert_asc, IH. cbn. intuition congruence.
Qed.

Lemma total_or_zero compensated (rows : list MilkYieldDaily.t) :
  match rows with [] => 0%float | _ => total_of compensated rows end
  = total_of compensated rows.
Proof. destruct rows; [destruct compensated|]; reflexivity. Qed.





(** The searches of the two users of [demo_db]: the admin finds the cow of
    the other farm, the farm-1 user does not ("T" finds both cows for the
    one and only the own cow for the other); the empty search is no search. *)
Example animals_list_search_demo :
  (forall c, run_handler (animals_list (Some "T1")) env0 demo_db (Some 2)
             = (TemplateResponse "animals.html" (Animals c), demo_db, Some 2) ->
             AnimalsCtx.animals c = [cow 1 "T1" 1])
  /\ (forall c, run_handler (animals_list (Some "T")) env0 demo_db (Some 2)
                = (TemplateResponse "animals.html" (Animals c), demo_db, Some 2) ->
                AnimalsCtx.animals c = [cow 1 "T1" 1; cow 2 "T2" 2])
  /\ (forall c, run_handler (animals_list (Some "T")) env0 demo_db (Some 1)
                = (TemplateResponse "animals.html" (Animals c), demo_db, Some 1) ->
                AnimalsCtx.animals c = [cow 1 "T1" 1])
  /\ (forall c, run_handler (animals_list (Some "T2")) env0 demo_db (Some 1)
                = (TemplateResponse "animals.html" (Animals c), demo_db, Some 1) ->
                AnimalsCtx.animals c = [])
  /\ (forall c, run_handler (animals_list (Some "")) env0 demo_db (Some 1)
                = (TemplateResponse "animals.html" (Animals c), demo_db, Some 1) ->
                AnimalsCtx.animals c = [cow 1 "T1" 1]).
Proof.
  repeat split; intros c H; vm_compute in H; injection H as <-; reflexivity.
Qed.

(* ------------------------------------------------------------------ *)
(** ** Creating an animal under a tag that is taken *)

Lemma set_breeds_same db : set_breeds db (breeds db) = db.
Proof. destruct db. reflexivity. Qed.

Lemma last_snoc {A : Type} (l : list A) (x d : A) : last (l ++ [x]) d = x.
Proof.
  induction l as [|y l IH]; [reflexivity|].
  cbn [app]. destruct l as [|z l]; [reflexivity|]. exact IH.
Qed.

Lemma breed_id_for_run env db uid breed_name :
  exists breed_id,
    breed_id_for breed_name env (mkSt db db [] uid)
    = (inr breed_id,
       mkSt (set_breeds db (breeds_after db breed_name))
            (set_breeds db (breeds_after db breed_name)) [] uid).
Proof.
  unfold breed_id_for, breeds_after, truthy_str.
  destruct breed_name as [name|]; [|rewrite set_breeds_same; eexists; reflexivity].
  destruct (String.eqb name ""); cbn [negb andb];
    [rewrite set_breeds_same; eexists; reflexivity|].
  rewrite bind_run, session_exec_clean. cbv beta iota.
  change (fun b => String.eqb (Breed.name b) name) with (breed_named name).
  destruct (find (breed_named name) (breeds db)) as [b|]; cbn [is_none].
  - rewrite set_breeds_same. eexists. reflexivity.
  - eexists. cbn. reflexivity.
Qed.

Lemma animals_create_conflict env db uid u f old :
  current_user db uid = Some u ->
  In old (animals db) ->
  Animal.tag_no old = AnimalForm.tag_no f ->
  run_handler (animals_create f) env db uid
  = (if sqlite_int (AnimalForm.reproductions f)
     then ErrorResponse 400 "Tag already exists"
     else InternalServerError,
     set_breeds db (breeds_after db (AnimalForm.breed_name f)),
     uid).
Proof.
  intros Hu Hin Htag. unfold run_handler, animals_create.
  rewrite bind_run, (get_current_user_logged_in _ _ _ _ _ _ Hu).
  cbv beta iota.
  destruct (breed_id_for_run env db uid (AnimalForm.breed_name f)) as [breed_id E].
  rewrite bind_run, E. cbv beta iota.
  set (db1 := set_breeds db (breeds_after db (AnimalForm.breed_name f))).
  rewrite bind_run. unfold ask at 1. cbv beta iota.
  rewrite bind_run. unfold ask at 1. cbv beta iota.
  rewrite bind_run. unfold session_add at 1. cbv beta iota.
  cbn [committed txn pending session_user_id app].
  rewrite bind_run. unfold try_except_IntegrityError.
  destruct (sqlite_int (AnimalForm.reproductions f)) eqn:Hr.
  - rewrite (session_commit_fail _ _ _ _ _ IntegrityError); [reflexivity|].
    cbn [flush_statements binds emit Animal.reproductions]. rewrite Hr.
    unfold insert_animal. cbn [Animal.tag_no].
    replace (existsb (fun r => String.eqb (Animal.tag_no r) (AnimalForm.tag_no f))
               (animals db1)) with true; [reflexivity|].
    symmetry. apply existsb_exists. exists old. split; [exact Hin|].
    rewrite Htag. apply String.eqb_refl.
  - rewrite (session_commit_fail _ _ _ _ _ OverflowError); [reflexivity|].
    cbn [flush_statements binds emit Animal.reproductions]. rewrite Hr.
    reflexivity.
Qed.

(** C3, as stated, fails on the response: the handler answers a taken tag
    with the error of an [HTTPException], status 400, and renders no
    template. *)
Lemma animals_create_conflict_is_no_form :
  fst (fst (run_handler
              (animals_create
                 (AnimalForm.mk "T1" "F" 738000 (Some "Gir") "Cow" None None None
                    None None 0 0))
              env0 demo_db (Some 1)))
  = ErrorResponse 400 "Tag already exists"
  /\ is_template
       (fst (fst (run_handler
                    (animals_create
                       (AnimalForm.mk "T1" "F" 738000 (Some "Gir") "Cow" None None
                          None None None 0 0))
                    env0 demo_db (Some 1))))
     = false.
Proof. split; reflexivity. Qed.

(** C3, amended: a creation request of a logged-in user whose tag number is
    that of an existing animal is answered with the error response 400
    "Tag already exists" (no template is rendered, nothing crashes); the
    animal table and every other table but the breed table are as before;
    the breed table has one more row, the breed named by the request, when
    the request names a breed that was not there, and is as before
    otherwise.  The one exception is a [reproductions] count outside the
    driver's 64 bits: the insert then raises [OverflowError] before the
    engine sees it and the answer is a server error, with the same tables. *)
Theorem animals_create_duplicate_tag env db uid u f old :
  current_user db uid = Some u ->
  In old (animals db) ->
  Animal.tag_no old = AnimalForm.tag_no f ->
  exists db',
    run_handler (animals_create f) env db uid
    = (if sqlite_int (AnimalForm.reproductions f)
       then ErrorResponse 400 "Tag already exists"
       else InternalServerError,
       db', uid)
    /\ animals db' = animals db
    /\ In old (animals db')
    /\ breeds db'
       = match AnimalForm.breed_name f with
         | Some name =>
             if negb (String.eqb name "")
                && is_none (find (breed_named name) (breeds db))
             then breeds db ++ [Breed.mk (Some (next_id Breed.id (breeds db))) name]
             else breeds db
         | None => breeds db
         end
    /\ farms db' = farms db /\ users db' = users db /\ milk db' = milk db
    /\ breeding_events db' = breeding_events db
    /\ gestations db' = gestations db /\ reminders db' = reminders db.
Proof.
  intros Hu Hin Htag. eexists.
  split; [exact (animals_create_conflict env db uid u f old Hu Hin Htag)|].
  cbn. repeat split; try reflexivity. exact Hin.
Qed.

Lemma animals_create_duplicate_tag_witness :
  exists db',
    run_handler
      (animals_create
         (AnimalForm.mk "T1" "F" 738000 (Some "Gir") "Cow" None None None
            None None 0 0))
      env0 demo_db (Some 1)
    = (ErrorResponse 400 "Tag already exists", db', Some 1)
    /\ animals db' = animals demo_db
    /\ In (cow 1 "T1" 1) (animals db')
    /\ breeds db'
       = breeds demo_db
         ++ [Breed.mk (Some (next_id Breed.id (breeds demo_db))) "Gir"]
    /\ farms db' = farms demo_db /\ users db' = users demo_db
    /\ milk db' = milk demo_db
    /\ breeding_events db' = breeding_events demo_db
    /\ gestations db' = gestations demo_db /\ reminders db' = reminders demo_db.
Proof.
  apply (animals_create_duplicate_tag env0 demo_db (Some 1) (farmer 1 1 false)
           (AnimalForm.mk "T1" "F" 738000 (Some "Gir") "Cow" None None None
              None None 0 0)
           (cow 1 "T1" 1)).
  - reflexivity.
  - left. reflexivity.
  - reflexivity.
Defined.

(* ------------------------------------------------------------------ *)
(** ** Deleting an animal *)

(** Whoever asks and whatever the engine, [animal_delete] leaves the four
    child tables as they were: its four [select]s read and nothing deletes. *)
Lemma animal_delete_keeps_child_tables env db uid animal_id :
  let db' := snd (fst (run_handler (animal_delete animal_id) env db uid)) in
  milk db' = milk db /\ breeding_events db' = breeding_events db
  /\ gestations db' = gestations db /\ reminders db' = reminders db.
Proof.
  unfold run_handler, animal_delete.
  destruct (current_user db uid) as [u|] eqn:Hu.
  - rewrite bind_run, (get_current_user_logged_in _ _ _ _ _ _ Hu).
    cbn. destruct (get_animal db animal_id) as [a|]; cbn;
      [|destruct (sqlite_int animal_id); cbn; auto].
    destruct (delete_animal (fk_enforced env) db a) as [db1|] eqn:Hd.
    + rewrite bind_run, (session_commit_run _ _ _ db1) by (cbn; rewrite Hd; reflexivity).
      cbn. unfold delete_animal in Hd.
      destruct (fk_enforced env && _) in Hd; [discriminate|].
      injection Hd as <-. cbn. auto.
    + rewrite bind_run, (session_commit_fail _ _ _ _ _ IntegrityError)
        by (cbn; rewrite Hd; reflexivity).
      cbn. auto.
  - destruct (get_current_user_no_user env db db [] uid Hu) as (r & uid' & E & [->| ->]);
      rewrite bind_run, E; cbn; auto.
Qed.

(** On the default engine the animal row goes and nothing else does. *)
Lemma animal_delete_run env db uid u a animal_id :
  fk_enforced env = false ->
  current_user db uid = Some u ->
  get_animal db animal_id = Some a ->
  run_handler (animal_delete animal_id) env db uid
  = (RedirectResponse "/animals" 302,
     set_animals db
       (filter (fun r => negb (opt_int_eqb (Animal.id r) (Animal.id a)))
               (animals db)),
     uid).
Proof.
  intros Hfk Hu Ha. unfold run_handler, animal_delete.
  rewrite bind_run, (get_current_user_logged_in _ _ _ _ _ _ Hu).
  cbn. rewrite Ha. cbn.
  rewrite bind_run, (session_commit_run _ _ _
    (set_animals db
       (filter (fun r => negb (opt_int_eqb (Animal.id r) (Animal.id a)))
               (animals db)))).
  - reflexivity.
  - cbn. unfold delete_animal. rewrite Hfk. reflexivity.
Qed.

(** C1: cow 1 of [demo_db] has a milk row, a breeding event, a gestation and
    a reminder.  After [POST /animals/1/delete] on the default engine the
    animal is gone and all four rows are still there, still naming animal 1;
    on an engine that enforces foreign keys the request ends in a server
    error and the animal stays. *)
Theorem animal_delete_leaves_child_rows :
  run_handler (animal_delete 1) env0 demo_db (Some 1)
  = (RedirectResponse "/animals" 302, set_animals demo_db [cow 2 "T2" 2], Some 1)
  /\ get_animal (set_animals demo_db [cow 2 "T2" 2]) 1 = None
  /\ filter (milk_of 1) (milk (set_animals demo_db [cow 2 "T2" 2]))
     = [MilkYieldDaily.mk (Some 1) 1 739000 4 3 7]
  /\ filter (event_of 1) (breeding_events (set_animals demo_db [cow 2 "T2" 2]))
     = [BreedingEvent.mk (Some 1) 1 AI 738000 None]
  /\ filter (gestation_of 1) (gestations (set_animals demo_db [cow 2 "T2" 2]))
     = [Gestation.mk (Some 1) 1 738000 738283 (Some 738290) None]
  /\ filter (reminder_of 1) (reminders (set_animals demo_db [cow 2 "T2" 2]))
     = [VaccinationReminder.mk (Some 1) 1 739100 None 0]
  /\ run_handler (animal_delete 1) env_fk demo_db (Some 1)
     = (InternalServerError, demo_db, Some 1).
Proof. repeat split; reflexivity. Qed.

(* ------------------------------------------------------------------ *)
(** ** Animals of another farm *)

(** The detail view refuses a scoped user an animal of another farm. *)
Lemma animal_detail_forbidden env db uid u a animal_id :
  current_user db uid = Some u ->
  get_animal db animal_id = Some a ->
  scoped u = true ->
  Animal.farm_id a <> User.farm_id u ->
  run_handler (animal_detail animal_id) env db uid
  = (ErrorResponse 403 "Not allowed", db, uid).
Proof.
  intros Hu Ha Hs Hfarm. unfold run_handler, animal_detail.
  rewrite bind_run, (get_current_user_logged_in _ _ _ _ _ _ Hu).
  cbn. rewrite Ha. cbn. fold (scoped u). rewrite Hs.
  rewrite (opt_int_eqb_neq _ _ Hfarm). reflexivity.
Qed.

(** C8: user 1 of [demo_db] is not an admin and belongs to farm 1; cow 2
    belongs to farm 2.  The detail view answers 403; the edit, the delete,
    the milk entry and the breeding event on cow 2 all go through. *)
Theorem other_farm_writes_go_through :
  current_user demo_db (Some 1) = Some (farmer 1 1 false)
  /\ get_animal demo_db 2 = Some (cow 2 "T2" 2)
  /\ fst (fst (run_handler (animal_detail 2) env0 demo_db (Some 1)))
     = ErrorResponse 403 "Not allowed"
  /\ fst (fst (run_handler (animal_edit 2 edit_form) env0 demo_db (Some 1)))
     = RedirectResponse "/animals/2" 302
  /\ option_map Animal.tag_no
       (get_animal
          (snd (fst (run_handler (animal_edit 2 edit_form) env0 demo_db (Some 1))))
          2)
     = Some "STOLEN"
  /\ fst (fst (run_handler (animal_delete 2) env0 demo_db (Some 1)))
     = RedirectResponse "/animals" 302
  /\ get_animal
       (snd (fst (run_handler (animal_delete 2) env0 demo_db (Some 1)))) 2
     = None
  /\ fst (fst (run_handler (add_milk 2 739001 1 1) env0 demo_db (Some 1)))
     = RedirectResponse "/animals/2" 302
  /\ List.length
       (milk (snd (fst (run_handler (add_milk 2 739001 1 1) env0 demo_db (Some 1)))))
     = 3%nat
  /\ fst (fst (run_handler (add_breeding_event 2 Heat 739000 None)
                 env0 demo_db (Some 1)))
     = RedirectResponse "/animals/2" 302
  /\ List.length
       (breeding_events
          (snd (fst (run_handler (add_breeding_event 2 Heat 739000 None)
                       env0 demo_db (Some 1)))))
     = 2%nat.
Proof. repeat split; reflexivity. Qed.

(* ------------------------------------------------------------------ *)
(** ** Handlers that leave the milk and gestation tables alone *)

Lemma same_yield_refl db : same_yield db db.
Proof. split; reflexivity. Qed.

Lemma same_yield_trans db1 db2 db3 :
  same_yield db1 db2 -> same_yield db2 db3 -> same_yield db1 db3.
Proof. intros [H1 H2] [H3 H4]. split; congruence. Qed.

(** A statement that went through passed each of its tests. *)
Ltac statement_done :=
  repeat match goal with
         | |- (if ?b then None else _) = Some _ -> _ => destruct b; [discriminate|]
         end;
  intros [= <-].

Lemma emit_harmless fk db p db' :
  harmless p = true -> emit fk db p = Some db' -> same_yield db db'.
Proof.
  destruct p; cbn; try discriminate; intros _.
  - intros [= <-]. split; reflexivity.
  - unfold insert_animal. statement_done. split; reflexivity.
  - unfold insert_breeding_event. statement_done. split; reflexivity.
  - unfold insert_reminder. statement_done. split; reflexivity.
  - unfold update_animal. statement_done. split; reflexivity.
  - unfold delete_animal. statement_done. split; reflexivity.
Qed.

Lemma flush_harmless fk ps : forall db db',
  forallb harmless ps = true -> flush_statements fk db ps = inr db' ->
  same_yield db db'.
Proof.
  induction ps as [|p ps IH]; cbn; intros db db' Hh Hf.
  - injection Hf as <-. apply same_yield_refl.
  - apply andb_prop in Hh. destruct Hh as [Hp Hps].
    destruct (binds p); [|discriminate].
    destruct (emit fk db p) as [db1|] eqn:E; [|discriminate].
    eapply same_yield_trans; [exact (emit_harmless _ _ _ _ Hp E)|].
    exact (IH _ _ Hps Hf).
Qed.

Lemma frames_ret {A : Type} (a : A) : frames (ret a).
Proof. intros db0 env st H. exact H. Qed.

Lemma frames_raise {A : Type} (e : Exc) : frames (@raise A e).
Proof. intros db0 env st H. exact H. Qed.

Lemma frames_ask {A : Type} (f : Env -> A) : frames (ask f).
Proof. intros db0 env st H. exact H. Qed.

Lemma frames_bind {A B : Type} (m : M A) (k : A -> M B) :
  frames m -> (forall a, frames (k a)) -> frames (bind m k).
Proof.
  intros Hm Hk db0 env st H. unfold bind.
  specialize (Hm db0 env st H).
  destruct (m env st) as [[e|a] st']; [exact Hm|].
  exact (Hk a db0 env st' Hm).
Qed.

Lemma frames_request_session_user_id : frames request_session_user_id.
Proof. intros db0 env st H. exact H. Qed.

Lemma frames_request_session_clear : frames request_session_clear.
Proof. intros db0 env st H. exact H. Qed.

Lemma frames_session_get {A : Type} (get : DB -> Z -> option A) k :
  frames (session_get get k).
Proof. intros db0 env st H. exact H. Qed.

Lemma frames_session_get_fk {A : Type} (get : DB -> Z -> option A) k :
  frames (session_get_fk get k).
Proof. intros db0 env st H. exact H. Qed.

Lemma frames_session_flush : frames session_flush.
Proof.
  intros db0 env st (Hc & Ht & Hp). unfold session_flush.
  destruct (flush_statements (fk_enforced env) (txn st) (pending st)) as [e|db'] eqn:E.
  - exact (conj Hc (conj Ht Hp)).
  - destruct (flush_harmless _ _ _ _ Hp E) as [E1 E2]. destruct Ht as [T1 T2].
    repeat split; cbn; try apply Hc; congruence.
Qed.

Lemma frames_session_exec {A : Type} (query : DB -> A) : frames (session_exec query).
Proof.
  unfold session_exec. apply frames_bind; [apply frames_session_flush|].
  intros _ db0 env st H. exact H.
Qed.

Lemma frames_session_exec_first {A : Type} k (query : DB -> option A) :
  frames (session_exec_first k query).
Proof.
  unfold session_exec_first. apply frames_bind; [apply frames_session_exec|].
  intros [x|]; [|destruct (sqlite_int k)]; intros db0 env st H; exact H.
Qed.

Lemma frames_session_commit : frames session_commit.
Proof.
  unfold session_commit. apply frames_bind; [apply frames_session_flush|].
  intros _ db0 env st (Hc & Ht & Hp). repeat split; cbn; apply Ht.
Qed.

Lemma frames_session_rollback : frames session_rollback.
Proof. intros db0 env st (Hc & Ht & Hp). repeat split; cbn; apply Hc. Qed.

Lemma frames_session_add p : harmless p = true -> frames (session_add p).
Proof.
  intros Hh db0 env st (Hc & Ht & Hp).
  split; [exact Hc|]. split; [exact Ht|]. cbn.
  rewrite forallb_app, Hp. cbn. rewrite Hh. reflexivity.
Qed.

Lemma frames_session_delete a : frames (session_delete a).
Proof. apply frames_session_add. reflexivity. Qed.

Lemma frames_session_refresh_breed b : frames (session_refresh_breed b).
Proof. intros db0 env st H. exact H. Qed.

Lemma frames_try {A : Type} (body handler : M A) :
  frames body -> frames handler -> frames (try_except_IntegrityError body handler).
Proof.
  intros Hb Hh db0 env st H. unfold try_except_IntegrityError.
  specialize (Hb db0 env st H).
  destruct (body env st) as [[[]|a] st']; try exact Hb.
  exact (Hh db0 env st' Hb).
Qed.

Lemma frames_filterM {A : Type} (p : A -> M bool) (l : list A) :
  (forall x, frames (p x)) -> frames (filterM p l).
Proof.
  intros Hp. induction l as [|x l IH]; cbn [filterM]; [apply frames_ret|].
  apply frames_bind; [apply Hp|]. intros b.
  apply frames_bind; [exact IH|]. intros rest. apply frames_ret.
Qed.

Lemma frames_mapM {A B : Type} (f : A -> M B) (l : list A) :
  (forall x, frames (f x)) -> frames (mapM f l).
Proof.
  intros Hf. induction l as [|x l IH]; cbn [mapM]; [apply frames_ret|].
  apply frames_bind; [apply Hf|]. intros y.
  apply frames_bind; [exact IH|]. intros rest. apply frames_ret.
Qed.

Lemma frames_date_plus d n : frames (date_plus d n).
Proof.
  unfold date_plus. destruct (date_add_days d n); [apply frames_ret|apply frames_raise].
Qed.

Create HintDb frames.
#[local] Hint Resolve frames_ret frames_raise frames_ask
  frames_request_session_user_id frames_request_session_clear
  frames_session_get frames_session_get_fk frames_session_exec
  frames_session_exec_first frames_session_commit
  frames_session_rollback frames_session_delete frames_session_refresh_breed
  frames_date_plus : frames.

Ltac frame_step :=
  cbv beta zeta;
  lazymatch goal with
  | |- frames (bind _ _) => apply frames_bind; [|intros ?]
  | |- frames (try_except_IntegrityError _ _) => apply frames_try
  | |- frames (filterM _ _) => apply frames_filterM; intros ?
  | |- frames (mapM _ _) => apply frames_mapM; intros ?
  | |- frames (session_add _) => apply frames_session_add; reflexivity
  | |- frames (match ?x with _ => _ end) => destruct x
  | _ => solve [auto with frames]
  end.

Ltac frame := repeat frame_step.

Lemma frames_get_current_user : frames get_current_user.
Proof. unfold get_current_user. frame. Qed.

Lemma frames_animal_of_farm farm_id animal_id :
  frames (animal_of_farm farm_id animal_id).
Proof. unfold animal_of_farm. frame. Qed.

Lemma frames_breed_id_for breed_name : frames (breed_id_for breed_name).
Proof. unfold breed_id_for. frame. Qed.

#[local] Hint Resolve frames_get_current_user frames_animal_of_farm
  frames_breed_id_for : frames.

Lemma frames_home : frames home.
Proof. unfold home. frame. Qed.

Lemma frames_animals_list q : frames (animals_list q).
Proof. unfold animals_list. frame. Qed.

Lemma frames_animals_create f : frames (animals_create f).
Proof. unfold animals_create. frame. Qed.

Lemma frames_animal_detail k : frames (animal_detail k).
Proof. unfold animal_detail. frame. Qed.

Lemma frames_animal_edit_form k : frames (animal_edit_form k).
Proof. unfold animal_edit_form. frame. Qed.

Lemma frames_animal_edit k f : frames (animal_edit k f).
Proof. unfold animal_edit. frame. Qed.

Lemma frames_animal_delete k : frames (animal_delete k).
Proof. unfold animal_delete. frame. Qed.

Lemma frames_add_vaccination_reminder k d notes :
  frames (add_vaccination_reminder k d notes).
Proof. unfold add_vaccination_reminder. frame. Qed.

Lemma frames_chart_day u start offset : frames (chart_day u start offset).
Proof. unfold chart_day. frame. Qed.

#[local] Hint Resolve frames_chart_day : frames.

Lemma frames_dashboard : frames dashboard.
Proof. unfold dashboard. frame. Qed.

Lemma run_framed (h : M Response) env db uid :
  frames h -> same_yield db (snd (fst (run_handler h env db uid))).
Proof.
  intros Hh. unfold run_handler.
  assert (H0 : framed db (mkSt db db [] uid))
    by (repeat split; reflexivity).
  specialize (Hh db env _ H0).
  destruct (h env (mkSt db db [] uid)) as [[[]|r] st]; cbn; apply Hh.
Qed.

(* ------------------------------------------------------------------ *)
(** ** The keys of the milk and gestation tables are kept by every route *)

Lemma map_id_replace {A : Type} (id : A -> option Z) (new : A) (l : list A) :
  map id (replace_by_id id new l) = map id l.
Proof.
  unfold replace_by_id. induction l as [|x l IH]; [reflexivity|].
  cbn. rewrite IH. f_equal.
  destruct (opt_int_eqb (id x) (id new)) eqn:E; [|reflexivity].
  apply opt_int_eqb_eq in E. congruence.
Qed.

Lemma add_breeding_event_cases env db uid animal_id t d notes :
  let db' :=
    snd (fst (run_handler (add_breeding_event animal_id t d notes) env db uid)) in
  milk db' = milk db
  /\ (gestations db' = gestations db
      \/ gestations db' = gestations_after_service db animal_id d).
Proof.
  destruct (current_user db uid) as [u|] eqn:Hu.
  - destruct (get_animal db animal_id) as [a|] eqn:Ha.
    + destruct (is_service t) eqn:Ht.
      * destruct (date_in_range (d + DEFAULT_GESTATION_DAYS)) eqn:Hd.
        -- rewrite (add_breeding_event_service env db uid u a animal_id t d notes
                      Hu Ha Ht Hd).
           cbn. auto.
        -- unfold run_handler, add_breeding_event.
           rewrite bind_run, (get_current_user_logged_in _ _ _ _ _ _ Hu).
           cbn. rewrite Ha, Ht. cbn.
           unfold date_plus, date_add_days. rewrite Hd. cbn. auto.
      * rewrite (add_breeding_event_other env db uid u a animal_id t d notes Hu Ha Ht).
        cbn. auto.
    + unfold run_handler, add_breeding_event.
      rewrite bind_run, (get_current_user_logged_in _ _ _ _ _ _ Hu).
      cbn. rewrite Ha. destruct (sqlite_int animal_id); cbn; auto.
  - unfold run_handler, add_breeding_event.
    destruct (get_current_user_no_user env db db [] uid Hu) as (r & uid' & E & [->| ->]);
      rewrite bind_run, E; cbn; auto.
Qed.

Lemma mark_calved_cases env db uid animal_id calving_date :
  let db' := snd (fst (run_handler (mark_calved animal_id calving_date) env db uid)) in
  milk db' = milk db
  /\ (gestations db' = gestations db
      \/ exists g', gestations db' = replace_by_id Gestation.id g' (gestations db)).
Proof.
  unfold run_handler, mark_calved.
  destruct (current_user db uid) as [u|] eqn:Hu.
  - rewrite bind_run, (get_current_user_logged_in _ _ _ _ _ _ Hu).
    cbv beta iota. rewrite bind_run, session_exec_first_clean.
    destruct (latest_gestation animal_id db) as [g|];
      [|destruct (sqlite_int animal_id); cbn; auto].
    cbn. split; [reflexivity|]. right.
    exists (Gestation.mk (Gestation.id g) (Gestation.animal_id g)
              (Gestation.service_date g) (Gestation.predicted_calving_date g)
              (Some calving_date) (Gestation.notes g)).
    reflexivity.
  - destruct (get_current_user_no_user env db db [] uid Hu) as (r & uid' & E & [->| ->]);
      rewrite bind_run, E; cbn; auto.
Qed.

Lemma gestations_after_service_keys db animal_id d :
  NoDup (map Gestation.id (gestations db)) ->
  NoDup (map Gestation.id (gestations_after_service db animal_id d)).
Proof.
  intros Hnd. unfold gestations_after_service.
  destruct (latest_gestation animal_id db) as [g|].
  - change (map (fun r => if opt_int_eqb (Gestation.id r) (Gestation.id g)
                          then reopened g d (d + DEFAULT_GESTATION_DAYS) else r)
                (gestations db))
      with (replace_by_id Gestation.id
              (reopened g d (d + DEFAULT_GESTATION_DAYS)) (gestations db)).
    rewrite map_id_replace. exact Hnd.
  - rewrite map_app. cbn [map new_gestation Gestation.id].
    apply NoDup_app; [exact Hnd|repeat constructor; intros []|].
    intros x Hx [<-|[]]. exact (next_id_fresh _ _ Hx).
Qed.

Lemma milk_after_pairs db a' d' am pm :
  NoDup (map MilkYieldDaily.id (milk db)) ->
  (forall a d, (List.length (filter (same_entry a d) (milk db)) <= 1)%nat) ->
  forall a d,
    (List.length (filter (same_entry a d) (milk_after db a' d' am pm)) <= 1)%nat.
Proof.
  intros Hnd Hone a d. unfold milk_after.
  destruct (hd_error (filter (same_entry a' d') (milk db))) as [m|] eqn:Hm.
  - assert (Hin : In m (filter (same_entry a' d') (milk db))).
    { destruct (filter (same_entry a' d') (milk db)); [discriminate|].
      injection Hm as ->. left. reflexivity. }
    apply filter_In in Hin. destruct Hin as [Hin _].
    destruct (replace_by_id_unique MilkYieldDaily.id m (rewritten_milk m am pm)
                (milk db) eq_refl Hin Hnd) as (l1 & l2 & E1 & E2).
    unfold replace_by_id in E2. cbn [rewritten_milk MilkYieldDaily.id] in E2.
    rewrite E2. specialize (Hone a d). rewrite E1 in Hone.
    rewrite filter_app in *. cbn [filter] in *.
    change (same_entry a d (rewritten_milk m am pm)) with (same_entry a d m).
    destruct (same_entry a d m); rewrite length_app in *; cbn [List.length] in *;
      exact Hone.
  - assert (Hnil : filter (same_entry a' d') (milk db) = [])
      by (destruct (filter (same_entry a' d') (milk db)); [reflexivity|discriminate]).
    rewrite filter_app, length_app. cbn [filter].
    destruct (same_entry a d (new_milk db a' d' am pm)) eqn:Hs.
    + unfold same_entry, milk_of, milk_on in Hs. cbn in Hs.
      apply andb_prop in Hs. destruct Hs as [H1 H2].
      apply Z.eqb_eq in H1. apply Z.eqb_eq in H2. subst a' d'.
      rewrite Hnil. cbn. lia.
    + specialize (Hone a d). cbn. lia.
Qed.

(** X29: every route keeps [keys_ok]: the side conditions of the milk and
    breeding theorems hold in every store the application makes out of one
    where they hold, the empty store among them. *)
Theorem keys_ok_preserved env db uid r :
  keys_ok db -> keys_ok (serve env db uid r).
Proof.
  intros (Hm & Hp & Hg). unfold serve.
  assert (Hframe : forall h, frames h ->
            keys_ok (snd (fst (run_handler h env db uid)))).
  { intros h Hh. destruct (run_framed h env db uid Hh) as [E1 E2].
    unfold keys_ok. rewrite E1, E2. auto. }
  destruct r; cbn [route].
  - apply Hframe, frames_home.
  - apply Hframe, frames_home.
  - apply Hframe, frames_animals_list.
  - apply Hframe, frames_animals_create.
  - apply Hframe, frames_animal_detail.
  - apply Hframe, frames_animal_edit_form.
  - apply Hframe, frames_animal_edit.
  - apply Hframe, frames_animal_delete.
  - destruct (add_milk_cases env db uid animal_id entry_date am_liters pm_liters)
      as [E|E]; rewrite E; [unfold keys_ok; auto|].
    unfold keys_ok. cbn [milk gestations set_milk].
    destruct (milk_after_entry db animal_id entry_date am_liters pm_liters Hm
                (Hp animal_id entry_date)) as [Hm' _].
    repeat split; [exact Hm'| |exact Hg].
    apply milk_after_pairs; assumption.
  - destruct (add_breeding_event_cases env db uid animal_id event_type event_date notes)
      as [E1 [E2|E2]]; unfold keys_ok; rewrite E1, E2; auto.
    repeat split; auto. apply gestations_after_service_keys, Hg.
  - apply Hframe, frames_add_vaccination_reminder.
  - destruct (mark_calved_cases env db uid animal_id calving_date)
      as [E1 [E2|[g' E2]]]; unfold keys_ok; rewrite E1, E2; auto.
    rewrite map_id_replace. auto.
  - apply Hframe, frames_dashboard.
Qed.

Lemma keys_ok_empty : keys_ok empty_db.
Proof.
  split; [constructor|]. split; [|constructor].
  intros a d. cbn. lia.
Qed.

Lemma keys_ok_demo : keys_ok demo_db.
Proof.
  split; [|split].
  - cbn. repeat constructor; cbn; intuition discriminate.
  - intros a d. cbn [demo_db milk filter].
    unfold same_entry, milk_of, milk_on.
    cbn [MilkYieldDaily.animal_id MilkYieldDaily.entry_date].
    destruct (Z.eqb_spec 1 a) as [E1|H1], (Z.eqb_spec 2 a) as [E2|H2];
      try lia; cbn [andb]; destruct (739000 =? d); cbn; lia.
  - cbn. repeat constructor; cbn; intuition discriminate.
Qed.

Lemma keys_ok_preserved_witness :
  keys_ok (serve env0 demo_db (Some 1) (POST_milk 2 738999 1 2))
  /\ keys_ok (serve env0 demo_db (Some 1) (POST_milk 1 739000 0.1 0.2))
  /\ keys_ok (serve env0 demo_db (Some 2) (POST_breeding_event 2 AI 739000 None)).
Proof.
  split; [|split].
  - apply (keys_ok_preserved env0 demo_db (Some 1) (POST_milk 2 738999 1 2)).
    exact keys_ok_demo.
  - apply (keys_ok_preserved env0 demo_db (Some 1) (POST_milk 1 739000 0.1 0.2)).
    exact keys_ok_demo.
  - apply (keys_ok_preserved env0 demo_db (Some 2)
             (POST_breeding_event 2 AI 739000 None)).
    exact keys_ok_demo.
Defined.

(** The store after the first of these writes has three milk rows, after
    the second two, the row of cow 1 rewritten. *)
Example keys_ok_writes :
  map (fun m => (MilkYieldDaily.animal_id m, MilkYieldDaily.entry_date m,
                 MilkYieldDaily.total_liters m))
    (milk (serve env0 demo_db (Some 1) (POST_milk 2 738999 1 2)))
  = [(1, 739000, 7%float); (2, 739000, 7%float); (2, 738999, 3%float)]
  /\ map (fun m => (MilkYieldDaily.animal_id m, MilkYieldDaily.entry_date m,
                    MilkYieldDaily.total_liters m))
       (milk (serve env0 demo_db (Some 1) (POST_milk 1 739000 0.1 0.2)))
     = [(1, 739000, 0.30000000000000004%float); (2, 739000, 7%float)].
Proof. split; vm_compute; reflexivity. Qed.

(* ------------------------------------------------------------------ *)
(** ** What every statement keeps, every route keeps *)

Section Keeps.
Variable P : DB -> Prop.
Variable ok : Pending -> bool.
Hypothesis emit_keeps : forall fk db p db',
  P db -> ok p = true -> emit fk db p = Some db' -> P db'.

Lemma flush_keeps fk ps : forall db db',
  P db -> forallb ok ps = true -> flush_statements fk db ps = inr db' -> P db'.
Proof.
  induction ps as [|p ps IH]; cbn; intros db db' Hp Hok Hf.
  - injection Hf as <-. exact Hp.
  - apply andb_prop in Hok. destruct Hok as [Hk Hks].
    destruct (binds p); [|discriminate].
    destruct (emit fk db p) as [db1|] eqn:E; [|discriminate].
    exact (IH _ _ (emit_keeps _ _ _ _ Hp Hk E) Hks Hf).
Qed.

Lemma keeps_ret {A : Type} (a : A) : keeps P ok (ret a).
Proof. intros env st H. exact H. Qed.

Lemma keeps_raise {A : Type} (e : Exc) : keeps P ok (@raise A e).
Proof. intros env st H. exact H. Qed.

Lemma keeps_ask {A : Type} (f : Env -> A) : keeps P ok (ask f).
Proof. intros env st H. exact H. Qed.

Lemma keeps_bind {A B : Type} (m : M A) (k : A -> M B) :
  keeps P ok m -> (forall a, keeps P ok (k a)) -> keeps P ok (bind m k).
Proof.
  intros Hm Hk env st H. unfold bind.
  specialize (Hm env st H).
  destruct (m env st) as [[e|a] st']; [exact Hm|].
  exact (Hk a env st' Hm).
Qed.

Lemma keeps_request_session_user_id : keeps P ok request_session_user_id.
Proof. intros env st H. exact H. Qed.

Lemma keeps_request_session_clear : keeps P ok request_session_clear.
Proof. intros env st H. exact H. Qed.

Lemma keeps_session_get {A : Type} (get : DB -> Z -> option A) k :
  keeps P ok (session_get get k).
Proof. intros env st H. exact H. Qed.

Lemma keeps_session_get_fk {A : Type} (get : DB -> Z -> option A) k :
  keeps P ok (session_get_fk get k).
Proof. intros env st H. exact H. Qed.

Lemma keeps_session_flush : keeps P ok session_flush.
Proof.
  intros env st (Hc & Ht & Hp). unfold session_flush.
  destruct (flush_statements (fk_enforced env) (txn st) (pending st)) as [e|db'] eqn:E.
  - exact (conj Hc (conj Ht Hp)).
  - split; [exact Hc|]. split; [|reflexivity].
    exact (flush_keeps _ _ _ _ Ht Hp E).
Qed.

Lemma keeps_session_exec {A : Type} (query : DB -> A) :
  keeps P ok (session_exec query).
Proof.
  unfold session_exec. apply keeps_bind; [apply keeps_session_flush|].
  intros _ env st H. exact H.
Qed.

Lemma keeps_session_exec_first {A : Type} k (query : DB -> option A) :
  keeps P ok (session_exec_first k query).
Proof.
  unfold session_exec_first. apply keeps_bind; [apply keeps_session_exec|].
  intros [x|]; [|destruct (sqlite_int k)]; intros env st H; exact H.
Qed.

Lemma keeps_session_commit : keeps P ok session_commit.
Proof.
  unfold session_commit. apply keeps_bind; [apply keeps_session_flush|].
  intros _ env st (Hc & Ht & Hp). split; [exact Ht|]. split; [exact Ht|reflexivity].
Qed.

Lemma keeps_session_rollback : keeps P ok session_rollback.
Proof.
  intros env st (Hc & Ht & Hp). split; [exact Hc|]. split; [exact Hc|reflexivity].
Qed.

Lemma keeps_session_add p : ok p = true -> keeps P ok (session_add p).
Proof.
  intros Hk env st (Hc & Ht & Hp).
  split; [exact Hc|]. split; [exact Ht|]. cbn.
  rewrite forallb_app, Hp. cbn. rewrite Hk. reflexivity.
Qed.

Lemma keeps_session_refresh_breed b : keeps P ok (session_refresh_breed b).
Proof. intros env st H. exact H. Qed.

Lemma keeps_try {A : Type} (body handler : M A) :
  keeps P ok body -> keeps P ok handler ->
  keeps P ok (try_except_IntegrityError body handler).
Proof.
  intros Hb Hh env st H. unfold try_except_IntegrityError.
  specialize (Hb env st H).
  destruct (body env st) as [[[]|a] st']; try exact Hb.
  exact (Hh env st' Hb).
Qed.

Lemma keeps_filterM {A : Type} (p : A -> M bool) (l : list A) :
  (forall x, keeps P ok (p x)) -> keeps P ok (filterM p l).
Proof.
  intros Hp. induction l as [|x l IH]; cbn [filterM]; [apply keeps_ret|].
  apply keeps_bind; [apply Hp|]. intros b.
  apply keeps_bind; [exact IH|]. intros rest. apply keeps_ret.
Qed.

Lemma keeps_mapM {A B : Type} (f : A -> M B) (l : list A) :
  (forall x, keeps P ok (f x)) -> keeps P ok (mapM f l).
Proof.
  intros Hf. induction l as [|x l IH]; cbn [mapM]; [apply keeps_ret|].
  apply keeps_bind; [apply Hf|]. intros y.
  apply keeps_bind; [exact IH|]. intros rest. apply keeps_ret.
Qed.

Lemma keeps_date_plus d n : keeps P ok (date_plus d n).
Proof.
  unfold date_plus. destruct (date_add_days d n); [apply keeps_ret|apply keeps_raise].
Qed.

Lemma run_keeps (h : M Response) env db uid :
  keeps P ok h -> P db -> P (snd (fst (run_handler h env db uid))).
Proof.
  intros Hh Hdb. unfold run_handler.
  assert (H0 : kept P ok (mkSt db db [] uid))
    by (split; [exact Hdb|split; [exact Hdb|reflexivity]]).
  specialize (Hh env _ H0).
  destruct (h env (mkSt db db [] uid)) as [[[]|r] st]; cbn; apply Hh.
Qed.
End Keeps.

(** One step through a handler: binds, branches, and the session
    operations; [session_add] asks that the statement be allowed. *)
Ltac keeps_step :=
  cbv beta zeta;
  lazymatch goal with
  | |- keeps _ _ (bind _ _) => apply keeps_bind; [|intros ?]
  | |- keeps _ _ (try_except_IntegrityError _ _) => apply keeps_try
  | |- keeps _ _ (filterM _ _) => apply keeps_filterM; intros ?
  | |- keeps _ _ (mapM _ _) => apply keeps_mapM; intros ?
  | |- keeps _ _ (session_add _) => apply keeps_session_add; reflexivity
  | |- keeps _ _ (session_delete _) => apply keeps_session_add; reflexivity
  | |- keeps _ _ (session_exec _) => apply keeps_session_exec; assumption
  | |- keeps _ _ (session_exec_first _ _) =>
      apply keeps_session_exec_first; assumption
  | |- keeps _ _ session_commit => apply keeps_session_commit; assumption
  | |- keeps _ _ session_rollback => apply keeps_session_rollback
  | |- keeps _ _ (date_plus _ _) => apply keeps_date_plus
  | |- keeps _ _ (ret _) => apply keeps_ret
  | |- keeps _ _ (raise _) => apply keeps_raise
  | |- keeps _ _ (ask _) => apply keeps_ask
  | |- keeps _ _ request_session_user_id => apply keeps_request_session_user_id
  | |- keeps _ _ request_session_clear => apply keeps_request_session_clear
  | |- keeps _ _ (session_get _ _) => apply keeps_session_get
  | |- keeps _ _ (session_get_fk _ _) => apply keeps_session_get_fk
  | |- keeps _ _ (session_refresh_breed _) => apply keeps_session_refresh_breed
  | |- keeps _ _ (match ?x with _ => _ end) => destruct x
  end.

Ltac keeps_all := repeat keeps_step.

Section KeepsRoutes.
Variable P : DB -> Prop.

(** With every statement keeping [P], every handler does. *)
Section AnyStatement.
Hypothesis emit_keeps : forall fk db p db',
  P db -> any_statement p = true -> emit fk db p = Some db' -> P db'.

Lemma keeps_any_route r : keeps P any_statement (route r).
Proof.
  destruct r; cbn [route];
    unfold root_redirect, home, animals_list, animals_create, animal_detail,
      animal_edit_form, animal_edit, animal_delete, add_milk,
      add_breeding_event, add_vaccination_reminder, mark_calved, dashboard,
      chart_day, breed_id_for, animal_of_farm, get_current_user;
    keeps_all.
Qed.
End AnyStatement.

(** A handler registered with [@app.get] adds no statement at all. *)
Section NoStatement.
Hypothesis emit_keeps : forall fk db p db',
  P db -> no_statement p = true -> emit fk db p = Some db' -> P db'.

Lemma keeps_get_route r : is_get r = true -> keeps P no_statement (route r).
Proof.
  destruct r; cbn [route is_get]; try discriminate; intros _;
    unfold root_redirect, home, animals_list, animal_detail,
      animal_edit_form, dashboard,
      chart_day, animal_of_farm, get_current_user;
    keeps_all.
Qed.
End NoStatement.
End KeepsRoutes.

(** Whatever property of the store every single statement keeps, every
    request keeps. *)
Lemma route_keeps (P : DB -> Prop) :
  (forall fk db p db', P db -> emit fk db p = Some db' -> P db') ->
  forall env db uid r, P db -> P (serve env db uid r).
Proof.
  intros Hemit env db uid r Hdb. unfold serve.
  apply (run_keeps P any_statement); [|exact Hdb].
  apply keeps_any_route.
  intros fk db0 p db' H0 _ E. exact (Hemit fk db0 p db' H0 E).
Qed.

(* ------------------------------------------------------------------ *)
(** ** Reads never write, logs only grow, animal keys stay distinct *)

(** X1: a request to a route registered with [@app.get] leaves the store
    exactly as it was, whoever sends it and whatever it is answered. *)
Theorem get_routes_never_write env db uid r :
  is_get r = true -> serve env db uid r = db.
Proof.
  intros Hget. unfold serve.
  apply (run_keeps (fun d => d = db) no_statement); [|reflexivity].
  apply keeps_get_route; [|exact Hget].
  intros fk db0 p db' _ Hno. discriminate.
Qed.

Lemma get_routes_never_write_witness :
  serve env0 demo_db (Some 1) GET_dashboard = demo_db.
Proof.
  apply (get_routes_never_write env0 demo_db (Some 1) GET_dashboard).
  reflexivity.
Defined.

Lemma grew_refl {A : Type} (l : list A) : grew l l.
Proof. exists []. symmetry. apply app_nil_r. Qed.

Lemma grew_snoc {A : Type} (l : list A) (x : A) : grew l (l ++ [x]).
Proof. exists [x]. reflexivity. Qed.

Lemma grew_trans {A : Type} (l1 l2 l3 : list A) :
  grew l1 l2 -> grew l2 l3 -> grew l1 l3.
Proof.
  intros [m1 ->] [m2 ->]. exists (m1 ++ m2). symmetry. apply app_assoc.
Qed.

Lemma emit_logs_grew fk db p db' : emit fk db p = Some db' -> logs_grew db db'.
Proof.
  unfold logs_grew.
  destruct p; cbn;
    unfold insert_breed, insert_animal, insert_milk, insert_breeding_event,
      insert_gestation, insert_reminder, update_animal, update_milk,
      update_gestation, delete_animal;
    statement_done; cbn; auto using grew_refl, grew_snoc.
Qed.

(** X2: the breeding-event log, the reminder log and the breed table are
    append-only: after any request each of them is what it was, followed by
    the rows the request added; no route rewrites or removes a row of them,
    the deletion of their animal included. *)
Theorem logs_only_grow env db uid r : logs_grew db (serve env db uid r).
Proof.
  apply (route_keeps (logs_grew db)).
  - intros fk db0 p db' (H1 & H2 & H3) E.
    destruct (emit_logs_grew fk db0 p db' E) as (G1 & G2 & G3).
    repeat split; eapply grew_trans; eassumption.
  - repeat split; apply grew_refl.
Qed.

Lemma NoDup_map_filter {Row Key : Type} (key : Row -> Key) (rows : list Row)
  (keep : Row -> bool) :
  NoDup (map key rows) -> NoDup (map key (filter keep rows)).
Proof.
  intros Hnd. induction rows as [|r rows IH]; cbn; [constructor|].
  cbn in Hnd. apply NoDup_cons_iff in Hnd. destruct Hnd as [Hr Hrows].
  destruct (keep r); cbn; [|exact (IH Hrows)].
  constructor; [|exact (IH Hrows)].
  intros Hin. apply Hr. apply in_map_iff in Hin. destruct Hin as (y & Ey & Hy).
  apply filter_In in Hy. apply in_map_iff. exists y. tauto.
Qed.

Lemma NoDup_insert {A : Type} (x : A) (l1 l2 : list A) :
  NoDup (l1 ++ l2) -> ~ In x (l1 ++ l2) -> NoDup (l1 ++ x :: l2).
Proof.
  intros Hnd Hx. apply (NoDup_Add (Add_app x l1 l2)). split; assumption.
Qed.

Lemma opt_int_eq_dec (x y : option Z) : {x = y} + {x <> y}.
Proof. decide equality. apply Z.eq_dec. Qed.

Lemma update_animal_tags a l :
  NoDup (map Animal.id l) -> NoDup (map Animal.tag_no l) ->
  existsb (fun r => String.eqb (Animal.tag_no r) (Animal.tag_no a)
                    && negb (opt_int_eqb (Animal.id r) (Animal.id a))) l = false ->
  NoDup (map Animal.tag_no (replace_by_id Animal.id a l)).
Proof.
  intros Hid Htag Hfree.
  destruct (in_dec opt_int_eq_dec (Animal.id a) (map Animal.id l)) as [Hin|Hout].
  - apply in_map_iff in Hin. destruct Hin as (old & Eold & Hold).
    destruct (replace_by_id_unique Animal.id old a l (eq_sym Eold) Hold Hid)
      as (l1 & l2 & E1 & E2).
    rewrite E2. subst l. rewrite map_app in *. cbn [map] in *.
    apply NoDup_insert; [exact (NoDup_remove_1 _ _ _ Htag)|].
    intros Hin. rewrite <- map_app in Hin.
    apply in_map_iff in Hin. destruct Hin as (r & Er & Hr).
    assert (Hne : Animal.id r <> Animal.id a).
    { rewrite <- Eold. intros E. apply (NoDup_remove_2 _ _ _ Hid).
      rewrite <- E, <- map_app. apply in_map. exact Hr. }
    assert (Hex : existsb (fun r => String.eqb (Animal.tag_no r) (Animal.tag_no a)
                    && negb (opt_int_eqb (Animal.id r) (Animal.id a)))
                    (l1 ++ old :: l2) = true).
    { apply existsb_exists. exists r. split.
      - apply in_app_or in Hr. apply in_or_app. destruct Hr; [left|right; right]; assumption.
      - rewrite Er, String.eqb_refl, (opt_int_eqb_neq _ _ Hne). reflexivity. }
    congruence.
  - rewrite (replace_by_id_absent Animal.id a l Hout). exact Htag.
Qed.

Lemma emit_animal_keys fk db p db' :
  animal_keys_ok db -> emit fk db p = Some db' -> animal_keys_ok db'.
Proof.
  unfold animal_keys_ok. intros [Hid Htag].
  destruct p; cbn.
  - intros [= <-]. cbn. auto.
  - unfold insert_animal.
    destruct (existsb _ _) eqn:Hex; [discriminate|].
    statement_done. cbn [animals set_animals].
    rewrite !map_app. cbn [map animal_with_id stored_animal Animal.id Animal.tag_no].
    split.
    + apply NoDup_app; [exact Hid|repeat constructor; intros []|].
      intros x Hx [<-|[]]. exact (next_id_fresh _ _ Hx).
    + apply NoDup_app; [exact Htag|repeat constructor; intros []|].
      intros x Hx [<-|[]].
      apply in_map_iff in Hx. destruct Hx as (r & Er & Hr).
      assert (Hex' : existsb (fun r => String.eqb (Animal.tag_no r) (Animal.tag_no a))
                       (animals db) = true).
      { apply existsb_exists. exists r. split; [exact Hr|].
        rewrite Er. apply String.eqb_refl. }
      congruence.
  - unfold insert_milk. statement_done. cbn. auto.
  - unfold insert_breeding_event. statement_done. cbn. auto.
  - unfold insert_gestation. statement_done. cbn. auto.
  - unfold insert_reminder. statement_done. cbn. auto.
  - unfold update_animal.
    destruct (existsb _ _) eqn:Hex; [discriminate|].
    statement_done. cbn [animals set_animals].
    change (map (fun r => if opt_int_eqb (Animal.id r) (Animal.id a)
                          then stored_animal a else r) (animals db))
      with (replace_by_id Animal.id (stored_animal a) (animals db)).
    split.
    + exact (eq_ind_r (fun l => NoDup l) Hid
               (map_id_replace Animal.id (stored_animal a) (animals db))).
    + exact (update_animal_tags (stored_animal a) (animals db) Hid Htag Hex).
  - unfold update_milk. statement_done. cbn. auto.
  - intros [= <-]. cbn. auto.
  - unfold delete_animal. statement_done. cbn [animals set_animals].
    split; apply NoDup_map_filter; assumption.
Qed.

(** X3: no request makes two animals share a primary key or a tag number:
    when ids and tags are distinct before a request, they are after it,
    whichever route it takes and however it ends. *)
Theorem animal_keys_preserved env db uid r :
  animal_keys_ok db -> animal_keys_ok (serve env db uid r).
Proof.
  apply (route_keeps animal_keys_ok). exact emit_animal_keys.
Qed.

Lemma animal_keys_preserved_witness :
  animal_keys_ok
    (serve env0 demo_db (Some 1)
       (POST_animals
          (AnimalForm.mk "T9" "F" 738000 None "Cow" None None None None None 0 0))).
Proof.
  apply (animal_keys_preserved env0 demo_db (Some 1)).
  split; cbn; repeat constructor; cbn; intuition discriminate.
Defined.

(* ------------------------------------------------------------------ *)
(** ** Requests without a valid session *)

Lemma get_current_user_none env c t p uid :
  current_user t uid = None ->
  cookie_bound uid = true ->
  get_current_user env (mkSt c t p uid)
  = (inr None, mkSt c t p (anonymous_cookie uid)).
Proof.
  unfold current_user, get_current_user, anonymous_cookie, cookie_bound.
  intros H Hk.
  destruct uid as [k|]; [|reflexivity].
  cbn. destruct (k =? 0); [reflexivity|].
  rewrite bind_run, session_get_missing by exact H.
  rewrite Hk. reflexivity.
Qed.

Lemma route_anonymous env db uid r :
  current_user db uid = None ->
  cookie_bound uid = true ->
  run_handler (route r) env db uid
  = (anonymous_response r, db, anonymous_cookie uid).
Proof.
  intros Hu Hk.
  destruct r; cbn [route anonymous_response];
    unfold run_handler, root_redirect, home, animals_list, animals_create,
      animal_detail, animal_edit_form, animal_edit, animal_delete, add_milk,
      add_breeding_event, add_vaccination_reminder, mark_calved, dashboard;
    rewrite bind_run, (get_current_user_none _ _ _ _ _ Hu Hk); reflexivity.
Qed.

(** A cookie whose key the driver cannot bind stops every route at the
    lookup of the user. *)
Lemma route_unbound_cookie env db uid r :
  current_user db uid = None ->
  cookie_bound uid = false ->
  run_handler (route r) env db uid = (InternalServerError, db, uid).
Proof.
  intros Hu Hk.
  destruct r; cbn [route];
    unfold run_handler, root_redirect, home, animals_list, animals_create,
      animal_detail, animal_edit_form, animal_edit, animal_delete, add_milk,
      add_breeding_event, add_vaccination_reminder, mark_calved, dashboard;
    rewrite bind_run, (get_current_user_overflow _ _ _ _ _ Hu Hk); reflexivity.
Qed.

Lemma route_no_user_store env db uid r :
  current_user db uid = None ->
  snd (fst (run_handler (route r) env db uid)) = db.
Proof.
  intros Hu. destruct (cookie_bound uid) eqn:Hk.
  - rewrite (route_anonymous env db uid r Hu Hk). reflexivity.
  - rewrite (route_unbound_cookie env db uid r Hu Hk). reflexivity.
Qed.

(** X4: a request whose cookie names no user of the store is never served:
    the landing page renders without counts, every other route redirects to
    [/login] with status 302, and the store is left as it was.  (A cookie
    whose key is outside the driver's 64 bits makes the lookup of the user
    raise: the answer is then a server error on every route.) *)
Theorem anonymous_requests_redirect env db uid r :
  current_user db uid = None ->
  respond env db uid r
  = (if cookie_bound uid then anonymous_response r else InternalServerError)
  /\ serve env db uid r = db
  /\ (cookie_bound uid = true -> r <> GET_root -> r <> GET_home ->
      respond env db uid r = RedirectResponse "/login" 302).
Proof.
  intros Hu. unfold respond, serve.
  destruct (cookie_bound uid) eqn:Hk.
  - rewrite (route_anonymous env db uid r Hu Hk). cbn.
    repeat split. intros _ H1 H2. destruct r; try reflexivity; contradiction.
  - rewrite (route_unbound_cookie env db uid r Hu Hk). cbn.
    repeat split. discriminate.
Qed.

Lemma anonymous_requests_redirect_witness :
  respond env0 demo_db (Some 7) (POST_animal_delete 1)
  = (if cookie_bound (Some 7) then anonymous_response (POST_animal_delete 1)
     else InternalServerError)
  /\ serve env0 demo_db (Some 7) (POST_animal_delete 1) = demo_db
  /\ (cookie_bound (Some 7) = true ->
      POST_animal_delete 1 <> GET_root -> POST_animal_delete 1 <> GET_home ->
      respond env0 demo_db (Some 7) (POST_animal_delete 1)
      = RedirectResponse "/login" 302).
Proof.
  apply (anonymous_requests_redirect env0 demo_db (Some 7) (POST_animal_delete 1)).
  reflexivity.
Defined.

(** X5: a cookie that carries the id of a user who is not in the store is
    cleared by the first request that presents it, on every route; when the
    id is outside the driver's 64 bits the request fails before that and the
    cookie stays. *)
Theorem stale_cookie_is_cleared env db k r :
  k <> 0 ->
  get_user db k = None ->
  cookie_after env db (Some k) r = if sqlite_int k then None else Some k.
Proof.
  intros Hk Hu. unfold cookie_after.
  assert (Hnone : current_user db (Some k) = None).
  { cbn. apply Z.eqb_neq in Hk. rewrite Hk. exact Hu. }
  destruct (sqlite_int k) eqn:Hb.
  - rewrite (route_anonymous env db (Some k) r Hnone Hb).
    cbn. apply Z.eqb_neq in Hk. rewrite Hk. reflexivity.
  - rewrite (route_unbound_cookie env db (Some k) r Hnone Hb). reflexivity.
Qed.

Lemma stale_cookie_is_cleared_witness :
  cookie_after env0 demo_db (Some 7) GET_dashboard = None
  /\ cookie_after env0 demo_db (Some (2 ^ 63)) GET_dashboard = Some (2 ^ 63).
Proof.
  split.
  - apply (stale_cookie_is_cleared env0 demo_db 7 GET_dashboard).
    + discriminate.
    + reflexivity.
  - apply (stale_cookie_is_cleared env0 demo_db (2 ^ 63) GET_dashboard).
    + discriminate.
    + reflexivity.
Defined.

(* ------------------------------------------------------------------ *)
(** ** A session, once valid, stays valid *)

Lemma steady_ret {A : Type} (a : A) : steady (ret a).
Proof. intros env st. reflexivity. Qed.

Lemma steady_raise {A : Type} (e : Exc) : steady (@raise A e).
Proof. intros env st. reflexivity. Qed.

Lemma steady_ask {A : Type} (f : Env -> A) : steady (ask f).
Proof. intros env st. reflexivity. Qed.

Lemma steady_bind {A B : Type} (m : M A) (k : A -> M B) :
  steady m -> (forall a, steady (k a)) -> steady (bind m k).
Proof.
  intros Hm Hk env st. unfold bind. specialize (Hm env st).
  destruct (m env st) as [[e|a] st']; [exact Hm|].
  rewrite (Hk a env st'). exact Hm.
Qed.

Lemma steady_session_get {A : Type} (get : DB -> Z -> option A) k :
  steady (session_get get k).
Proof. intros env st. reflexivity. Qed.

Lemma steady_session_get_fk {A : Type} (get : DB -> Z -> option A) k :
  steady (session_get_fk get k).
Proof. intros env st. reflexivity. Qed.

Lemma steady_session_flush : steady session_flush.
Proof.
  intros env st. unfold session_flush.
  destruct (flush_statements _ _ _); reflexivity.
Qed.

Lemma steady_session_exec {A : Type} (query : DB -> A) : steady (session_exec query).
Proof.
  unfold session_exec. apply steady_bind; [apply steady_session_flush|].
  intros _ env st. reflexivity.
Qed.

Lemma steady_session_exec_first {A : Type} k (query : DB -> option A) :
  steady (session_exec_first k query).
Proof.
  unfold session_exec_first. apply steady_bind; [apply steady_session_exec|].
  intros [x|]; [|destruct (sqlite_int k)]; intros env st; reflexivity.
Qed.

Lemma steady_session_commit : steady session_commit.
Proof.
  unfold session_commit. apply steady_bind; [apply steady_session_flush|].
  intros _ env st. reflexivity.
Qed.

Lemma steady_session_rollback : steady session_rollback.
Proof. intros env st. reflexivity. Qed.

Lemma steady_session_add p : steady (session_add p).
Proof. intros env st. reflexivity. Qed.

Lemma steady_session_refresh_breed b : steady (session_refresh_breed b).
Proof. intros env st. reflexivity. Qed.

Lemma steady_try {A : Type} (body handler : M A) :
  steady body -> steady handler -> steady (try_except_IntegrityError body handler).
Proof.
  intros Hb Hh env st. unfold try_except_IntegrityError. specialize (Hb env st).
  destruct (body env st) as [[[]|a] st']; try exact Hb.
  rewrite (Hh env st'). exact Hb.
Qed.

Lemma steady_filterM {A : Type} (p : A -> M bool) (l : list A) :
  (forall x, steady (p x)) -> steady (filterM p l).
Proof.
  intros Hp. induction l as [|x l IH]; cbn [filterM]; [apply steady_ret|].
  apply steady_bind; [apply Hp|]. intros b.
  apply steady_bind; [exact IH|]. intros rest. apply steady_ret.
Qed.

Lemma steady_mapM {A B : Type} (f : A -> M B) (l : list A) :
  (forall x, steady (f x)) -> steady (mapM f l).
Proof.
  intros Hf. induction l as [|x l IH]; cbn [mapM]; [apply steady_ret|].
  apply steady_bind; [apply Hf|]. intros y.
  apply steady_bind; [exact IH|]. intros rest. apply steady_ret.
Qed.

Lemma steady_date_plus d n : steady (date_plus d n).
Proof.
  unfold date_plus. destruct (date_add_days d n); [apply steady_ret|apply steady_raise].
Qed.

Ltac steady_step :=
  cbv beta zeta;
  lazymatch goal with
  | |- steady (bind _ _) => apply steady_bind; [|intros ?]
  | |- steady (try_except_IntegrityError _ _) => apply steady_try
  | |- steady (filterM _ _) => apply steady_filterM; intros ?
  | |- steady (mapM _ _) => apply steady_mapM; intros ?
  | |- steady (session_add _) => apply steady_session_add
  | |- steady (session_delete _) => apply steady_session_add
  | |- steady (session_exec _) => apply steady_session_exec
  | |- steady (session_exec_first _ _) => apply steady_session_exec_first
  | |- steady session_commit => apply steady_session_commit
  | |- steady session_rollback => apply steady_session_rollback
  | |- steady (date_plus _ _) => apply steady_date_plus
  | |- steady (ret _) => apply steady_ret
  | |- steady (raise _) => apply steady_raise
  | |- steady (ask _) => apply steady_ask
  | |- steady (session_get _ _) => apply steady_session_get
  | |- steady (session_get_fk _ _) => apply steady_session_get_fk
  | |- steady (session_refresh_breed _) => apply steady_session_refresh_breed
  | |- steady (match ?x with _ => _ end) => destruct x
  end.

Ltac steady_all := repeat steady_step.

Lemma run_handler_finish (h : M Response) env db uid :
  run_handler h env db uid = finish (h env (mkSt db db [] uid)).
Proof. reflexivity. Qed.

Lemma steady_finish (m : M Response) env db uid :
  steady m -> snd (finish (m env (mkSt db db [] uid))) = uid.
Proof.
  intros Hm. specialize (Hm env (mkSt db db [] uid)). unfold finish.
  destruct (m env (mkSt db db [] uid)) as [[[]|r] st]; exact Hm.
Qed.

Lemma cookie_of_logged_in env db uid u r :
  current_user db uid = Some u -> cookie_after env db uid r = uid.
Proof.
  intros Hu. unfold cookie_after. rewrite run_handler_finish.
  destruct r; cbn [route];
    unfold root_redirect, home, animals_list, animals_create,
      animal_detail, animal_edit_form, animal_edit, animal_delete, add_milk,
      add_breeding_event, add_vaccination_reminder, mark_calved, dashboard;
    rewrite bind_run, (get_current_user_logged_in _ _ _ _ _ _ Hu);
    cbv beta iota;
    apply steady_finish;
    unfold chart_day, breed_id_for, animal_of_farm;
    steady_all.
Qed.

Lemma emit_users_farms fk db p db' :
  emit fk db p = Some db' -> users db' = users db /\ farms db' = farms db.
Proof.
  destruct p; cbn;
    unfold insert_breed, insert_animal, insert_milk, insert_breeding_event,
      insert_gestation, insert_reminder, update_animal, update_milk,
      update_gestation, delete_animal;
    statement_done; auto.
Qed.

Lemma route_users_farms env db uid r :
  users (serve env db uid r) = users db /\ farms (serve env db uid r) = farms db.
Proof.
  apply (route_keeps (fun d => users d = users db /\ farms d = farms db)).
  - intros fk db0 p db' [H1 H2] E.
    destruct (emit_users_farms fk db0 p db' E) as [E1 E2]. split; congruence.
  - auto.
Qed.

(** X6: none of these routes touches the user or the farm table, and a
    request of a logged-in user leaves the cookie as it was: whoever is
    logged in before a request is logged in, as the same user, after it. *)
Theorem session_survives_requests env db uid u r :
  current_user db uid = Some u ->
  users (serve env db uid r) = users db
  /\ farms (serve env db uid r) = farms db
  /\ cookie_after env db uid r = uid
  /\ current_user (serve env db uid r) (cookie_after env db uid r) = Some u.
Proof.
  intros Hu. destruct (route_users_farms env db uid r) as [E1 E2].
  rewrite (cookie_of_logged_in env db uid u r Hu).
  repeat split; try assumption.
  rewrite (current_user_users _ _ _ E1). exact Hu.
Qed.

Lemma session_survives_requests_witness :
  users (serve env0 demo_db (Some 1) (POST_animal_delete 2)) = users demo_db
  /\ farms (serve env0 demo_db (Some 1) (POST_animal_delete 2)) = farms demo_db
  /\ cookie_after env0 demo_db (Some 1) (POST_animal_delete 2) = Some 1
  /\ current_user (serve env0 demo_db (Some 1) (POST_animal_delete 2))
       (cookie_after env0 demo_db (Some 1) (POST_animal_delete 2))
     = Some (farmer 1 1 false).
Proof.
  apply (session_survives_requests env0 demo_db (Some 1) (farmer 1 1 false)
           (POST_animal_delete 2)).
  reflexivity.
Defined.

(* ------------------------------------------------------------------ *)
(** ** Missing rows *)

(** X7: for a logged-in user and an animal id of 64 bits that is not in the
    store, the detail view, the edit form, the edit, the breeding event and
    the vaccination reminder answer 404 "Animal not found" and the delete
    answers 404 "Not found"; for an id outside 64 bits the driver raises at
    the lookup and each of them answers with a server error.  None of them
    changes the store (the edit does not even create the breed it names). *)
Theorem missing_animal_is_404 env db uid u k :
  current_user db uid = Some u ->
  get_animal db k = None ->
  run_handler (animal_detail k) env db uid
  = (not_found k "Animal not found", db, uid)
  /\ run_handler (animal_edit_form k) env db uid
     = (not_found k "Animal not found", db, uid)
  /\ (forall f, run_handler (animal_edit k f) env db uid
                = (not_found k "Animal not found", db, uid))
  /\ run_handler (animal_delete k) env db uid
     = (not_found k "Not found", db, uid)
  /\ (forall t d notes,
        run_handler (add_breeding_event k t d notes) env db uid
        = (not_found k "Animal not found", db, uid))
  /\ (forall d notes,
        run_handler (add_vaccination_reminder k d notes) env db uid
        = (not_found k "Animal not found", db, uid)).
Proof.
  intros Hu Ha.
  repeat split; intros;
    unfold run_handler, animal_detail, animal_edit_form, animal_edit,
      animal_delete, add_breeding_event, add_vaccination_reminder, not_found;
    rewrite bind_run, (get_current_user_logged_in _ _ _ _ _ _ Hu);
    cbv beta iota;
    rewrite bind_run, session_get_missing by exact Ha;
    destruct (sqlite_int k); reflexivity.
Qed.

Lemma missing_animal_is_404_witness :
  (run_handler (animal_detail 9) env0 demo_db (Some 1)
   = (ErrorResponse 404 "Animal not found", demo_db, Some 1)
   /\ run_handler (animal_edit_form 9) env0 demo_db (Some 1)
      = (ErrorResponse 404 "Animal not found", demo_db, Some 1)
   /\ (forall f, run_handler (animal_edit 9 f) env0 demo_db (Some 1)
                 = (ErrorResponse 404 "Animal not found", demo_db, Some 1))
   /\ run_handler (animal_delete 9) env0 demo_db (Some 1)
      = (ErrorResponse 404 "Not found", demo_db, Some 1)
   /\ (forall t d notes,
         run_handler (add_breeding_event 9 t d notes) env0 demo_db (Some 1)
         = (ErrorResponse 404 "Animal not found", demo_db, Some 1))
   /\ (forall d notes,
         run_handler (add_vaccination_reminder 9 d notes) env0 demo_db (Some 1)
         = (ErrorResponse 404 "Animal not found", demo_db, Some 1)))
  /\ (run_handler (animal_detail (2 ^ 63)) env0 demo_db (Some 1)
      = (InternalServerError, demo_db, Some 1)
      /\ run_handler (animal_edit_form (2 ^ 63)) env0 demo_db (Some 1)
         = (InternalServerError, demo_db, Some 1)
      /\ (forall f, run_handler (animal_edit (2 ^ 63) f) env0 demo_db (Some 1)
                    = (InternalServerError, demo_db, Some 1))
      /\ run_handler (animal_delete (2 ^ 63)) env0 demo_db (Some 1)
         = (InternalServerError, demo_db, Some 1)
      /\ (forall t d notes,
            run_handler (add_breeding_event (2 ^ 63) t d notes) env0 demo_db (Some 1)
            = (InternalServerError, demo_db, Some 1))
      /\ (forall d notes,
            run_handler (add_vaccination_reminder (2 ^ 63) d notes) env0 demo_db
              (Some 1)
            = (InternalServerError, demo_db, Some 1))).
Proof.
  split.
  - apply (missing_animal_is_404 env0 demo_db (Some 1) (farmer 1 1 false) 9).
    + reflexivity.
    + reflexivity.
  - apply (missing_animal_is_404 env0 demo_db (Some 1) (farmer 1 1 false) (2 ^ 63)).
    + reflexivity.
    + reflexivity.
Defined.

Lemma mark_calved_run env db uid u animal_id calving_date :
  current_user db uid = Some u ->
  run_handler (mark_calved animal_id calving_date) env db uid
  = match latest_gestation animal_id db with
    | Some g =>
        (RedirectResponse ("/animals/" ++ str_of_int animal_id) 302,
         set_gestations db
           (replace_by_id Gestation.id (calved g calving_date) (gestations db)),
         uid)
    | None => (not_found animal_id "No gestation record", db, uid)
    end.
Proof.
  intros Hu. unfold run_handler, mark_calved, not_found.
  rewrite bind_run, (get_current_user_logged_in _ _ _ _ _ _ Hu).
  cbv beta iota. rewrite bind_run, session_exec_first_clean.
  destruct (latest_gestation animal_id db) as [g|];
    [|destruct (sqlite_int animal_id)]; reflexivity.
Qed.

(** X8: [POST /gestation/{id}/calved] by a logged-in user: when the animal
    id has no gestation row the answer is 404 "No gestation record" (a
    server error when the id is outside the driver's 64 bits) and the store
    is unchanged; otherwise one row of latest service date gets the calving
    date as actual calving date, in place, and nothing else in the store
    changes.  Neither the animal nor its farm is looked at. *)
Theorem mark_calved_closes_latest env db uid u animal_id calving_date :
  current_user db uid = Some u ->
  NoDup (map Gestation.id (gestations db)) ->
  ((forall g, In g (gestations db) -> Gestation.animal_id g <> animal_id) ->
   run_handler (mark_calved animal_id calving_date) env db uid
   = (not_found animal_id "No gestation record", db, uid))
  /\ ((exists g, In g (gestations db) /\ Gestation.animal_id g = animal_id) ->
      exists g l1 l2,
        gestations db = l1 ++ g :: l2
        /\ Gestation.animal_id g = animal_id
        /\ (forall h, In h (gestations db) -> Gestation.animal_id h = animal_id ->
                      Gestation.service_date h <= Gestation.service_date g)
        /\ run_handler (mark_calved animal_id calving_date) env db uid
           = (RedirectResponse ("/animals/" ++ str_of_int animal_id) 302,
              set_gestations db
                (l1 ++ Gestation.mk (Gestation.id g) (Gestation.animal_id g)
                         (Gestation.service_date g)
                         (Gestation.predicted_calving_date g)
                         (Some calving_date) (Gestation.notes g) :: l2),
              uid)).
Proof.
  intros Hu Hnd. rewrite (mark_calved_run env db uid u animal_id calving_date Hu).
  destruct (latest_gestation animal_id db) as [g|] eqn:Hg; split.
  - intros Hnone. destruct (latest_gestation_spec _ _ _ Hg) as (Hin & Hof & _).
    destruct (Hnone g Hin Hof).
  - intros _. destruct (latest_gestation_spec _ _ _ Hg) as (Hin & Hof & Hmax).
    destruct (replace_by_id_unique Gestation.id g (calved g calving_date)
                (gestations db) eq_refl Hin Hnd) as (l1 & l2 & E1 & E2).
    exists g, l1, l2. rewrite E2. repeat split; assumption.
  - intros _. reflexivity.
  - intros (g & Hin & Hof). destruct (latest_gestation_none _ _ Hg g Hin Hof).
Qed.

Lemma mark_calved_closes_latest_witness :
  ((forall g, In g (gestations gestation_db) -> Gestation.animal_id g <> 2) ->
   run_handler (mark_calved 2 739050) env0 gestation_db (Some 1)
   = (ErrorResponse 404 "No gestation record", gestation_db, Some 1))
  /\ ((exists g, In g (gestations gestation_db) /\ Gestation.animal_id g = 2) ->
      exists g l1 l2,
        gestations gestation_db = l1 ++ g :: l2
        /\ Gestation.animal_id g = 2
        /\ (forall h, In h (gestations gestation_db) -> Gestation.animal_id h = 2 ->
                      Gestation.service_date h <= Gestation.service_date g)
        /\ run_handler (mark_calved 2 739050) env0 gestation_db (Some 1)
           = (RedirectResponse ("/animals/" ++ str_of_int 2) 302,
              set_gestations gestation_db
                (l1 ++ Gestation.mk (Gestation.id g) (Gestation.animal_id g)
                         (Gestation.service_date g)
                         (Gestation.predicted_calving_date g)
                         (Some 739050) (Gestation.notes g) :: l2),
              Some 1)).
Proof.
  apply (mark_calved_closes_latest env0 gestation_db (Some 1) (farmer 1 1 false)
           2 739050).
  - reflexivity.
  - cbn. repeat constructor; cbn; intuition discriminate.
Defined.

(** X9: [add_milk] never looks the animal up.  For a logged-in user, an
    animal id that is not in the store, a date with no row yet and liters
    the columns accept: the default engine stores the row and redirects; an
    engine that enforces foreign keys raises, and so does the driver for an
    id outside 64 bits: the request then ends in a server error and the
    store is unchanged. *)
Theorem milk_for_missing_animal env db uid u k d am pm :
  current_user db uid = Some u ->
  get_animal db k = None ->
  filter (same_entry k d) (milk db) = [] ->
  liters_storable am pm = true ->
  run_handler (add_milk k d am pm) env db uid
  = if sqlite_int k && negb (fk_enforced env)
    then (RedirectResponse ("/animals/" ++ str_of_int k) 302,
          set_milk db
            (milk db
             ++ [MilkYieldDaily.mk (Some (next_id MilkYieldDaily.id (milk db)))
                   k d (stored am) (stored pm) (stored (am + pm)%float)]),
          uid)
    else (InternalServerError, db, uid).
Proof.
  intros Hu Ha Hnone Hok.
  destruct (sqlite_int k) eqn:Hk; [destruct (fk_enforced env) eqn:Hfk|];
    cbn [andb negb].
  - unfold run_handler, add_milk.
    rewrite bind_run, (get_current_user_logged_in _ _ _ _ _ _ Hu).
    cbv beta iota zeta. rewrite bind_run, session_exec_first_clean.
    change (fun m => milk_of k m && milk_on d m) with (same_entry k d).
    rewrite Hnone, Hk. cbn [hd_error].
    rewrite bind_run. cbn [session_add pending committed txn session_user_id app].
    rewrite bind_run, (session_commit_fail _ _ _ _ _ IntegrityError); [reflexivity|].
    cbn [flush_statements binds emit]. unfold insert_milk, animal_present.
    cbn [MilkYieldDaily.animal_id]. rewrite Hfk, Ha. reflexivity.
  - rewrite (add_milk_run env db uid u k d am pm Hu)
      by (try exact Hok; try exact Hk; intros Hf; congruence).
    unfold milk_after. rewrite Hnone. reflexivity.
  - unfold run_handler, add_milk.
    rewrite bind_run, (get_current_user_logged_in _ _ _ _ _ _ Hu).
    cbv beta iota zeta. rewrite bind_run, session_exec_first_clean.
    change (fun m => milk_of k m && milk_on d m) with (same_entry k d).
    rewrite Hnone, Hk. reflexivity.
Qed.

Lemma milk_for_missing_animal_witness :
  run_handler (add_milk 9 739000 0.1 0.2) env0 demo_db (Some 1)
  = (RedirectResponse ("/animals/" ++ str_of_int 9) 302,
     set_milk demo_db
       (milk demo_db
        ++ [MilkYieldDaily.mk
              (Some (next_id MilkYieldDaily.id (milk demo_db)))
              9 739000 0.1 0.2 0.30000000000000004]),
     Some 1)
  /\ run_handler (add_milk 9 739000 0.1 0.2) env_fk demo_db (Some 1)
     = (InternalServerError, demo_db, Some 1)
  /\ run_handler (add_milk (2 ^ 63) 739000 0.1 0.2) env0 demo_db (Some 1)
     = (InternalServerError, demo_db, Some 1).
Proof.
  split; [|split].
  - apply (milk_for_missing_animal env0 demo_db (Some 1) (farmer 1 1 false)
             9 739000 0.1%float 0.2%float); reflexivity.
  - apply (milk_for_missing_animal env_fk demo_db (Some 1) (farmer 1 1 false)
             9 739000 0.1%float 0.2%float); reflexivity.
  - apply (milk_for_missing_animal env0 demo_db (Some 1) (farmer 1 1 false)
             (2 ^ 63) 739000 0.1%float 0.2%float); reflexivity.
Defined.

(** X30: liters the columns refuse.  When [am], [pm] or their sum is NaN
    (as for [am = inf], [pm = -inf]) the row cannot be written, whether it
    would be inserted or updated: the request of a logged-in user ends in a
    server error and the store is unchanged. *)
Theorem milk_nan_is_refused env db uid u k d am pm :
  current_user db uid = Some u ->
  liters_storable am pm = false ->
  run_handler (add_milk k d am pm) env db uid = (InternalServerError, db, uid).
Proof.
  intros Hu Hok. unfold run_handler, add_milk.
  rewrite bind_run, (get_current_user_logged_in _ _ _ _ _ _ Hu).
  cbv beta iota zeta. rewrite bind_run, session_exec_first_clean.
  destruct (hd_error _) as [m|].
  - rewrite bind_run. cbn [session_add pending committed txn session_user_id app].
    rewrite bind_run, (session_commit_fail _ _ _ _ _ IntegrityError); [reflexivity|].
    cbn [flush_statements binds emit]. unfold update_milk.
    rewrite liters_ok_storable, Hok. reflexivity.
  - destruct (sqlite_int k); [|reflexivity].
    rewrite bind_run. cbn [session_add pending committed txn session_user_id app].
    rewrite bind_run, (session_commit_fail _ _ _ _ _ IntegrityError); [reflexivity|].
    cbn [flush_statements binds emit]. unfold insert_milk.
    rewrite liters_ok_storable, Hok.
    destruct (fk_enforced env && _); reflexivity.
Qed.

Lemma milk_nan_is_refused_witness :
  run_handler (add_milk 1 739000 infinity neg_infinity) env0 demo_db (Some 1)
  = (InternalServerError, demo_db, Some 1).
Proof.
  apply (milk_nan_is_refused env0 demo_db (Some 1) (farmer 1 1 false)
           1 739000 infinity neg_infinity); reflexivity.
Defined.

(** X10: an AI or NaturalService event dated within 283 days of [date.max]
    cannot be recorded: the predicted date overflows, the request ends in a
    server error, and nothing is stored, the event row included. *)
Theorem service_event_overflow env db uid u a animal_id t d notes :
  current_user db uid = Some u ->
  get_animal db animal_id = Some a ->
  t = AI \/ t = NaturalService ->
  DATE_MAX - 283 < d ->
  run_handler (add_breeding_event animal_id t d notes) env db uid
  = (InternalServerError, db, uid).
Proof.
  intros Hu Ha Ht Hd.
  assert (Hs : is_service t = true) by (destruct Ht as [->| ->]; reflexivity).
  assert (Hr : date_in_range (d + DEFAULT_GESTATION_DAYS) = false).
  { unfold date_in_range, DEFAULT_GESTATION_DAYS. apply andb_false_intro2.
    apply Z.leb_gt. lia. }
  unfold run_handler, add_breeding_event.
  rewrite bind_run, (get_current_user_logged_in _ _ _ _ _ _ Hu).
  cbn. rewrite Ha, Hs. cbn.
  unfold date_plus, date_add_days. rewrite Hr. reflexivity.
Qed.

Lemma service_event_overflow_witness :
  run_handler (add_breeding_event 1 AI DATE_MAX None) env0 demo_db (Some 1)
  = (InternalServerError, demo_db, Some 1).
Proof.
  apply (service_event_overflow env0 demo_db (Some 1) (farmer 1 1 false)
           (cow 1 "T1" 1) 1 AI DATE_MAX None).
  - reflexivity.
  - reflexivity.
  - left. reflexivity.
  - unfold DATE_MAX. lia.
Defined.

(* ------------------------------------------------------------------ *)
(** ** The detail view *)

Lemma in_insert_desc {A : Type} (key : A -> Z) (x y : A) (l : list A) :
  In y (insert_desc key x l) <-> y = x \/ In y l.
Proof.
  induction l as [|z l IH]; cbn.
  - intuition congruence.
  - destruct (key x <? key z); cbn; [|intuition congruence].
    rewrite IH. intuition congruence.
Qed.

Lemma in_order_by_desc {A : Type} (key : A -> Z) (y : A) (l : list A) :
  In y (order_by_desc key l) <-> In y l.
Proof.
  induction l as [|x l IH]; [reflexivity|].
  change (order_by_desc key (x :: l)) with (insert_desc key x (order_by_desc key l)).
  rewrite in_insert_desc, IH. cbn. intuition congruence.
Qed.

Lemma animal_detail_run env db uid u a animal_id :
  current_user db uid = Some u ->
  get_animal db animal_id = Some a ->
  run_handler (animal_detail animal_id) env db uid
  = if detail_forbidden u a
    then (ErrorResponse 403 "Not allowed", db, uid)
    else (TemplateResponse "animal_detail.html"
            (AnimalDetail (animal_detail_ctx env db u a animal_id)),
          db, uid).
Proof.
  intros Hu Ha. unfold run_handler, animal_detail.
  rewrite bind_run, (get_current_user_logged_in _ _ _ _ _ _ Hu).
  cbn. rewrite Ha. cbn. unfold detail_forbidden, scoped.
  destruct (truthy_int (User.farm_id u) && negb (User.is_admin u)
            && negb (opt_int_eqb (Animal.farm_id a) (User.farm_id u)));
    reflexivity.
Qed.

(** X11: the detail view of an existing animal answers 403 "Not allowed"
    exactly when the user has a farm, is not an admin, and the animal's farm
    id differs from the user's; in every other case it renders the animal.
    The store is unchanged either way. *)
Theorem animal_detail_guard env db uid u a animal_id :
  current_user db uid = Some u ->
  get_animal db animal_id = Some a ->
  (truthy_int (User.farm_id u) = true /\ User.is_admin u = false
   /\ Animal.farm_id a <> User.farm_id u ->
   run_handler (animal_detail animal_id) env db uid
   = (ErrorResponse 403 "Not allowed", db, uid))
  /\ (truthy_int (User.farm_id u) = false \/ User.is_admin u = true
      \/ Animal.farm_id a = User.farm_id u ->
      exists c,
        run_handler (animal_detail animal_id) env db uid
        = (TemplateResponse "animal_detail.html" (AnimalDetail c), db, uid)
        /\ AnimalDetailCtx.animal c = a
        /\ AnimalDetailCtx.user c = u).
Proof.
  intros Hu Ha. rewrite (animal_detail_run env db uid u a animal_id Hu Ha).
  unfold detail_forbidden, scoped. split.
  - intros (Hf & Had & Hne). rewrite Hf, Had, (opt_int_eqb_neq _ _ Hne). reflexivity.
  - intros H. exists (animal_detail_ctx env db u a animal_id).
    split; [|split; reflexivity].
    destruct H as [Hf|[Had|Heq]].
    + rewrite Hf. reflexivity.
    + rewrite Had, andb_false_r. reflexivity.
    + rewrite Heq, opt_int_eqb_refl, andb_false_r. reflexivity.
Qed.

Lemma animal_detail_guard_witness :
  (truthy_int (User.farm_id (farmer 1 1 false)) = true
   /\ User.is_admin (farmer 1 1 false) = false
   /\ Animal.farm_id (cow 2 "T2" 2) <> User.farm_id (farmer 1 1 false) ->
   run_handler (animal_detail 2) env0 demo_db (Some 1)
   = (ErrorResponse 403 "Not allowed", demo_db, Some 1))
  /\ (truthy_int (User.farm_id (farmer 1 1 false)) = false
      \/ User.is_admin (farmer 1 1 false) = true
      \/ Animal.farm_id (cow 2 "T2" 2) = User.farm_id (farmer 1 1 false) ->
      exists c,
        run_handler (animal_detail 2) env0 demo_db (Some 1)
        = (TemplateResponse "animal_detail.html" (AnimalDetail c), demo_db, Some 1)
        /\ AnimalDetailCtx.animal c = cow 2 "T2" 2
        /\ AnimalDetailCtx.user c = farmer 1 1 false).
Proof.
  apply (animal_detail_guard env0 demo_db (Some 1) (farmer 1 1 false)
           (cow 2 "T2" 2) 2).
  - reflexivity.
  - reflexivity.
Defined.

(** X12: when the detail view renders, its three lists hold exactly the
    breeding events, milk entries and reminders of the store whose animal id
    is the one in the path, and its gestation is a gestation row of that
    animal with the latest service date, if the animal has any. *)
Theorem animal_detail_rows env db uid u a animal_id c :
  current_user db uid = Some u ->
  get_animal db animal_id = Some a ->
  run_handler (animal_detail animal_id) env db uid
  = (TemplateResponse "animal_detail.html" (AnimalDetail c), db, uid) ->
  (forall e, In e (AnimalDetailCtx.breeding_events c)
             <-> In e (breeding_events db) /\ BreedingEvent.animal_id e = animal_id)
  /\ (forall m, In m (AnimalDetailCtx.milk_entries c)
                <-> In m (milk db) /\ MilkYieldDaily.animal_id m = animal_id)
  /\ (forall v, In v (AnimalDetailCtx.vac_reminders c)
                <-> In v (reminders db)
                    /\ VaccinationReminder.animal_id v = animal_id)
  /\ match AnimalDetailCtx.gestation c with
     | Some g =>
         In g (gestations db) /\ Gestation.animal_id g = animal_id
         /\ forall h, In h (gestations db) -> Gestation.animal_id h = animal_id ->
                      Gestation.service_date h <= Gestation.service_date g
     | None => forall h, In h (gestations db) -> Gestation.animal_id h <> animal_id
     end.
Proof.
  intros Hu Ha Hrun.
  rewrite (animal_detail_run env db uid u a animal_id Hu Ha) in Hrun.
  destruct (detail_forbidden u a); [discriminate|].
  injection Hrun as <-. unfold animal_detail_ctx.
  cbn [AnimalDetailCtx.breeding_events AnimalDetailCtx.milk_entries
       AnimalDetailCtx.vac_reminders AnimalDetailCtx.gestation].
  split; [|split; [|split]].
  - intros e. rewrite in_order_by_desc, filter_In. unfold event_of.
    rewrite Z.eqb_eq. reflexivity.
  - intros m. rewrite in_order_by_desc, filter_In. unfold milk_of.
    rewrite Z.eqb_eq. reflexivity.
  - intros v. rewrite in_order_by_desc, filter_In. unfold reminder_of.
    rewrite Z.eqb_eq. reflexivity.
  - destruct (latest_gestation animal_id db) as [g|] eqn:Hg.
    + exact (latest_gestation_spec _ _ _ Hg).
    + exact (latest_gestation_none _ _ Hg).
Qed.

Lemma animal_detail_rows_witness :
  (forall e, In e (AnimalDetailCtx.breeding_events
                     (animal_detail_ctx env0 demo_db (farmer 1 1 false)
                        (cow 1 "T1" 1) 1))
             <-> In e (breeding_events demo_db) /\ BreedingEvent.animal_id e = 1)
  /\ (forall m, In m (AnimalDetailCtx.milk_entries
                        (animal_detail_ctx env0 demo_db (farmer 1 1 false)
                           (cow 1 "T1" 1) 1))
                <-> In m (milk demo_db) /\ MilkYieldDaily.animal_id m = 1)
  /\ (forall v, In v (AnimalDetailCtx.vac_reminders
                        (animal_detail_ctx env0 demo_db (farmer 1 1 false)
                           (cow 1 "T1" 1) 1))
                <-> In v (reminders demo_db)
                    /\ VaccinationReminder.animal_id v = 1)
  /\ match AnimalDetailCtx.gestation
             (animal_detail_ctx env0 demo_db (farmer 1 1 false) (cow 1 "T1" 1) 1)
     with
     | Some g =>
         In g (gestations demo_db) /\ Gestation.animal_id g = 1
         /\ forall h, In h (gestations demo_db) -> Gestation.animal_id h = 1 ->
                      Gestation.service_date h <= Gestation.service_date g
     | None => forall h, In h (gestations demo_db) -> Gestation.animal_id h <> 1
     end.
Proof.
  apply (animal_detail_rows env0 demo_db (Some 1) (farmer 1 1 false)
           (cow 1 "T1" 1) 1
           (animal_detail_ctx env0 demo_db (farmer 1 1 false) (cow 1 "T1" 1) 1)).
  - reflexivity.
  - reflexivity.
  - reflexivity.
Defined.

(* ------------------------------------------------------------------ *)
(** ** Creating and editing animals *)

Lemma find_app_skip {A : Type} (p : A -> bool) (l1 l2 : list A) :
  (forall x, In x l1 -> p x = false) -> find p (l1 ++ l2) = find p l2.
Proof.
  induction l1 as [|x l1 IH]; intros H; [reflexivity|].
  cbn. rewrite (H x (or_introl eq_refl)). apply IH.
  intros y Hy. apply H. right. exact Hy.
Qed.

Lemma find_has_id_fresh {A : Type} (id : A -> option Z) (l : list A) (x : A) :
  id x = Some (next_id id l) ->
  find (has_id id (next_id id l)) (l ++ [x]) = Some x.
Proof.
  intros Hx. rewrite find_app_skip.
  - cbn. unfold has_id. rewrite Hx, opt_int_eqb_refl. reflexivity.
  - intros y Hy. unfold has_id. apply opt_int_eqb_neq. intros E.
    apply (next_id_fresh id l). rewrite <- E. apply in_map. exact Hy.
Qed.

Lemma find_present {A : Type} (p : A -> bool) (l : list A) (x : A) :
  In x l -> p x = true -> find p l <> None.
Proof.
  intros Hin Hp Hnone. rewrite (find_none p l Hnone x Hin) in Hp. discriminate.
Qed.

(** The breed id of lines 545-553 names a breed of the store they leave. *)
Lemma breed_id_for_valid env db uid breed_name :
  exists breed_id,
    breed_id_for breed_name env (mkSt db db [] uid)
    = (inr breed_id,
       mkSt (set_breeds db (breeds_after db breed_name))
            (set_breeds db (breeds_after db breed_name)) [] uid)
    /\ fk_target_ok (get_breed (set_breeds db (breeds_after db breed_name)))
         breed_id = true.
Proof.
  unfold breed_id_for, breeds_after, truthy_str.
  destruct breed_name as [name|];
    [|rewrite set_breeds_same; exists None; split; reflexivity].
  destruct (String.eqb name ""); cbn [negb andb];
    [rewrite set_breeds_same; exists None; split; reflexivity|].
  rewrite bind_run, session_exec_clean. cbv beta iota.
  change (fun b => String.eqb (Breed.name b) name) with (breed_named name).
  destruct (find (breed_named name) (breeds db)) as [b|] eqn:Hb; cbn [is_none].
  - rewrite set_breeds_same. exists (Breed.id b). split; [reflexivity|].
    unfold fk_target_ok. destruct (Breed.id b) as [k|] eqn:Hk; [|reflexivity].
    apply find_some in Hb. destruct Hb as [Hin _].
    unfold get_breed.
    destruct (find (has_id Breed.id k) (breeds db)) eqn:Hf; [reflexivity|].
    exfalso. apply (find_present (has_id Breed.id k) (breeds db) b Hin); [|exact Hf].
    unfold has_id. rewrite Hk. apply opt_int_eqb_refl.
  - exists (Some (next_id Breed.id (breeds db))). split.
    + cbn. rewrite last_snoc. reflexivity.
    + unfold fk_target_ok, get_breed. cbn [breeds set_breeds].
      rewrite find_has_id_fresh by reflexivity. reflexivity.
Qed.

Lemma get_farm_set_breeds db l k : get_farm (set_breeds db l) k = get_farm db k.
Proof. reflexivity. Qed.

Lemma stored_created_animal env u f breed_id :
  stored_animal (created_animal env u f breed_id) = created_animal env u f breed_id.
Proof.
  unfold stored_animal, created_animal. cbn. rewrite stored_float_or_zero.
  reflexivity.
Qed.

Lemma animals_create_run env db uid u f :
  current_user db uid = Some u ->
  existsb (fun r => String.eqb (Animal.tag_no r) (AnimalForm.tag_no f))
    (animals db) = false ->
  fk_enforced env = false
  \/ fk_target_ok (get_farm db) (User.farm_id u) = true ->
  is_nan (AnimalForm.weight f) = false ->
  sqlite_int (AnimalForm.reproductions f) = true ->
  exists breed_id,
    run_handler (animals_create f) env db uid
    = (RedirectResponse "/animals" 302,
       set_animals (set_breeds db (breeds_after db (AnimalForm.breed_name f)))
         (animals db
          ++ [animal_with_id (created_animal env u f breed_id)
                (Some (next_id Animal.id (animals db)))]),
       uid).
Proof.
  intros Hu Hfree Hfk Hw Hr. unfold run_handler, animals_create.
  rewrite bind_run, (get_current_user_logged_in _ _ _ _ _ _ Hu).
  cbv beta iota.
  destruct (breed_id_for_valid env db uid (AnimalForm.breed_name f))
    as (breed_id & E & Hbreed).
  exists breed_id.
  rewrite bind_run, E. cbv beta iota.
  set (db1 := set_breeds db (breeds_after db (AnimalForm.breed_name f))) in *.
  rewrite bind_run. unfold ask at 1. cbv beta iota.
  rewrite bind_run. unfold ask at 1. cbv beta iota.
  rewrite bind_run. unfold session_add at 1. cbv beta iota.
  cbn [committed txn pending session_user_id app].
  rewrite bind_run. unfold try_except_IntegrityError.
  fold (created_animal env u f breed_id).
  rewrite (session_commit_run _ _ _
    (set_animals db1
       (animals db
        ++ [animal_with_id (created_animal env u f breed_id)
              (Some (next_id Animal.id (animals db)))]))).
  - reflexivity.
  - cbn [flush_statements emit binds].
    change (Animal.reproductions (created_animal env u f breed_id))
      with (AnimalForm.reproductions f).
    rewrite Hr. unfold insert_animal.
    change (animals db1) with (animals db).
    change (Animal.tag_no (created_animal env u f breed_id))
      with (AnimalForm.tag_no f).
    change (Animal.weight (created_animal env u f breed_id))
      with (float_or_zero (AnimalForm.weight f)).
    rewrite Hfree, float_or_zero_nan, Hw, stored_created_animal.
    replace (fk_enforced env && negb (animal_fks_ok db1 (created_animal env u f breed_id)))
      with false; [reflexivity|].
    symmetry. destruct Hfk as [Hf|Hfarm]; [rewrite Hf; reflexivity|].
    unfold animal_fks_ok.
    change (Animal.breed_id (created_animal env u f breed_id)) with breed_id.
    change (Animal.farm_id (created_animal env u f breed_id)) with (User.farm_id u).
    rewrite Hbreed.
    replace (fk_target_ok (get_farm db1) (User.farm_id u)) with true
      by (symmetry; exact Hfarm).
    apply andb_false_r.
Qed.

(** X13: a creation request of a logged-in user under a tag that no animal
    carries succeeds: it redirects to [/animals], appends one animal whose
    tag is the requested one and whose farm is the user's own farm (the form
    cannot choose another), leaves every other animal and every table but
    the breed table as before, and the new animal is found under the id it
    was given.  This is for values the engine accepts: a weight that is a
    number, a [reproductions] count within the driver's 64 bits and, where
    foreign keys are enforced, a user whose farm is in the store. *)
Theorem animals_create_adds_own_farm_animal env db uid u f :
  current_user db uid = Some u ->
  (forall r, In r (animals db) -> Animal.tag_no r <> AnimalForm.tag_no f) ->
  fk_enforced env = false
  \/ fk_target_ok (get_farm db) (User.farm_id u) = true ->
  is_nan (AnimalForm.weight f) = false ->
  sqlite_int (AnimalForm.reproductions f) = true ->
  exists db' a',
    run_handler (animals_create f) env db uid
    = (RedirectResponse "/animals" 302, db', uid)
    /\ animals db' = animals db ++ [a']
    /\ Animal.tag_no a' = AnimalForm.tag_no f
    /\ Animal.farm_id a' = User.farm_id u
    /\ Animal.id a' = Some (next_id Animal.id (animals db))
    /\ get_animal db' (next_id Animal.id (animals db)) = Some a'
    /\ milk db' = milk db /\ breeding_events db' = breeding_events db
    /\ gestations db' = gestations db /\ reminders db' = reminders db
    /\ users db' = users db /\ farms db' = farms db.
Proof.
  intros Hu Hfree Hfk Hw Hint.
  assert (Hex : existsb (fun r => String.eqb (Animal.tag_no r) (AnimalForm.tag_no f))
                  (animals db) = false).
  { destruct (existsb _ (animals db)) eqn:E; [|reflexivity].
    apply existsb_exists in E. destruct E as (r & Hr & Heq).
    apply String.eqb_eq in Heq. destruct (Hfree r Hr Heq). }
  destruct (animals_create_run env db uid u f Hu Hex Hfk Hw Hint) as [breed_id E].
  eexists. eexists. split; [exact E|].
  cbn [animals set_animals set_breeds milk breeding_events gestations reminders
       users farms].
  repeat split.
  unfold get_animal. cbn [animals set_animals].
  apply find_has_id_fresh. reflexivity.
Qed.

Lemma animals_create_adds_own_farm_animal_witness :
  exists db' a',
    run_handler
      (animals_create
         (AnimalForm.mk "T9" "F" 738000 (Some "Gir") "" None (Some "on") None
            None None 0 0))
      env0 demo_db (Some 1)
    = (RedirectResponse "/animals" 302, db', Some 1)
    /\ animals db' = animals demo_db ++ [a']
    /\ Animal.tag_no a' = "T9"
    /\ Animal.farm_id a' = User.farm_id (farmer 1 1 false)
    /\ Animal.id a' = Some (next_id Animal.id (animals demo_db))
    /\ get_animal db' (next_id Animal.id (animals demo_db)) = Some a'
    /\ milk db' = milk demo_db /\ breeding_events db' = breeding_events demo_db
    /\ gestations db' = gestations demo_db /\ reminders db' = reminders demo_db
    /\ users db' = users demo_db /\ farms db' = farms demo_db.
Proof.
  apply (animals_create_adds_own_farm_animal env0 demo_db (Some 1)
           (farmer 1 1 false)
           (AnimalForm.mk "T9" "F" 738000 (Some "Gir") "" None (Some "on") None
              None None 0 0)).
  - reflexivity.
  - cbn. intros r [<-|[<-|[]]]; discriminate.
  - left. reflexivity.
  - reflexivity.
  - reflexivity.
Defined.

(** The two conditions on the form are needed: a weight that is not a
    number violates [NOT NULL], which the handler reports as a taken tag;
    a [reproductions] count beyond 64 bits is a server error. *)
Example animals_create_refused_values :
  fst (fst (run_handler
              (animals_create
                 (AnimalForm.mk "T9" "F" 738000 None "" None None None None None
                    nan 0))
              env0 demo_db (Some 1)))
  = ErrorResponse 400 "Tag already exists"
  /\ fst (fst (run_handler
                 (animals_create
                    (AnimalForm.mk "T9" "F" 738000 None "" None None None None None
                       0 (2 ^ 63)))
                 env0 demo_db (Some 1)))
     = InternalServerError.
Proof. split; vm_compute; reflexivity. Qed.


Lemma get_animal_in db k a :
  get_animal db k = Some a -> In a (animals db) /\ Animal.id a = Some k.
Proof.
  unfold get_animal. intros H. apply find_some in H. destruct H as [Hin Hid].
  split; [exact Hin|]. apply opt_int_eqb_eq. exact Hid.
Qed.






(** The outcomes of an edit of cow 1 on [demo_db] with foreign keys
    enforced: a free tag is written; the tag of cow 2 and a weight that is
    not a number are both answered 400; and the edit goes through on a store
    without farms, since the statement does not write the farm key. *)
Example animal_edit_outcomes :
  let run f db := run_handler (animal_edit 1 f) env_fk db (Some 1) in
  let form tag w :=
    AnimalForm.mk tag "F" 738000 None "Cow" None None None None None w 0 in
  fst (fst (run edit_form demo_db)) = RedirectResponse "/animals/1" 302
  /\ map Animal.tag_no (animals (snd (fst (run edit_form demo_db))))
     = ["STOLEN"; "T2"]
  /\ fst (fst (run (form "T2" 0%float) demo_db))
     = ErrorResponse 400 "Tag already exists"
  /\ fst (fst (run (form "T1" nan) demo_db))
     = ErrorResponse 400 "Tag already exists"
  /\ fst (fst (run edit_form (set_farms demo_db [])))
     = RedirectResponse "/animals/1" 302.
Proof. repeat split; vm_compute; reflexivity. Qed.

(* ------------------------------------------------------------------ *)
(** ** The dashboard's chart and recent events *)

(** X15: the dashboard's chart has fourteen points, one per day from
    thirteen days ago to today in that order, each labelled with its own
    day.  Its last point is the total shown as today's milk, except for a
    farm-scoped user under a Python whose [sum] is compensated: there the
    chart adds the day's rows one by one with float addition while today's
    milk adds them with [sum], and the last point is that running total. *)
Theorem dashboard_chart_shape env db uid u :
  current_user db uid = Some u ->
  14 <= today env <= DATE_MAX ->
  exists c,
    run_handler dashboard env db uid
    = (TemplateResponse "dashboard.html" (Dashboard c), db, uid)
    /\ List.length (DashboardCtx.chart_values c) = 14%nat
    /\ DashboardCtx.chart_labels c
       = map (fun offset => strftime_b_d env (today env - 13 + offset)) range14
    /\ nth 0 (DashboardCtx.chart_labels c) "" = strftime_b_d env (today env - 13)
    /\ nth 13 (DashboardCtx.chart_labels c) "" = strftime_b_d env (today env)
    /\ nth 13 (DashboardCtx.chart_values c) 0%float
       = if scoped u && compensated_sum env
         then running_total
                (scope_rows MilkYieldDaily.animal_id u db
                   (filter (milk_on (today env)) (milk db)))
         else DashboardCtx.today_milk c.
Proof.
  intros Hu Hday. exists (dashboard_ctx env db u).
  split; [exact (dashboard_run env db uid u Hu Hday)|].
  unfold dashboard_ctx.
  cbn [DashboardCtx.chart_values DashboardCtx.chart_labels DashboardCtx.today_milk].
  split; [reflexivity|]. split; [reflexivity|].
  cbn [range14 map nth].
  replace (today env + -13 + 0) with (today env - 13) by lia.
  replace (today env + -13 + 13) with (today env) by lia.
  rewrite total_or_zero. split; [reflexivity|]. split; [reflexivity|].
  unfold chart_total, day_sum.
  destruct (scoped u), (compensated_sum env); reflexivity.
Qed.

Lemma dashboard_chart_shape_witness :
  exists c,
    run_handler dashboard env0 demo_db (Some 1)
    = (TemplateResponse "dashboard.html" (Dashboard c), demo_db, Some 1)
    /\ List.length (DashboardCtx.chart_values c) = 14%nat
    /\ DashboardCtx.chart_labels c
       = map (fun offset => strftime_b_d env0 (today env0 - 13 + offset)) range14
    /\ nth 0 (DashboardCtx.chart_labels c) "" = strftime_b_d env0 (today env0 - 13)
    /\ nth 13 (DashboardCtx.chart_labels c) "" = strftime_b_d env0 (today env0)
    /\ nth 13 (DashboardCtx.chart_values c) 0%float
       = if scoped (farmer 1 1 false) && compensated_sum env0
         then running_total
                (scope_rows MilkYieldDaily.animal_id (farmer 1 1 false) demo_db
                   (filter (milk_on (today env0)) (milk demo_db)))
         else DashboardCtx.today_milk c.
Proof.
  apply (dashboard_chart_shape env0 demo_db (Some 1) (farmer 1 1 false)).
  - reflexivity.
  - cbn. unfold DATE_MAX. lia.
Defined.

(** With a compensated [sum], the last chart point of a farm-scoped user
    and the figure shown as today's milk differ on the rows 1e16, 1, 1. *)
Example chart_and_today_differ :
  let c := dashboard_ctx env_compensated large_yield_db (farmer 1 1 false) in
  DashboardCtx.today_milk c = 10000000000000002%float
  /\ nth 13 (DashboardCtx.chart_values c) 0%float = 1e16%float.
Proof. split; vm_compute; reflexivity. Qed.

Lemma length_insert_desc {A : Type} (key : A -> Z) (x : A) (l : list A) :
  List.length (insert_desc key x l) = S (List.length l).
Proof.
  induction l as [|y l IH]; [reflexivity|]. cbn.
  destruct (key x <? key y); cbn; [rewrite IH|]; reflexivity.
Qed.

Lemma length_order_by_desc {A : Type} (key : A -> Z) (l : list A) :
  List.length (order_by_desc key l) = List.length l.
Proof.
  induction l as [|x l IH]; [reflexivity|].
  change (order_by_desc key (x :: l)) with (insert_desc key x (order_by_desc key l)).
  rewrite length_insert_desc, IH. reflexivity.
Qed.

(** A list in descending key order: nothing is followed by a larger key. *)
Lemma insert_desc_sorted {A : Type} (key : A -> Z) (x : A) (l : list A) :
  (forall l1 l2 a b, l = l1 ++ l2 -> In a l1 -> In b l2 -> key b <= key a) ->
  forall l1 l2 a b, insert_desc key x l = l1 ++ l2 -> In a l1 -> In b l2 ->
                    key b <= key a.
Proof.
  induction l as [|y l IH]; intros Hs l1 l2 a b E Ha Hb.
  - cbn in E. destruct l1 as [|z l1].
    + destruct Ha.
    + injection E as -> E. destruct l1; [|discriminate]. cbn in E. subst l2.
      destruct Hb.
  - assert (Hy : forall b', In b' l -> key b' <= key y).
    { intros b' Hb'. apply (Hs [y] l y b' eq_refl); [left; reflexivity|exact Hb']. }
    assert (Hl : forall l1 l2 a b, l = l1 ++ l2 -> In a l1 -> In b l2 ->
                                   key b <= key a).
    { intros k1 k2 a0 b0 Ek Ha0 Hb0.
      apply (Hs (y :: k1) k2 a0 b0); [rewrite Ek; reflexivity|right; exact Ha0|exact Hb0]. }
    cbn in E. destruct (key x <? key y) eqn:C.
    + apply Z.ltb_lt in C.
      destruct l1 as [|z l1]; [destruct Ha|].
      injection E as <- E.
      destruct Ha as [<-|Ha].
      * assert (Hb' : In b (insert_desc key x l))
          by (rewrite E; apply in_or_app; right; exact Hb).
        apply in_insert_desc in Hb'. destruct Hb' as [->|Hb']; [lia|].
        apply Hy, Hb'.
      * exact (IH Hl l1 l2 a b E Ha Hb).
    + apply Z.ltb_ge in C.
      destruct l1 as [|z l1]; [destruct Ha|].
      injection E as <- E.
      destruct Ha as [<-|Ha].
      * assert (Hb' : In b (y :: l))
          by (rewrite E; apply in_or_app; right; exact Hb).
        destruct Hb' as [<-|Hb']; [lia|]. specialize (Hy b Hb'). lia.
      * exact (Hs l1 l2 a b E Ha Hb).
Qed.

Lemma order_by_desc_sorted {A : Type} (key : A -> Z) (l : list A) :
  forall l1 l2 a b, order_by_desc key l = l1 ++ l2 -> In a l1 -> In b l2 ->
                    key b <= key a.
Proof.
  induction l as [|x l IH].
  - intros l1 l2 a b E Ha. cbn in E. destruct l1; [destruct Ha|discriminate].
  - change (order_by_desc key (x :: l)) with (insert_desc key x (order_by_desc key l)).
    apply insert_desc_sorted. exact IH.
Qed.

Lemma insert_desc_perm {A : Type} (key : A -> Z) (x : A) (l : list A) :
  Permutation (insert_desc key x l) (x :: l).
Proof.
  induction l as [|y l IH]; [apply Permutation_refl|]. cbn.
  destruct (key x <? key y); [|apply Permutation_refl].
  apply perm_trans with (y :: x :: l); [apply perm_skip; exact IH|apply perm_swap].
Qed.

Lemma order_by_desc_perm {A : Type} (key : A -> Z) (l : list A) :
  Permutation (order_by_desc key l) l.
Proof.
  induction l as [|x l IH]; [apply Permutation_refl|].
  change (order_by_desc key (x :: l)) with (insert_desc key x (order_by_desc key l)).
  apply perm_trans with (x :: order_by_desc key l);
    [apply insert_desc_perm|apply perm_skip; exact IH].
Qed.

(** X16: the dashboard's recent events are the five latest breeding events
    of the whole store, latest first, whoever asks.  The list has five
    entries, or as many as the table has rows when there are fewer; it is in
    descending date order; together with the rows left out it is a
    rearrangement of the event table, so that no row is listed twice and,
    when the table has at most five rows, all of them are listed; and every
    row left out is dated no later than each listed one. *)
Theorem dashboard_recent_events env db uid u :
  current_user db uid = Some u ->
  14 <= today env <= DATE_MAX ->
  exists c rest,
    run_handler dashboard env db uid
    = (TemplateResponse "dashboard.html" (Dashboard c), db, uid)
    /\ List.length (DashboardCtx.recent_events c)
       = Nat.min 5 (List.length (breeding_events db))
    /\ Permutation (DashboardCtx.recent_events c ++ rest) (breeding_events db)
    /\ (forall l1 l2 e e', DashboardCtx.recent_events c = l1 ++ l2 ->
                           In e l1 -> In e' l2 ->
                           BreedingEvent.event_date e' <= BreedingEvent.event_date e)
    /\ (forall e e', In e (DashboardCtx.recent_events c) -> In e' rest ->
                     BreedingEvent.event_date e' <= BreedingEvent.event_date e)
    /\ ((List.length (breeding_events db) <= 5)%nat -> rest = []).
Proof.
  intros Hu Hday.
  set (sorted := order_by_desc BreedingEvent.event_date (breeding_events db)).
  exists (dashboard_ctx env db u), (skipn 5 sorted).
  split; [exact (dashboard_run env db uid u Hu Hday)|].
  unfold dashboard_ctx. cbn [DashboardCtx.recent_events]. fold sorted.
  split; [|split; [|split; [|split]]].
  - rewrite length_firstn. unfold sorted. rewrite length_order_by_desc. reflexivity.
  - rewrite firstn_skipn. apply order_by_desc_perm.
  - intros l1 l2 e e' E He He'.
    apply (order_by_desc_sorted BreedingEvent.event_date (breeding_events db)
             l1 (l2 ++ skipn 5 sorted) e e');
      [|exact He|apply in_or_app; left; exact He'].
    fold sorted. rewrite app_assoc, <- E. symmetry. apply firstn_skipn.
  - intros e e' He He'.
    apply (order_by_desc_sorted BreedingEvent.event_date (breeding_events db)
             (firstn 5 sorted) (skipn 5 sorted) e e');
      [symmetry; apply firstn_skipn|exact He|exact He'].
  - intros Hfew. apply skipn_all2. unfold sorted.
    rewrite length_order_by_desc. exact Hfew.
Qed.

Lemma dashboard_recent_events_witness :
  exists c rest,
    run_handler dashboard env0 events_db (Some 1)
    = (TemplateResponse "dashboard.html" (Dashboard c), events_db, Some 1)
    /\ List.length (DashboardCtx.recent_events c)
       = Nat.min 5 (List.length (breeding_events events_db))
    /\ Permutation (DashboardCtx.recent_events c ++ rest)
         (breeding_events events_db)
    /\ (forall l1 l2 e e', DashboardCtx.recent_events c = l1 ++ l2 ->
                           In e l1 -> In e' l2 ->
                           BreedingEvent.event_date e' <= BreedingEvent.event_date e)
    /\ (forall e e', In e (DashboardCtx.recent_events c) -> In e' rest ->
                     BreedingEvent.event_date e' <= BreedingEvent.event_date e)
    /\ ((List.length (breeding_events events_db) <= 5)%nat -> rest = []).
Proof.
  apply (dashboard_recent_events env0 events_db (Some 1) (farmer 1 1 false)).
  - reflexivity.
  - cbn. unfold DATE_MAX. lia.
Defined.

(** On a store of seven events the dashboard lists the ids 6, 7, 4, 2, 3. *)
Example recent_events_of_seven :
  map BreedingEvent.id
    (DashboardCtx.recent_events (dashboard_ctx env0 events_db (farmer 1 1 false)))
  = [Some 6; Some 7; Some 4; Some 2; Some 3].
Proof. reflexivity. Qed.

(* ------------------------------------------------------------------ *)
(** ** Gestation rows over the requests *)

(** What a request can do to the gestation table: nothing, the effect of a
    service, or the closing of one row. *)
Lemma route_gestations env db uid r :
  gestations (serve env db uid r) = gestations db
  \/ (exists k d, gestations (serve env db uid r) = gestations_after_service db k d)
  \/ (exists g c, In g (gestations db)
                  /\ gestations (serve env db uid r)
                     = replace_by_id Gestation.id (calved g c) (gestations db)).
Proof.
  assert (Hframe : forall h, frames h ->
            gestations (snd (fst (run_handler h env db uid))) = gestations db).
  { intros h Hh. exact (proj2 (run_framed h env db uid Hh)). }
  unfold serve. destruct r; cbn [route].
  - left. apply Hframe, frames_home.
  - left. apply Hframe, frames_home.
  - left. apply Hframe, frames_animals_list.
  - left. apply Hframe, frames_animals_create.
  - left. apply Hframe, frames_animal_detail.
  - left. apply Hframe, frames_animal_edit_form.
  - left. apply Hframe, frames_animal_edit.
  - left. apply Hframe, frames_animal_delete.
  - left.
    destruct (add_milk_cases env db uid animal_id entry_date am_liters pm_liters)
      as [E|E]; rewrite E; reflexivity.
  - destruct (add_breeding_event_cases env db uid animal_id event_type event_date notes)
      as [_ [E|E]]; [left; exact E|right; left].
    exists animal_id, event_date. exact E.
  - left. apply Hframe, frames_add_vaccination_reminder.
  - destruct (current_user db uid) as [u|] eqn:Hu.
    + rewrite (mark_calved_run env db uid u animal_id calving_date Hu).
      destruct (latest_gestation animal_id db) as [g|] eqn:Hg; [|left; reflexivity].
      right. right. exists g, calving_date.
      split; [exact (proj1 (latest_gestation_spec _ _ _ Hg))|reflexivity].
    + left.
      change (mark_calved animal_id calving_date)
        with (route (POST_calved animal_id calving_date)).
      rewrite (route_no_user_store env db uid (POST_calved animal_id calving_date) Hu).
      reflexivity.
  - left. apply Hframe, frames_dashboard.
Qed.

Lemma replace_same_animal g g' l :
  NoDup (map Gestation.id l) -> In g l ->
  Gestation.id g' = Gestation.id g ->
  Gestation.animal_id g' = Gestation.animal_id g ->
  forall a, List.length (filter (gestation_of a) (replace_by_id Gestation.id g' l))
            = List.length (filter (gestation_of a) l).
Proof.
  intros Hnd Hin Hid Han a.
  destruct (replace_by_id_unique Gestation.id g g' l Hid Hin Hnd)
    as (l1 & l2 & E1 & E2).
  rewrite E2, E1, !filter_app, !length_app. cbn [filter].
  replace (gestation_of a g') with (gestation_of a g)
    by (unfold gestation_of; rewrite Han; reflexivity).
  destruct (gestation_of a g); reflexivity.
Qed.

Lemma gestations_after_service_form db k d :
  gestations_after_service db k d
  = match latest_gestation k db with
    | Some g =>
        replace_by_id Gestation.id (reopened g d (d + DEFAULT_GESTATION_DAYS))
          (gestations db)
    | None =>
        gestations db ++ [new_gestation db k d (d + DEFAULT_GESTATION_DAYS)]
    end.
Proof. unfold gestations_after_service. destruct (latest_gestation k db); reflexivity. Qed.

(** X17: starting from a store where gestation rows have distinct ids and
    no animal has more than one, no request ever gives an animal a second
    gestation row: a service rewrites the animal's row when there is one. *)
Theorem one_gestation_per_animal env db uid r :
  gestation_keys_ok db -> gestation_keys_ok (serve env db uid r).
Proof.
  intros [Hnd Hone]. unfold gestation_keys_ok.
  destruct (route_gestations env db uid r) as [E|[(k & d & E)|(g & c & Hin & E)]];
    rewrite E.
  - auto.
  - split; [exact (gestations_after_service_keys db k d Hnd)|].
    rewrite gestations_after_service_form.
    destruct (latest_gestation k db) as [g|] eqn:Hg.
    + destruct (latest_gestation_spec _ _ _ Hg) as (Hin & _ & _).
      intros a. rewrite (replace_same_animal g) by (try assumption; reflexivity).
      apply Hone.
    + intros a. rewrite filter_app, length_app. cbn [filter].
      unfold gestation_of at 2. cbn [new_gestation Gestation.animal_id].
      destruct (k =? a) eqn:Hk; [|cbn; specialize (Hone a); lia].
      apply Z.eqb_eq in Hk. subst a.
      assert (Hnil : filter (gestation_of k) (gestations db) = []).
      { destruct (filter (gestation_of k) (gestations db)) as [|h t] eqn:Ef;
          [reflexivity|].
        assert (Hh : In h (filter (gestation_of k) (gestations db)))
          by (rewrite Ef; left; reflexivity).
        apply filter_In in Hh. destruct Hh as [Hh1 Hh2].
        apply Z.eqb_eq in Hh2.
        destruct (latest_gestation_none _ _ Hg h Hh1 Hh2). }
      rewrite Hnil. cbn. lia.
  - split.
    + rewrite map_id_replace. exact Hnd.
    + intros a. rewrite (replace_same_animal g) by (try assumption; reflexivity).
      apply Hone.
Qed.

Lemma one_gestation_per_animal_witness :
  gestation_keys_ok (serve env0 demo_db (Some 1) (POST_breeding_event 2 AI 739000 None)).
Proof.
  apply (one_gestation_per_animal env0 demo_db (Some 1)).
  split.
  - cbn. repeat constructor; cbn; intuition discriminate.
  - intros a. cbn [demo_db gestations filter].
    match goal with |- context [if ?b then _ else _] => destruct b end; cbn; lia.
Defined.

Lemma replace_keeps_closed g0 g' l g :
  NoDup (map Gestation.id l) -> In g0 l ->
  Gestation.id g' = Gestation.id g0 ->
  Gestation.animal_id g' = Gestation.animal_id g0 ->
  (closed g0 -> closed g') ->
  In g l -> closed g ->
  exists h, In h (replace_by_id Gestation.id g' l)
            /\ Gestation.id h = Gestation.id g
            /\ Gestation.animal_id h = Gestation.animal_id g
            /\ closed h.
Proof.
  intros Hnd Hin0 Hid Han Hcl Hin Hg.
  destruct (replace_by_id_unique Gestation.id g0 g' l Hid Hin0 Hnd)
    as (l1 & l2 & E1 & E2).
  rewrite E2. rewrite E1 in Hin. apply in_app_or in Hin.
  destruct Hin as [H1|[<-|H2]].
  - exists g. split; [apply in_or_app; left; exact H1|auto].
  - exists g'. split; [apply in_or_app; right; left; reflexivity|auto].
  - exists g. split; [apply in_or_app; right; right; exact H2|auto].
Qed.

(** X18: no request reopens a closed gestation or removes it: a gestation
    row that has an actual calving date before a request is still there
    after it, under the same id and animal, with an actual calving date; a
    later service rewrites its service and predicted dates only. *)
Theorem closed_gestations_stay_closed env db uid r g :
  NoDup (map Gestation.id (gestations db)) ->
  In g (gestations db) ->
  closed g ->
  exists h, In h (gestations (serve env db uid r))
            /\ Gestation.id h = Gestation.id g
            /\ Gestation.animal_id h = Gestation.animal_id g
            /\ closed h.
Proof.
  intros Hnd Hin Hcl.
  destruct (route_gestations env db uid r) as [E|[(k & d & E)|(g0 & c & Hin0 & E)]];
    rewrite E.
  - exists g. auto.
  - rewrite gestations_after_service_form.
    destruct (latest_gestation k db) as [g0|] eqn:Hg.
    + destruct (latest_gestation_spec _ _ _ Hg) as (Hin0 & _ & _).
      apply (replace_keeps_closed g0); try assumption; try reflexivity.
      intros H. exact H.
    + exists g. split; [apply in_or_app; left; exact Hin|auto].
  - apply (replace_keeps_closed g0); try assumption; try reflexivity.
    intros _. unfold closed. cbn. discriminate.
Qed.

Lemma closed_gestations_stay_closed_witness :
  exists h, In h (gestations (serve env0 demo_db (Some 1)
                               (POST_breeding_event 1 AI 739000 None)))
            /\ Gestation.id h
               = Gestation.id (Gestation.mk (Some 1) 1 738000 738283 (Some 738290) None)
            /\ Gestation.animal_id h
               = Gestation.animal_id
                   (Gestation.mk (Some 1) 1 738000 738283 (Some 738290) None)
            /\ closed h.
Proof.
  apply (closed_gestations_stay_closed env0 demo_db (Some 1)
           (POST_breeding_event 1 AI 739000 None)
           (Gestation.mk (Some 1) 1 738000 738283 (Some 738290) None)).
  - cbn. repeat constructor; cbn; intuition discriminate.
  - left. reflexivity.
  - unfold closed. cbn. discriminate.
Defined.

(* ------------------------------------------------------------------ *)
(** ** Signup, login, logout *)

Lemma session_add_commit_run stmt env c t t' uid :
  stmt (fk_enforced env) t = Some t' ->
  session_add_commit stmt env (mkSt c t [] uid) = (inr tt, mkSt t' t' [] uid).
Proof.
  intros H. unfold session_add_commit. rewrite bind_run. cbn. rewrite H. reflexivity.
Qed.

Lemma max_id_nonneg {A : Type} (id : A -> option Z) (l : list A) : 0 <= max_id id l.
Proof.
  induction l as [|x l IH]; [cbn; lia|].
  change (max_id id (x :: l))
    with (match id x with Some i => Z.max i (max_id id l) | None => max_id id l end).
  destruct (id x); lia.
Qed.

Lemma next_id_positive {A : Type} (id : A -> option Z) (l : list A) :
  0 < next_id id l.
Proof. unfold next_id. pose proof (max_id_nonneg id l). lia. Qed.

Lemma find_none_existsb {A : Type} (p : A -> bool) (l : list A) :
  find p l = None -> existsb p l = false.
Proof.
  induction l as [|x l IH]; [reflexivity|]. cbn.
  destruct (p x); [discriminate|]. exact IH.
Qed.

Lemma signup_run hash_password env db uid farm_name farm_location full_name
  username password :
  find (user_named username) (users db) = None ->
  run_auth (signup hash_password farm_name farm_location full_name username password)
    env db uid
  = (AuthRedirect "/dashboard" 303,
     set_users
       (set_farms db (farms db ++ [signup_farm db farm_name farm_location]))
       (users db ++ [signup_user hash_password env db full_name username password]),
     Some (next_id User.id (users db))).
Proof.
  intros Hnew. unfold run_auth, signup.
  rewrite bind_run, session_exec_clean. cbv beta iota. rewrite Hnew.
  cbv beta iota zeta.
  set (db1 := set_farms db (farms db ++ [signup_farm db farm_name farm_location])).
  rewrite bind_run, (session_add_commit_run _ _ _ _ db1) by reflexivity.
  cbv beta iota.
  rewrite bind_run. unfold session_refresh_farm at 1. cbv beta iota.
  cbn [txn]. unfold db1 at 1. cbn [farms set_farms]. rewrite last_snoc.
  rewrite bind_run. unfold ask at 1. cbv beta iota.
  cbn [signup_farm Farm.id].
  rewrite bind_run,
    (session_add_commit_run _ _ _ _
       (set_users db1
          (users db ++ [signup_user hash_password env db full_name username password]))).
  - cbv beta iota.
    rewrite bind_run. unfold session_refresh_user at 1. cbv beta iota.
    cbn [txn users set_users]. rewrite last_snoc.
    reflexivity.
  - unfold insert_user. cbn [User.username User.farm_id].
    change (users db1) with (users db).
    rewrite (find_none_existsb _ _ Hnew).
    replace (fk_target_ok (get_farm db1) (Some (next_id Farm.id (farms db))))
      with true; [rewrite andb_false_r; reflexivity|].
    symmetry. unfold fk_target_ok, get_farm, db1. cbn [farms set_farms].
    rewrite find_has_id_fresh by reflexivity. reflexivity.
Qed.

Lemma signup_taken hash_password env db uid farm_name farm_location full_name
  username password old :
  find (user_named username) (users db) = Some old ->
  run_auth (signup hash_password farm_name farm_location full_name username password)
    env db uid
  = (AuthTemplate "signup.html"
       (SignupCtx (Some "Username already taken, please choose another.")
          (Some (SignupForm.mk farm_name farm_location full_name username)))
       400,
     db, uid).
Proof.
  intros Hold. unfold run_auth, signup.
  rewrite bind_run, session_exec_clean. cbv beta iota. rewrite Hold. reflexivity.
Qed.

Lemma free_username_find db username :
  (forall r, In r (users db) -> User.username r <> username) ->
  find (user_named username) (users db) = None.
Proof.
  intros Hfree.
  destruct (find (user_named username) (users db)) as [r|] eqn:E; [|reflexivity].
  apply find_some in E. destruct E as [Hin Hn].
  apply String.eqb_eq in Hn. destruct (Hfree r Hin Hn).
Qed.

Lemma signup_current_user hash_password env db farm_name farm_location full_name
  username password :
  current_user
    (set_users
       (set_farms db (farms db ++ [signup_farm db farm_name farm_location]))
       (users db ++ [signup_user hash_password env db full_name username password]))
    (Some (next_id User.id (users db)))
  = Some (signup_user hash_password env db full_name username password).
Proof.
  unfold current_user.
  pose proof (next_id_positive User.id (users db)) as Hpos.
  destruct (next_id User.id (users db) =? 0) eqn:Ez;
    [apply Z.eqb_eq in Ez; lia|].
  unfold get_user. cbn [users set_users].
  apply find_has_id_fresh. reflexivity.
Qed.

(** X19: a signup under a username that no user carries creates one farm
    and one user, in that order: the user is an admin, belongs to the new
    farm, stores the hash of the password and not the password; the cookie
    is set to the new user, whoever was logged in before, so the next
    request is made as that user; the answer is a redirect to [/dashboard]
    with status 303 and no other table changes. *)
Theorem signup_creates_farm_and_admin hash_password env db uid
  farm_name farm_location full_name username password :
  (forall r, In r (users db) -> User.username r <> username) ->
  exists db' farm' user' k,
    run_auth (signup hash_password farm_name farm_location full_name username
                password) env db uid
    = (AuthRedirect "/dashboard" 303, db', Some k)
    /\ farms db' = farms db ++ [farm']
    /\ users db' = users db ++ [user']
    /\ Farm.name farm' = farm_name
    /\ User.username user' = username
    /\ User.hashed_password user' = hash_password password
    /\ User.is_admin user' = true
    /\ User.farm_id user' = Farm.id farm'
    /\ User.id user' = Some k
    /\ current_user db' (Some k) = Some user'
    /\ breeds db' = breeds db /\ animals db' = animals db /\ milk db' = milk db
    /\ breeding_events db' = breeding_events db
    /\ gestations db' = gestations db /\ reminders db' = reminders db.
Proof.
  intros Hfree.
  pose proof (free_username_find db username Hfree) as Hnew.
  eexists. exists (signup_farm db farm_name farm_location),
    (signup_user hash_password env db full_name username password),
    (next_id User.id (users db)).
  split; [exact (signup_run hash_password env db uid farm_name farm_location
                   full_name username password Hnew)|].
  cbn [farms users breeds animals milk breeding_events gestations reminders
       set_users set_farms signup_farm signup_user Farm.name Farm.id
       User.username User.hashed_password User.is_admin User.farm_id User.id].
  repeat split.
  apply signup_current_user.
Qed.

Lemma signup_creates_farm_and_admin_witness :
  exists db' farm' user' k,
    run_auth (signup (String.append "hash:") "West" "" "" "wendy" "secret")
      env0 demo_db (Some 1)
    = (AuthRedirect "/dashboard" 303, db', Some k)
    /\ farms db' = farms demo_db ++ [farm']
    /\ users db' = users demo_db ++ [user']
    /\ Farm.name farm' = "West"
    /\ User.username user' = "wendy"
    /\ User.hashed_password user' = String.append "hash:" "secret"
    /\ User.is_admin user' = true
    /\ User.farm_id user' = Farm.id farm'
    /\ User.id user' = Some k
    /\ current_user db' (Some k) = Some user'
    /\ breeds db' = breeds demo_db /\ animals db' = animals demo_db
    /\ milk db' = milk demo_db
    /\ breeding_events db' = breeding_events demo_db
    /\ gestations db' = gestations demo_db /\ reminders db' = reminders demo_db.
Proof.
  apply (signup_creates_farm_and_admin (String.append "hash:") env0 demo_db (Some 1)
           "West" "" "" "wendy" "secret").
  cbn. intros r [<-|[<-|[]]]; discriminate.
Defined.

(** X20: a signup under a username that is taken creates nothing: the form
    is rendered again with status 400, the message "Username already taken,
    please choose another." and the submitted fields (the password left
    out); store and cookie are as before. *)
Theorem signup_taken_username hash_password env db uid
  farm_name farm_location full_name username password old :
  In old (users db) ->
  User.username old = username ->
  run_auth (signup hash_password farm_name farm_location full_name username password)
    env db uid
  = (AuthTemplate "signup.html"
       (SignupCtx (Some "Username already taken, please choose another.")
          (Some (SignupForm.mk farm_name farm_location full_name username)))
       400,
     db, uid).
Proof.
  intros Hin Hname.
  destruct (find (user_named username) (users db)) as [r|] eqn:E.
  - exact (signup_taken hash_password env db uid farm_name farm_location full_name
             username password r E).
  - exfalso. apply (find_present (user_named username) (users db) old Hin); [|exact E].
    unfold user_named. rewrite Hname. apply String.eqb_refl.
Qed.

Lemma signup_taken_username_witness :
  run_auth (signup (fun p => p) "West" "" "" "user1" "secret") env0 demo_db None
  = (AuthTemplate "signup.html"
       (SignupCtx (Some "Username already taken, please choose another.")
          (Some (SignupForm.mk "West" "" "" "user1")))
       400,
     demo_db, None).
Proof.
  apply (signup_taken_username (fun p => p) env0 demo_db None "West" "" "" "user1"
           "secret" (farmer 1 1 false)).
  - left. reflexivity.
  - reflexivity.
Defined.

(** X21: every user made by signup is an admin, and an admin is not scoped:
    right after signing up, the new user's animal list shows every animal of
    every farm already in the store, and the detail view of each of them
    renders instead of answering 403. *)
Theorem signed_up_user_sees_all_farms hash_password env db uid
  farm_name farm_location full_name username password :
  (forall r, In r (users db) -> User.username r <> username) ->
  exists db' uid',
    run_auth (signup hash_password farm_name farm_location full_name username
                password) env db uid
    = (AuthRedirect "/dashboard" 303, db', uid')
    /\ (exists c,
          run_handler (animals_list None) env db' uid'
          = (TemplateResponse "animals.html" (Animals c), db', uid')
          /\ AnimalsCtx.animals c = order_by_asc id_key (animals db)
          /\ forall a, In a (animals db) -> In a (AnimalsCtx.animals c))
    /\ (forall k a, get_animal db k = Some a ->
          exists c,
            run_handler (animal_detail k) env db' uid'
            = (TemplateResponse "animal_detail.html" (AnimalDetail c), db', uid')
            /\ AnimalDetailCtx.animal c = a).
Proof.
  intros Hfree.
  pose proof (free_username_find db username Hfree) as Hnew.
  set (user' := signup_user hash_password env db full_name username password).
  set (db' := set_users
                (set_farms db (farms db ++ [signup_farm db farm_name farm_location]))
                (users db ++ [user'])).
  set (k := next_id User.id (users db)).
  assert (Hcur : current_user db' (Some k) = Some user')
    by apply signup_current_user.
  assert (Hadmin : User.is_admin user' = true) by reflexivity.
  exists db', (Some k).
  split; [exact (signup_run hash_password env db uid farm_name farm_location
                   full_name username password Hnew)|].
  split.
  - exists (animals_ctx env db' user' None).
    split; [exact (animals_list_run env db' (Some k) user' None Hcur)|].
    unfold animals_ctx, scoped. rewrite Hadmin, andb_false_r.
    cbn [truthy_str AnimalsCtx.animals]. split; [reflexivity|].
    intros a Ha. apply in_order_by_asc. exact Ha.
  - intros k0 a Ha.
    assert (Ha' : get_animal db' k0 = Some a) by exact Ha.
    exists (animal_detail_ctx env db' user' a k0). split; [|reflexivity].
    rewrite (animal_detail_run env db' (Some k) user' a k0 Hcur Ha').
    unfold detail_forbidden, scoped. rewrite Hadmin, andb_false_r. reflexivity.
Qed.

Lemma signed_up_user_sees_all_farms_witness :
  exists db' uid',
    run_auth (signup (String.append "hash:") "West" "" "" "wendy" "secret")
      env0 demo_db None
    = (AuthRedirect "/dashboard" 303, db', uid')
    /\ (exists c,
          run_handler (animals_list None) env0 db' uid'
          = (TemplateResponse "animals.html" (Animals c), db', uid')
          /\ AnimalsCtx.animals c = order_by_asc id_key (animals demo_db)
          /\ forall a, In a (animals demo_db) -> In a (AnimalsCtx.animals c))
    /\ (forall k a, get_animal demo_db k = Some a ->
          exists c,
            run_handler (animal_detail k) env0 db' uid'
            = (TemplateResponse "animal_detail.html" (AnimalDetail c), db', uid')
            /\ AnimalDetailCtx.animal c = a).
Proof.
  apply (signed_up_user_sees_all_farms (String.append "hash:") env0 demo_db None
           "West" "" "" "wendy" "secret").
  cbn. intros r [<-|[<-|[]]]; discriminate.
Defined.

Lemma find_unique {A B : Type} (f : A -> B) (p : A -> bool) (l : list A) (x : A) :
  NoDup (map f l) -> In x l -> p x = true ->
  (forall y, In y l -> p y = true -> f y = f x) ->
  find p l = Some x.
Proof.
  induction l as [|z l IH]; intros Hnd Hin Hp Hsame; [destruct Hin|].
  cbn. cbn in Hnd. inversion Hnd as [|? ? Hz Hl]; subst.
  destruct Hin as [->|Hin].
  - rewrite Hp. reflexivity.
  - destruct (p z) eqn:Hpz.
    + exfalso. apply Hz. rewrite (Hsame z (or_introl eq_refl) Hpz).
      apply in_map. exact Hin.
    + apply IH; try assumption.
      intros y Hy. apply Hsame. right. exact Hy.
Qed.

(** X22: a login with the username of a user of the store and a password
    that verifies against that user's hash redirects to [/dashboard] with
    status 302, leaves the store as it was and sets the cookie to that
    user's id: the next request is made as that user. *)
Theorem login_sets_session verify_password env db uid u k username password :
  NoDup (map User.username (users db)) ->
  NoDup (map User.id (users db)) ->
  In u (users db) ->
  User.username u = username ->
  User.id u = Some k -> k <> 0 ->
  verify_password password (User.hashed_password u) = true ->
  run_auth (do_login verify_password username password) env db uid
  = (AuthRedirect "/dashboard" 302, db, Some k)
  /\ current_user db (Some k) = Some u.
Proof.
  intros Hnames Hids Hin Hname Hid Hk Hver.
  assert (Hfind : find (user_named username) (users db) = Some u).
  { apply (find_unique User.username); try assumption.
    - unfold user_named. rewrite Hname. apply String.eqb_refl.
    - intros y _ Hy. unfold user_named in Hy. apply String.eqb_eq in Hy. congruence. }
  split.
  - unfold run_auth, do_login.
    rewrite bind_run, session_exec_clean. cbv beta iota. rewrite Hfind, Hver, Hid.
    reflexivity.
  - unfold current_user. apply Z.eqb_neq in Hk. rewrite Hk.
    unfold get_user. apply (find_unique User.id); try assumption.
    + unfold has_id. rewrite Hid. apply opt_int_eqb_refl.
    + intros y _ Hy. unfold has_id in Hy. apply opt_int_eqb_eq in Hy. congruence.
Qed.

Lemma login_sets_session_witness :
  run_auth (do_login (fun p h => String.eqb p h) "user2" "x") env0 demo_db None
  = (AuthRedirect "/dashboard" 302, demo_db, Some 2)
  /\ current_user demo_db (Some 2) = Some (farmer 2 2 true).
Proof.
  apply (login_sets_session (fun p h => String.eqb p h) env0 demo_db None
           (farmer 2 2 true) 2 "user2" "x").
  - cbn. repeat constructor; cbn; intuition discriminate.
  - cbn. repeat constructor; cbn; intuition discriminate.
  - right. left. reflexivity.
  - reflexivity.
  - reflexivity.
  - discriminate.
  - reflexivity.
Defined.

(** X23: a login is refused in one and the same way when the username is
    unknown and when the password does not verify: the login form is
    rendered with status 400 and "Invalid username or password."; the store
    is unchanged and so is the cookie, so whoever was logged in stays so. *)
Theorem login_rejects verify_password env db uid username password :
  (forall u, In u (users db) -> User.username u = username ->
             verify_password password (User.hashed_password u) = false) ->
  run_auth (do_login verify_password username password) env db uid
  = (AuthTemplate "login.html" (LoginCtx (Some "Invalid username or password."))
       400,
     db, uid).
Proof.
  intros Hbad. unfold run_auth, do_login.
  rewrite bind_run, session_exec_clean. cbv beta iota.
  destruct (find (user_named username) (users db)) as [u|] eqn:E; [|reflexivity].
  apply find_some in E. destruct E as [Hin Hn].
  apply String.eqb_eq in Hn. rewrite (Hbad u Hin Hn). reflexivity.
Qed.

Lemma login_rejects_witness :
  run_auth (do_login (fun p h => String.eqb p h) "user2" "wrong") env0 demo_db (Some 1)
  = (AuthTemplate "login.html" (LoginCtx (Some "Invalid username or password."))
       400,
     demo_db, Some 1).
Proof.
  apply (login_rejects (fun p h => String.eqb p h) env0 demo_db (Some 1)
           "user2" "wrong").
  cbn. intros u [<-|[<-|[]]]; cbn; intros; try discriminate; reflexivity.
Defined.

(** X24: logout clears the cookie whatever it held and leaves the store;
    the request that follows is answered as a request without a session, on
    every route. *)
Theorem logout_ends_session env db uid r :
  run_auth logout env db uid = (AuthRedirect "/home" 302, db, None)
  /\ run_handler (route r) env db None = (anonymous_response r, db, None).
Proof.
  split; [reflexivity|].
  exact (route_anonymous env db None r eq_refl eq_refl).
Qed.

(* ------------------------------------------------------------------ *)
(** ** The seeding of [init_db] *)







Example init_db_on_empty_store :
  init_db (String.append "hash:") env0 empty_db
  = mkDB [Farm.mk (Some 1) "Default Farm" (Some "Unknown")]
         [User.mk (Some 1) "admin" "hash:adminpass" (Some "Super Admin") true
            (Some 1) 0]
         [] [] [] [] [] [].
Proof. reflexivity. Qed.

(* ------------------------------------------------------------------ *)
(** ** Deleting, reminding, and milk on the dashboard *)

Lemma find_filter_out {A : Type} (p q : A -> bool) (l : list A) :
  (forall x, p x = true -> q x = false) -> find p (filter q l) = None.
Proof.
  intros H. induction l as [|x l IH]; [reflexivity|]. cbn.
  destruct (q x) eqn:Hq; [|exact IH].
  cbn. destruct (p x) eqn:Hp; [|exact IH].
  rewrite (H x Hp) in Hq. discriminate.
Qed.

Lemma find_filter_keep {A : Type} (p q : A -> bool) (l : list A) :
  (forall x, p x = true -> q x = true) -> find p (filter q l) = find p l.
Proof.
  intros H. induction l as [|x l IH]; [reflexivity|]. cbn.
  destruct (p x) eqn:Hp.
  - rewrite (H x Hp). cbn. rewrite Hp. reflexivity.
  - destruct (q x); cbn; [rewrite Hp|]; exact IH.
Qed.

(** X26: the delete of an existing animal by a logged-in user.  Where the
    engine enforces foreign keys and some milk, breeding, gestation or
    reminder row names the animal, the request ends in a server error and
    the store is unchanged.  Otherwise it redirects to [/animals]; the id no
    longer names an animal, so the detail view of it answers 404 (for an
    id within the driver's 64 bits, as the ids the store hands out are; a
    server error beyond); every other animal is found as before. *)
Theorem animal_delete_outcomes env db uid u a k :
  current_user db uid = Some u ->
  get_animal db k = Some a ->
  (fk_enforced env = true -> referenced db k = true ->
   run_handler (animal_delete k) env db uid = (InternalServerError, db, uid))
  /\ (fk_enforced env = false \/ referenced db k = false ->
      exists db',
        run_handler (animal_delete k) env db uid
        = (RedirectResponse "/animals" 302, db', uid)
        /\ get_animal db' k = None
        /\ (forall k', k' <> k -> get_animal db' k' = get_animal db k')
        /\ run_handler (animal_detail k) env db' uid
           = (not_found k "Animal not found", db', uid)).
Proof.
  intros Hu Ha. destruct (get_animal_in _ _ _ Ha) as [Hin Hid].
  assert (Hstep : forall t',
    delete_animal (fk_enforced env) db a = t' ->
    run_handler (animal_delete k) env db uid
    = match t' with
      | Some db' => (RedirectResponse "/animals" 302, db', uid)
      | None => (InternalServerError, db, uid)
      end).
  { intros t' Ht. unfold run_handler, animal_delete.
    rewrite bind_run, (get_current_user_logged_in _ _ _ _ _ _ Hu).
    cbn. rewrite Ha. cbn. destruct t' as [db'|].
    - rewrite bind_run, (session_commit_run _ _ _ db') by (cbn; rewrite Ht; reflexivity).
      reflexivity.
    - rewrite bind_run, (session_commit_fail _ _ _ _ _ IntegrityError)
        by (cbn; rewrite Ht; reflexivity).
      reflexivity. }
  split.
  - intros Hfk Href. apply (Hstep None).
    unfold delete_animal. rewrite Hfk, Hid, Href. reflexivity.
  - intros Hok.
    set (db' := set_animals db
                  (filter (fun r => negb (opt_int_eqb (Animal.id r) (Some k)))
                          (animals db))).
    assert (Hdel : delete_animal (fk_enforced env) db a = Some db').
    { unfold delete_animal. rewrite Hid.
      destruct Hok as [Hf|Hr]; [rewrite Hf|rewrite Hr, andb_false_r]; reflexivity. }
    assert (Hgone : get_animal db' k = None).
    { unfold get_animal, db'. cbn [animals set_animals].
      apply find_filter_out. intros x Hx. unfold has_id in Hx.
      apply opt_int_eqb_eq in Hx. rewrite Hx, opt_int_eqb_refl. reflexivity. }
    exists db'. split; [exact (Hstep (Some db') Hdel)|].
    split; [exact Hgone|]. split.
    + intros k' Hne. unfold get_animal, db'. cbn [animals set_animals].
      apply find_filter_keep. intros x Hx. unfold has_id in Hx.
      apply opt_int_eqb_eq in Hx. rewrite Hx.
      rewrite opt_int_eqb_neq; [reflexivity|congruence].
    + assert (Hu' : current_user db' uid = Some u)
        by (rewrite (current_user_users db db' uid eq_refl); exact Hu).
      unfold run_handler, animal_detail.
      rewrite bind_run, (get_current_user_logged_in _ _ _ _ _ _ Hu').
      cbn. rewrite Hgone. unfold not_found.
      destruct (sqlite_int k); reflexivity.
Qed.

Lemma animal_delete_outcomes_witness :
  (fk_enforced env0 = true -> referenced demo_db 2 = true ->
   run_handler (animal_delete 2) env0 demo_db (Some 2)
   = (InternalServerError, demo_db, Some 2))
  /\ (fk_enforced env0 = false \/ referenced demo_db 2 = false ->
      exists db',
        run_handler (animal_delete 2) env0 demo_db (Some 2)
        = (RedirectResponse "/animals" 302, db', Some 2)
        /\ get_animal db' 2 = None
        /\ (forall k', k' <> 2 -> get_animal db' k' = get_animal demo_db k')
        /\ run_handler (animal_detail 2) env0 db' (Some 2)
           = (not_found 2 "Animal not found", db', Some 2)).
Proof.
  apply (animal_delete_outcomes env0 demo_db (Some 2) (farmer 2 2 true)
           (cow 2 "T2" 2) 2).
  - reflexivity.
  - reflexivity.
Defined.

(** X27: a vaccination reminder for an existing animal, by any logged-in
    user, appends one row stamped with the current time and redirects to the
    animal's page; nothing else in the store changes. *)
Theorem reminder_is_appended env db uid u a k d notes :
  current_user db uid = Some u ->
  get_animal db k = Some a ->
  run_handler (add_vaccination_reminder k d notes) env db uid
  = (RedirectResponse ("/animals/" ++ str_of_int k) 302,
     set_reminders db
       (reminders db
        ++ [VaccinationReminder.mk
              (Some (next_id VaccinationReminder.id (reminders db)))
              k d notes (utcnow env)]),
     uid).
Proof.
  intros Hu Ha. unfold run_handler, add_vaccination_reminder.
  rewrite bind_run, (get_current_user_logged_in _ _ _ _ _ _ Hu).
  cbn. rewrite Ha. cbn.
  rewrite bind_run, (session_commit_run _ _ _
    (set_reminders db
       (reminders db
        ++ [VaccinationReminder.mk
              (Some (next_id VaccinationReminder.id (reminders db)))
              k d notes (utcnow env)]))).
  - reflexivity.
  - cbn. unfold insert_reminder. cbn.
    rewrite (animal_present_get _ _ _ Ha), andb_false_r. reflexivity.
Qed.

Lemma reminder_is_appended_witness :
  run_handler (add_vaccination_reminder 2 739100 (Some "FMD")) env0 demo_db (Some 1)
  = (RedirectResponse ("/animals/" ++ str_of_int 2) 302,
     set_reminders demo_db
       (reminders demo_db
        ++ [VaccinationReminder.mk
              (Some (next_id VaccinationReminder.id (reminders demo_db)))
              2 739100 (Some "FMD") (utcnow env0)]),
     Some 1).
Proof.
  apply (reminder_is_appended env0 demo_db (Some 1) (farmer 1 1 false)
           (cow 2 "T2" 2) 2 739100 (Some "FMD")).
  - reflexivity.
  - reflexivity.
Defined.

Lemma total_of_snoc rows m :
  total_of false (rows ++ [m])
  = (total_of false rows + MilkYieldDaily.total_liters m)%float.
Proof.
  unfold total_of, builtin_sum, sum_naive. rewrite map_app, fold_left_app.
  reflexivity.
Qed.

Lemma owned_set_milk db l f k : owned (set_milk db l) f k = owned db f k.
Proof. reflexivity. Qed.

(** X28: a first milk entry of today shows on the dashboard at once.  For a
    logged-in user who has the animal in scope, an animal id within 64 bits,
    and quantities that are numbers with a sum that is one: after
    [POST /milk/{id}] with today's date and no earlier row for the pair,
    today's milk on the dashboard is [sum] of the day's rows in scope
    followed by the new row.  Where [sum] adds left to right, that is what
    the dashboard showed before plus the float [am + pm], in float addition;
    where [sum] is compensated it need not be. *)
Theorem milk_entry_shows_on_dashboard env db uid u a k am pm :
  current_user db uid = Some u ->
  14 <= today env <= DATE_MAX ->
  get_animal db k = Some a ->
  animal_visible u a = true ->
  filter (same_entry k (today env)) (milk db) = [] ->
  sqlite_int k = true ->
  liters_storable am pm = true ->
  exists c c',
    run_handler dashboard env db uid
    = (TemplateResponse "dashboard.html" (Dashboard c), db, uid)
    /\ run_handler dashboard env (serve env db uid (POST_milk k (today env) am pm)) uid
       = (TemplateResponse "dashboard.html" (Dashboard c'),
          serve env db uid (POST_milk k (today env) am pm), uid)
    /\ DashboardCtx.today_milk c'
       = total_of (compensated_sum env)
           (scope_rows MilkYieldDaily.animal_id u db
              (filter (milk_on (today env)) (milk db))
            ++ [new_milk db k (today env) am pm])
    /\ MilkYieldDaily.total_liters (new_milk db k (today env) am pm)
       = stored (am + pm)%float
    /\ (compensated_sum env = false ->
        DashboardCtx.today_milk c'
        = (DashboardCtx.today_milk c + stored (am + pm)%float)%float).
Proof.
  intros Hu Hday Ha Hvis Hnone Hk Hok.
  set (db' := serve env db uid (POST_milk k (today env) am pm)).
  assert (Hdb' : db' = set_milk db (milk db ++ [new_milk db k (today env) am pm])).
  { unfold db', serve. cbn [route].
    rewrite (add_milk_run env db uid u k (today env) am pm Hu
               (fun _ => animal_present_get _ _ _ Ha) Hok Hk).
    unfold milk_after. rewrite Hnone. reflexivity. }
  assert (Hu' : current_user db' uid = Some u)
    by (rewrite Hdb'; exact Hu).
  exists (dashboard_ctx env db u), (dashboard_ctx env db' u).
  split; [exact (dashboard_run env db uid u Hu Hday)|].
  split; [exact (dashboard_run env db' uid u Hu' Hday)|].
  unfold dashboard_ctx. cbn [DashboardCtx.today_milk].
  rewrite !total_or_zero, !scope_rows_spec, !filter_and.
  rewrite Hdb'. cbn [milk set_milk]. rewrite filter_app. cbn [filter].
  assert (Hnew : milk_on (today env) (new_milk db k (today env) am pm)
                 && row_in_scope u
                      (set_milk db (milk db ++ [new_milk db k (today env) am pm]))
                      (MilkYieldDaily.animal_id (new_milk db k (today env) am pm))
                 = true).
  { unfold milk_on, row_in_scope. cbn [new_milk MilkYieldDaily.entry_date
                                          MilkYieldDaily.animal_id].
    rewrite Z.eqb_refl.
    change (get_animal (set_milk db (milk db ++ [new_milk db k (today env) am pm])) k)
      with (get_animal db k).
    rewrite Ha. destruct (sees_all u); [reflexivity|exact Hvis]. }
  rewrite Hnew. split; [reflexivity|]. split; [reflexivity|].
  intros ->. rewrite total_of_snoc. reflexivity.
Qed.

Lemma milk_entry_shows_on_dashboard_witness :
  (exists c c',
     run_handler dashboard env0 large_yield_db (Some 1)
     = (TemplateResponse "dashboard.html" (Dashboard c), large_yield_db, Some 1)
     /\ run_handler dashboard env0
          (serve env0 large_yield_db (Some 1) (POST_milk 4 (today env0) 0.1 0.2))
          (Some 1)
        = (TemplateResponse "dashboard.html" (Dashboard c'),
           serve env0 large_yield_db (Some 1) (POST_milk 4 (today env0) 0.1 0.2),
           Some 1)
     /\ DashboardCtx.today_milk c'
        = total_of (compensated_sum env0)
            (scope_rows MilkYieldDaily.animal_id (farmer 1 1 false) large_yield_db
               (filter (milk_on (today env0)) (milk large_yield_db))
             ++ [new_milk large_yield_db 4 (today env0) 0.1 0.2])
     /\ MilkYieldDaily.total_liters (new_milk large_yield_db 4 (today env0) 0.1 0.2)
        = stored (0.1 + 0.2)%float
     /\ (compensated_sum env0 = false ->
         DashboardCtx.today_milk c'
         = (DashboardCtx.today_milk c + stored (0.1 + 0.2)%float)%float))
  /\ (exists c c',
     run_handler dashboard env_compensated large_yield_db (Some 1)
     = (TemplateResponse "dashboard.html" (Dashboard c), large_yield_db, Some 1)
     /\ run_handler dashboard env_compensated
          (serve env_compensated large_yield_db (Some 1)
             (POST_milk 4 (today env_compensated) 1 0))
          (Some 1)
        = (TemplateResponse "dashboard.html" (Dashboard c'),
           serve env_compensated large_yield_db (Some 1)
             (POST_milk 4 (today env_compensated) 1 0),
           Some 1)
     /\ DashboardCtx.today_milk c'
        = total_of (compensated_sum env_compensated)
            (scope_rows MilkYieldDaily.animal_id (farmer 1 1 false) large_yield_db
               (filter (milk_on (today env_compensated)) (milk large_yield_db))
             ++ [new_milk large_yield_db 4 (today env_compensated) 1 0])
     /\ MilkYieldDaily.total_liters
          (new_milk large_yield_db 4 (today env_compensated) 1 0)
        = stored (1 + 0)%float
     /\ (compensated_sum env_compensated = false ->
         DashboardCtx.today_milk c'
         = (DashboardCtx.today_milk c + stored (1 + 0)%float)%float)).
Proof.
  split.
  - apply (milk_entry_shows_on_dashboard env0 large_yield_db (Some 1)
             (farmer 1 1 false) (cow 4 "T4" 1) 4 0.1%float 0.2%float).
    + reflexivity.
    + cbn. unfold DATE_MAX. lia.
    + reflexivity.
    + reflexivity.
    + reflexivity.
    + reflexivity.
    + reflexivity.
  - apply (milk_entry_shows_on_dashboard env_compensated large_yield_db (Some 1)
             (farmer 1 1 false) (cow 4 "T4" 1) 4 1%float 0%float).
    + reflexivity.
    + cbn. unfold DATE_MAX. lia.
    + reflexivity.
    + reflexivity.
    + reflexivity.
    + reflexivity.
    + reflexivity.
Defined.

(** On the rows 1e16, 1, 1 a further litre shows under a compensated [sum]
    and is lost under the plain one, which adds left to right. *)
Example further_litre_on_dashboard :
  let shown env :=
    DashboardCtx.today_milk
      (dashboard_ctx env
         (serve env large_yield_db (Some 1) (POST_milk 4 (today env) 1 0))
         (farmer 1 1 false)) in
  shown env0 = 1e16%float /\ shown env_compensated = 10000000000000004%float.
Proof. split; vm_compute; reflexivity. Qed.
